(** * Pearl benchmark harness: configuration resolver, run launcher, aggregator

    A shallow embedding of [pearl/utils/scripts/benchmark.py].

    - [Py]        : the fragment of Python the script relies on (dynamic
                    values, dictionaries, exceptions as an error monad).
    - [Resolver]  : [evaluate_single], from the first statement up to the
                    construction of the agent.
    - [Launcher]  : [run] and [evaluate], with the trace of process events.
    - [Aggregator]: [generate_one_plot] and [generate_plots], over a
                    read-only file system of persisted run arrays.
    - [Executor]  : [evaluate_single] to its end: the training loop and the
                    metrics it persists, as a trace of events.
    - [Sharing]   : [run] and [evaluate] once more, with the method
                    descriptors as shared objects in a store.

    Descriptors are taken as values ([Sharing] apart): a method or
    experiment descriptor is a dictionary whose nested argument bundles are
    distinct objects (the configuration module builds every bundle from its
    own literal), so an in-place update of a nested bundle is an update of
    that entry of the descriptor, and the functions return the updated
    descriptor where the script mutates its argument.  The classes, the environment, numpy and
    the plotting library are collaborators: they appear as parameters of
    the sections or as events of a trace. *)

From Stdlib Require Import Ascii.
From stdpp Require Import gmap strings list fin_maps pretty.

#[local] Set Warnings "-register-all".

(* ===================================================================== *)
(** ** Python values, exceptions, dictionaries *)
(* ===================================================================== *)

Module Py.

(** Exceptions the script can raise or let through. *)
Inductive exn : Type :=
  | KeyError (key : string)
  | AttributeError (attr : string)
  | TypeError
  | IndexError
  | ValueError
  | AssertionError
  | OverflowError
  | ExternalError (info : string).

(** A computation either returns or raises. *)
Inductive result (A : Type) : Type :=
  | Ok (a : A)
  | Raise (e : exn).
Arguments Ok {A} a.
Arguments Raise {A} e.

#[global] Instance result_ret : MRet result := @Ok.
#[global] Instance result_bind : MBind result :=
  λ A B f m, match m with Ok a => f a | Raise e => Raise e end.

Definition is_ok {A} (r : result A) : bool :=
  match r with Ok _ => true | Raise _ => false end.

(** Classes.  The script compares some constructors by identity (the
    imported network classes) and others by [__name__]; a class that is not
    one of the imported ones is identified by its name, which may well be
    the name of an imported class. *)
Inductive cls : Type :=
  | CNNQValueNetwork
  | CNNQValueMultiHeadNetwork
  | CNNValueNetwork
  | CNNActorNetwork
  | TwinCritic
  | IdentityActionRepresentationModule
  | PearlAgent
  | OtherClass (name : string).

#[global] Instance cls_eq_dec : EqDecision cls.
Proof. solve_decision. Defined.

Definition dunder_name (c : cls) : string :=
  match c with
  | CNNQValueNetwork => "CNNQValueNetwork"
  | CNNQValueMultiHeadNetwork => "CNNQValueMultiHeadNetwork"
  | CNNValueNetwork => "CNNValueNetwork"
  | CNNActorNetwork => "CNNActorNetwork"
  | TwinCritic => "TwinCritic"
  | IdentityActionRepresentationModule => "IdentityActionRepresentationModule"
  | PearlAgent => "PearlAgent"
  | OtherClass name => name
  end.

(** The action space of an environment: [n] and [action_dim] are attributes
    that a given kind of space may or may not have. *)
Record action_space : Type := ActionSpace {
  space_n : option Z;
  space_action_dim : option Z
}.

(** The environment, as far as the script looks at it. *)
Record env : Type := Env {
  observation_shape : list Z;
  env_action_space : action_space
}.

(** Dynamic values.  An instance is the object a constructor returned; what
    a constructor returns is left to the collaborators (see [construct]
    below), [VInst] is the symbolic instance "class called with these
    keyword arguments". *)
Inductive value : Type :=
  | VNone
  | VBool (b : bool)
  | VInt (z : Z)
  | VStr (s : string)
  | VClass (c : cls)
  | VSpace (sp : action_space)
  | VList (l : list value)
  | VDict (d : gmap string value)
  | VInst (c : cls) (kw : gmap string value).

Abbreviation dict := (gmap string value).

(** [k in d] *)
Definition has_key (k : string) (d : dict) : bool :=
  match d !! k with Some _ => true | None => false end.

(** [d[k]] *)
Definition getitem (d : dict) (k : string) : result value :=
  match d !! k with Some v => Ok v | None => Raise (KeyError k) end.

(** [d.get(k)] *)
Definition dict_get (d : dict) (k : string) : value :=
  match d !! k with Some v => v | None => VNone end.

(** [d.get(k, dflt)] *)
Definition dict_get_default (d : dict) (k : string) (dflt : value) : value :=
  match d !! k with Some v => v | None => dflt end.

(** [del d[k]] *)
Definition delitem (d : dict) (k : string) : result dict :=
  match d !! k with Some _ => Ok (delete k d) | None => Raise (KeyError k) end.

(** [v[k]] for a value [v] that should be a dictionary. *)
Definition subscript (v : value) (k : string) : result value :=
  match v with VDict d => getitem d k | _ => Raise TypeError end.

(** [v[k] = x] for a value [v] that should be a dictionary. *)
Definition store_subscript (v : value) (k : string) (x : value) : result value :=
  match v with VDict d => Ok (VDict (<[k := x]> d)) | _ => Raise TypeError end.

(** [d[k1][k2] = x]: the bundle [d[k1]] is updated in place. *)
Definition setitem_nested (d : dict) (k1 k2 : string) (x : value) : result dict :=
  b ← getitem d k1;
  b' ← store_subscript b k2 x;
  Ok (<[k1 := b']> d).

(** [d[k1][k2]] *)
Definition getitem_nested (d : dict) (k1 k2 : string) : result value :=
  b ← getitem d k1; subscript b k2.

(** Truth value of an object ([if v:]). *)
Definition truthy (v : value) : bool :=
  match v with
  | VNone => false
  | VBool b => b
  | VInt z => negb (z =? 0)%Z
  | VStr s => negb (String.eqb s "")
  | VList l => match l with [] => false | _ => true end
  | VDict d => negb (bool_decide (d = ∅))
  | VClass _ | VSpace _ | VInst _ _ => true
  end.

(** [v == s] for a string literal [s]. *)
Definition eq_str (v : value) (s : string) : bool :=
  match v with VStr s' => String.eqb s' s | _ => false end.

(** [v is c] / [v == c] for a class [c]. *)
Definition is_cls (v : value) (c : cls) : bool :=
  match v with VClass c' => bool_decide (c' = c) | _ => false end.

(** [needle in hay] on strings. *)
Fixpoint substring_of (needle hay : string) : bool :=
  String.prefix needle hay ||
  match hay with
  | EmptyString => false
  | String _ hay' => substring_of needle hay'
  end.

(** [s in v] for a string literal [s]: substring test on a string, key
    test on a dictionary, element test on a list. *)
Definition str_in (s : string) (v : value) : result bool :=
  match v with
  | VStr hay => Ok (substring_of s hay)
  | VDict d => Ok (has_key s d)
  | VList l => Ok (existsb (λ x, eq_str x s) l)
  | _ => Raise TypeError
  end.

(** [v.__name__] *)
Definition name_of (v : value) : result string :=
  match v with
  | VClass c => Ok (dunder_name c)
  | _ => Raise (AttributeError "__name__")
  end.

(** Integers and booleans take part in arithmetic. *)
Definition as_int (v : value) : option Z :=
  match v with
  | VInt z => Some z
  | VBool b => Some (if b then 1 else 0)%Z
  | _ => None
  end.

Fixpoint str_repeat (n : nat) (s : string) : string :=
  match n with O => "" | S n' => String.append s (str_repeat n' s) end.

Fixpoint list_repeat {A} (n : nat) (l : list A) : list A :=
  match n with O => [] | S n' => l ++ list_repeat n' l end.

(** [a + b] *)
Definition py_add (a b : value) : result value :=
  match as_int a, as_int b with
  | Some x, Some y => Ok (VInt (x + y))
  | _, _ =>
      match a, b with
      | VStr s, VStr t => Ok (VStr (String.append s t))
      | VList l, VList k => Ok (VList (l ++ k))
      | _, _ => Raise TypeError
      end
  end.

(** [a * b] *)
Definition py_mul (a b : value) : result value :=
  match as_int a, as_int b with
  | Some x, Some y => Ok (VInt (x * y))
  | Some x, None =>
      match b with
      | VStr s => Ok (VStr (str_repeat (Z.to_nat x) s))
      | VList l => Ok (VList (list_repeat (Z.to_nat x) l))
      | _ => Raise TypeError
      end
  | None, Some y =>
      match a with
      | VStr s => Ok (VStr (str_repeat (Z.to_nat y) s))
      | VList l => Ok (VList (list_repeat (Z.to_nat y) l))
      | _ => Raise TypeError
      end
  | None, None => Raise TypeError
  end.

(** An object used where an integer is required. *)
Definition py_int (v : value) : result Z :=
  match as_int v with
  | Some n => Ok n
  | None => Raise TypeError
  end.

(** [range(n)]: empty when [n] is not positive. *)
Definition range (n : Z) : list Z := Z.of_nat <$> seq 0 (Z.to_nat n).

(** [range(v)] *)
Definition py_range (v : value) : result (list Z) :=
  n ← py_int v; Ok (range n).

(** The elements a [for] loop over [v] visits: the elements of a list, the
    characters of a string, the keys of a dictionary. *)
Fixpoint chars (s : string) : list value :=
  match s with
  | EmptyString => []
  | String a s' => VStr (String a EmptyString) :: chars s'
  end.

Definition py_iter (v : value) : result (list value) :=
  match v with
  | VList l => Ok l
  | VStr s => Ok (chars s)
  | VDict d => Ok (VStr <$> (map_to_list d).*1)
  | _ => Raise TypeError
  end.

(** [shape[i]] *)
Definition shape_at (e : env) (i : nat) : result Z :=
  match observation_shape e !! i with
  | Some z => Ok z
  | None => Raise IndexError
  end.

(** [env.action_space.n] and [env.action_space.action_dim] *)
Definition action_n (e : env) : result value :=
  match space_n (env_action_space e) with
  | Some n => Ok (VInt n)
  | None => Raise (AttributeError "n")
  end.

Definition action_dim (e : env) : result value :=
  match space_action_dim (env_action_space e) with
  | Some n => Ok (VInt n)
  | None => Raise (AttributeError "action_dim")
  end.

(** Keyword arguments of a call [f(k1=v1, ..., **bundle)]: the bundle has
    to be a mapping and may not repeat an explicit keyword. *)
Fixpoint add_keywords (explicit : list (string * value)) (kw : dict) : result dict :=
  match explicit with
  | [] => Ok kw
  | (k, v) :: rest =>
      kw' ← add_keywords rest kw;
      if has_key k kw' then Raise TypeError else Ok (<[k := v]> kw')
  end.

Definition keywords (explicit : list (string * value)) (bundle : value) : result dict :=
  match bundle with
  | VDict d => add_keywords explicit d
  | _ => Raise TypeError
  end.

(** Effects on the outside world (printing, plotting, processes) are
    recorded as a trace of events; what was emitted before an exception
    stays emitted. *)
Definition eff (E A : Type) : Type := (list E * result A)%type.

#[global] Instance eff_ret {E} : MRet (eff E) := λ A a, ([], Ok a).
#[global] Instance eff_bind {E} : MBind (eff E) :=
  λ A B f m,
    match m.2 with
    | Ok a => (m.1 ++ (f a).1, (f a).2)
    | Raise e => (m.1, Raise e)
    end.

Definition tell {E} (ev : E) : eff E () := ([ev], Ok ()).
Definition lift {E A} (r : result A) : eff E A := ([], r).

(** [for x in l: body(x)] *)
Fixpoint for_each {E A} (body : A → eff E ()) (l : list A) : eff E () :=
  match l with
  | [] => mret ()
  | x :: rest => body x;; for_each body rest
  end.

End Py.

(* ===================================================================== *)
(** ** Configuration resolver: [evaluate_single] *)
(* ===================================================================== *)

Module Resolver.
Import Py.

(** The three local names [evaluate_single] works on: the descriptor
    [method], [policy_learner_args] and [agent_args] (which stays a plain
    value until it is first written to or unpacked).  The last two are the
    objects stored under the descriptor's keys of these names; the function
    never reads those two entries of [method] again, so the record holds
    their current contents in its own fields. *)
Record rstate : Type := RState {
  method : dict;
  policy_learner_args : dict;
  agent_args : value
}.

Definition with_pla (s : rstate) (p : dict) : rstate :=
  RState (method s) p (agent_args s).
Definition with_agent_args (s : rstate) (a : value) : rstate :=
  RState (method s) (policy_learner_args s) a.

(** A step that leaves the descriptor and [agent_args] alone and writes
    only the listed keys of [policy_learner_args]. *)
Definition only_writes (keys : list string) (s s' : rstate) : Prop :=
  method s' = method s ∧ agent_args s' = agent_args s ∧
  ∀ k, k ∉ keys → policy_learner_args s' !! k = policy_learner_args s !! k.

(** The keys of [policy_learner_args] written after the
    history-summarization step. *)
Definition network_keys : list string :=
  ["network_instance"; "critic_network_instance"; "actor_network_instance";
   "q_ensemble_network"; "actor_network_type"; "action_space"; "state_dim"].

Section WithCollaborators.

(** The collaborators: what calling a class with keyword arguments returns
    (or raises), and what reading [.representation_dim] off an object
    returns (or raises).  An object is determined by its class and
    arguments; the identity of objects is not modelled. *)
Variable construct : cls → dict → result value.
Variable representation_dim : value → result value.

(** [f(k1=v1, ..., **bundle)] *)
Definition call (f : value) (explicit : list (string * value)) (bundle : value)
  : result value :=
  kw ← keywords explicit bundle;
  match f with
  | VClass c => construct c kw
  | _ => Raise TypeError
  end.

(** [policy_learner_args["action_representation_module"].representation_dim] *)
Definition arm_representation_dim (pla : dict) : result value :=
  arm ← getitem pla "action_representation_module";
  representation_dim arm.

(** Lines 134-138. *)
Definition resolve_init (e : env) (m : dict) : result (value * rstate) :=
  policy_learner ← getitem m "policy_learner";
  pla ← getitem m "policy_learner_args";
  aa ← getitem m "agent_args";
  d0 ← shape_at e 0;
  match pla with
  | VDict p => Ok (policy_learner, RState m (<["state_dim" := VInt d0]> p) aa)
  | _ => Raise TypeError
  end.

(** Lines 140-150. *)
Definition resolve_exploration (s : rstate) : result rstate :=
  let m := method s in
  if has_key "exploration_module" m && has_key "exploration_module_args" m then
    f ← getitem m "exploration_module";
    a ← getitem m "exploration_module_args";
    em ← call f [] a;
    let pla := <["exploration_module" := em]> (policy_learner_args s) in
    if has_key "exploration_module_wrapper" m then
      w ← getitem m "exploration_module_wrapper";
      inner ← getitem pla "exploration_module";
      wa ← getitem m "exploration_module_wrapper_args";
      em' ← call w [("exploration_module", inner)] wa;
      Ok (with_pla s (<["exploration_module" := em']> pla))
    else Ok (with_pla s pla)
  else Ok s.

(** Lines 151-154. *)
Definition resolve_replay_buffer (s : rstate) : result rstate :=
  let m := method s in
  if has_key "replay_buffer" m && has_key "replay_buffer_args" m then
    f ← getitem m "replay_buffer";
    a ← getitem m "replay_buffer_args";
    rb ← call f [] a;
    aa ← store_subscript (agent_args s) "replay_buffer" rb;
    Ok (with_agent_args s aa)
  else Ok s.

(** Lines 155-158. *)
Definition resolve_safety (s : rstate) : result rstate :=
  let m := method s in
  if has_key "safety_module" m && has_key "safety_module_args" m then
    f ← getitem m "safety_module";
    a ← getitem m "safety_module_args";
    sm ← call f [] a;
    aa ← store_subscript (agent_args s) "safety_module" sm;
    Ok (with_agent_args s aa)
  else Ok s.

(** Lines 163-168: the one-hot variant gets [max_number_actions]. *)
Definition inject_one_hot (e : env) (m : dict) : result dict :=
  f ← getitem m "action_representation_module";
  nm ← name_of f;
  if String.eqb nm "OneHotActionTensorRepresentationModule" then
    n ← action_n e;
    setitem_nested m "action_representation_module_args" "max_number_actions" n
  else Ok m.

(** Lines 169-177: the identity variant gets [max_number_actions] and
    [representation_dim]. *)
Definition inject_identity (e : env) (m : dict) : result dict :=
  f ← getitem m "action_representation_module";
  nm ← name_of f;
  if String.eqb nm "IdentityActionRepresentationModule" then
    n ← action_n e;
    m1 ← setitem_nested m "action_representation_module_args" "max_number_actions" n;
    d ← action_dim e;
    setitem_nested m1 "action_representation_module_args" "representation_dim" d
  else Ok m.

(** Lines 159-185. *)
Definition resolve_action_representation (e : env) (s : rstate) : result rstate :=
  let m := method s in
  if has_key "action_representation_module" m
     && has_key "action_representation_module_args" m then
    m1 ← inject_one_hot e m;
    m2 ← inject_identity e m1;
    f ← getitem m2 "action_representation_module";
    a ← getitem m2 "action_representation_module_args";
    arm ← call f [] a;
    Ok (RState m2 (<["action_representation_module" := arm]> (policy_learner_args s))
               (agent_args s))
  else
    arm ← construct IdentityActionRepresentationModule ∅;
    Ok (with_pla s (<["action_representation_module" := arm]> (policy_learner_args s))).

(** Lines 199-201 and 215-217: the conditional expression that picks the
    action dimension handed to the history-summarization module. *)
Definition history_action_dim (e : env) (pla : dict) : result value :=
  if has_key "action_representation_module" pla then arm_representation_dim pla
  else action_dim e.

(** Lines 195-202 and 211-218: [observation_dim] and [action_dim] are
    written into the module's argument bundle. *)
Definition inject_history_dims (e : env) (s : rstate) : result dict :=
  d0 ← shape_at e 0;
  m1 ← setitem_nested (method s) "history_summarization_module_args"
         "observation_dim" (VInt d0);
  ad ← history_action_dim e (policy_learner_args s);
  setitem_nested m1 "history_summarization_module_args" "action_dim" ad.

(** Lines 187-225. *)
Definition resolve_history (e : env) (s : rstate) : result rstate :=
  let m := method s in
  if has_key "history_summarization_module" m
     && has_key "history_summarization_module_args" m then
    f ← getitem m "history_summarization_module";
    nm ← name_of f;
    s1 ←
      (if String.eqb nm "StackingHistorySummarizationModule" then
         m2 ← inject_history_dims e s;
         od ← getitem_nested m2 "history_summarization_module_args" "observation_dim";
         ad ← getitem_nested m2 "history_summarization_module_args" "action_dim";
         sum ← py_add od ad;
         hl ← getitem_nested m2 "history_summarization_module_args" "history_length";
         sd ← py_mul sum hl;
         Ok (RState m2 (<["state_dim" := sd]> (policy_learner_args s)) (agent_args s))
       else if String.eqb nm "LSTMHistorySummarizationModule" then
         m2 ← inject_history_dims e s;
         hd ← getitem_nested m2 "history_summarization_module_args" "hidden_dim";
         Ok (RState m2 (<["state_dim" := hd]> (policy_learner_args s)) (agent_args s))
       else Ok s);
    f' ← getitem (method s1) "history_summarization_module";
    a ← getitem (method s1) "history_summarization_module_args";
    hsm ← call f' [] a;
    aa ← store_subscript (agent_args s1) "history_summarization_module" hsm;
    Ok (with_agent_args s1 aa)
  else Ok s.

(** [v in [CNNQValueNetwork, CNNQValueMultiHeadNetwork]] *)
Definition is_cnn_q (v : value) : bool :=
  is_cls v CNNQValueNetwork || is_cls v CNNQValueMultiHeadNetwork.

(** [method[k] in [CNNQValueNetwork, CNNQValueMultiHeadNetwork]], only
    evaluated when [k in method]. *)
Definition key_is_cnn_q (m : dict) (k : string) : bool :=
  match m !! k with Some v => is_cnn_q v | None => false end.

Definition key_is_cls (m : dict) (k : string) (c : cls) : bool :=
  match m !! k with Some v => is_cls v c | None => false end.

(** Lines 227-246. *)
Definition resolve_network (e : env) (s : rstate) : result rstate :=
  let m := method s in
  if key_is_cnn_q m "network_module" then
    f ← getitem m "network_module";
    w ← shape_at e 2;
    h ← shape_at e 1;
    c ← shape_at e 0;
    ad ← arm_representation_dim (policy_learner_args s);
    od ← (if is_cls f CNNQValueNetwork then Ok (VInt 1)
          else arm_representation_dim (policy_learner_args s));
    na ← getitem m "network_args";
    inst ← call f [("input_width", VInt w); ("input_height", VInt h);
                   ("input_channels_count", VInt c); ("action_dim", ad);
                   ("output_dim", od)] na;
    Ok (with_pla s (<["network_instance" := inst]> (policy_learner_args s)))
  else Ok s.

(** One critic network, as lines 259-266, 267-274 and 277-286 build it. *)
Definition cnn_critic (e : env) (m : dict) (ad od : value) : result value :=
  f ← getitem m "critic_network_module";
  w ← shape_at e 2;
  h ← shape_at e 1;
  c ← shape_at e 0;
  ca ← getitem m "critic_network_args";
  call f [("input_width", VInt w); ("input_height", VInt h);
          ("input_channels_count", VInt c); ("action_dim", ad);
          ("output_dim", od)] ca.

(** ["use_twin_critic" in method and method["use_twin_critic"]] *)
Definition use_twin_critic (m : dict) : bool :=
  match m !! "use_twin_critic" with Some v => truthy v | None => false end.

(** Lines 247-286. *)
Definition resolve_critic (e : env) (s : rstate) : result rstate :=
  let m := method s in
  if key_is_cnn_q m "critic_network_module" then
    ad ← arm_representation_dim (policy_learner_args s);
    f ← getitem m "critic_network_module";
    let od := if is_cls f CNNQValueNetwork then VInt 1 else ad in
    if use_twin_critic m then
      n1 ← cnn_critic e m ad od;
      n2 ← cnn_critic e m ad od;
      tc ← construct TwinCritic
             (<["network_instance_1" := n1]> (<["network_instance_2" := n2]> ∅));
      Ok (with_pla s (<["critic_network_instance" := tc]> (policy_learner_args s)))
    else
      n ← cnn_critic e m ad od;
      Ok (with_pla s (<["critic_network_instance" := n]> (policy_learner_args s)))
  else Ok s.

(** Lines 288-300. *)
Definition resolve_value_critic (e : env) (s : rstate) : result rstate :=
  let m := method s in
  if key_is_cls m "critic_network_module" CNNValueNetwork then
    f ← getitem m "critic_network_module";
    w ← shape_at e 2;
    h ← shape_at e 1;
    c ← shape_at e 0;
    ca ← getitem m "critic_network_args";
    inst ← call f [("input_width", VInt w); ("input_height", VInt h);
                   ("input_channels_count", VInt c); ("output_dim", VInt 1)] ca;
    Ok (with_pla s (<["critic_network_instance" := inst]> (policy_learner_args s)))
  else Ok s.

(** Lines 302-314. *)
Definition resolve_actor (e : env) (s : rstate) : result rstate :=
  let m := method s in
  if key_is_cls m "actor_network_module" CNNActorNetwork then
    f ← getitem m "actor_network_module";
    w ← shape_at e 2;
    h ← shape_at e 1;
    c ← shape_at e 0;
    od ← arm_representation_dim (policy_learner_args s);
    aa ← getitem m "actor_network_args";
    inst ← call f [("input_width", VInt w); ("input_height", VInt h);
                   ("input_channels_count", VInt c); ("output_dim", od)] aa;
    Ok (with_pla s (<["actor_network_instance" := inst]> (policy_learner_args s)))
  else Ok s.

(** The network both name-specific branches build:
    [method["network_module"](state_dim=shape[0], action_dim=n, **network_args)]. *)
Definition raw_dims_network (e : env) (m : dict) : result value :=
  (if has_key "network_module" m && has_key "network_args" m then Ok ()
   else Raise AssertionError);;
  f ← getitem m "network_module";
  d0 ← shape_at e 0;
  n ← action_n e;
  na ← getitem m "network_args";
  call f [("state_dim", VInt d0); ("action_dim", n)] na.

(** A network built by a name-specific branch, spelled out: the configured
    [network_module] called with [state_dim = shape[0]],
    [action_dim = action_space.n] and the entries of [network_args]. *)
Definition built_from_raw_dims (e : env) (m : dict) (inst : value) : Prop :=
  ∃ c na d0 n,
    m !! "network_module" = Some (VClass c) ∧
    m !! "network_args" = Some (VDict na) ∧
    observation_shape e !! 0%nat = Some d0 ∧
    space_n (env_action_space e) = Some n ∧
    na !! "state_dim" = None ∧ na !! "action_dim" = None ∧
    construct c (<["state_dim" := VInt d0]> (<["action_dim" := VInt n]> na)) = Ok inst.

(** Lines 316-322. *)
Definition resolve_dueling (e : env) (s : rstate) : result rstate :=
  nm ← getitem (method s) "name";
  if eq_str nm "DuelingDQN" then
    inst ← raw_dims_network e (method s);
    Ok (with_pla s (<["network_instance" := inst]> (policy_learner_args s)))
  else Ok s.

(** Lines 323-330. *)
Definition resolve_bootstrapped (e : env) (s : rstate) : result rstate :=
  nm ← getitem (method s) "name";
  if eq_str nm "BootstrappedDQN" then
    inst ← raw_dims_network e (method s);
    pla ← delitem (<["q_ensemble_network" := inst]> (policy_learner_args s)) "state_dim";
    Ok (with_pla s pla)
  else Ok s.

(** Lines 332-333. *)
Definition resolve_dynamic (s : rstate) : result rstate :=
  nm ← getitem (method s) "name";
  b ← str_in "dynamic" nm;
  if b : bool then
    t ← getitem (method s) "actor_network_type";
    Ok (with_pla s (<["actor_network_type" := t]> (policy_learner_args s)))
  else Ok s.

(** Line 335. *)
Definition attach_action_space (e : env) (s : rstate) : rstate :=
  with_pla s (<["action_space" := VSpace (env_action_space e)]> (policy_learner_args s)).

(** Lines 140-185: everything up to and including the resolution of the
    action-representation module. *)
Definition resolve_modules (e : env) (s : rstate) : result rstate :=
  s1 ← resolve_exploration s;
  s2 ← resolve_replay_buffer s1;
  s3 ← resolve_safety s2;
  resolve_action_representation e s3.

(** Lines 227-335: everything after the history-summarization step. *)
Definition resolve_networks (e : env) (s : rstate) : result rstate :=
  s1 ← resolve_network e s;
  s2 ← resolve_critic e s1;
  s3 ← resolve_value_critic e s2;
  s4 ← resolve_actor e s3;
  s5 ← resolve_dueling e s4;
  s6 ← resolve_bootstrapped e s5;
  s7 ← resolve_dynamic s6;
  Ok (attach_action_space e s7).

(** Lines 134-335: the resolved state, with the policy-learner constructor
    read at line 134. *)
Definition resolve (e : env) (m : dict) : result (value * rstate) :=
  '(pl, s0) ← resolve_init e m;
  s1 ← resolve_modules e s0;
  s2 ← resolve_history e s1;
  s3 ← resolve_networks e s2;
  Ok (pl, s3).

(** The states a successful resolution goes through: after line 138,
    after line 185, after line 225 and after line 335. *)
Definition phases (e : env) (m : dict) (pl : value) (s0 s1 s2 s3 : rstate) : Prop :=
  resolve_init e m = Ok (pl, s0) ∧
  resolve_modules e s0 = Ok s1 ∧
  resolve_history e s1 = Ok s2 ∧
  resolve_networks e s2 = Ok s3.

(** Lines 336-341: the agent is built from the
    policy learner, itself built from [policy_learner_args] unpacked, and
    from [agent_args] unpacked. *)
Definition build_agent (pl : value) (s : rstate) : result value :=
  learner ← call pl [] (VDict (policy_learner_args s));
  kw ← keywords [("policy_learner", learner)] (agent_args s);
  construct PearlAgent kw.

(** [evaluate_single] up to the agent it hands to the training loop, for
    the environment [get_env(env_name)] returned; seeding, the training loop
    and the persistence of its output are the collaborators'. *)
Definition evaluate_single (e : env) (m : dict) : result value :=
  '(pl, s) ← resolve e m;
  build_agent pl s.

End WithCollaborators.

End Resolver.

(* ===================================================================== *)
(** ** Run launcher: [run] and [evaluate] *)
(* ===================================================================== *)

Module Launcher.
Import Py.

(** A process object: the arguments [evaluate_single] is bound to, in the
    order of the [args] tuple. *)
Record process : Type := Process {
  p_env_name : value;
  p_method : value;
  p_run_idx : Z;
  p_num_episodes : value;
  p_num_steps : value;
  p_print_every_x_episodes : value;
  p_print_every_x_steps : value;
  p_record_period : value
}.

(** What the launcher does to a process. *)
Inductive process_event : Type :=
  | Started (p : process)
  | Joined (p : process).

(** Lines 101-117: the loop over the methods, appending to [processes].
    The method is bound with its [agent_args] entry set. *)
Fixpoint spawn_methods (experiment : dict)
    (env_name num_runs num_episodes num_steps record_period
     print_every_x_episodes print_every_x_steps : value)
    (methods : list value) (processes : list process) : result (list process) :=
  match methods with
  | [] => Ok processes
  | method :: rest =>
      dev ← getitem experiment "device_id";
      method' ← store_subscript method "agent_args" (VDict {["device_id" := dev]});
      runs ← py_range num_runs;
      spawn_methods experiment env_name num_runs num_episodes num_steps record_period
        print_every_x_episodes print_every_x_steps rest
        (processes ++
           ((λ run_idx, Process env_name method' run_idx num_episodes num_steps
                          print_every_x_episodes print_every_x_steps record_period)
              <$> runs))
  end.

(** Lines 90-119: returns [all_processes] extended. *)
Definition evaluate (experiment : dict) (all_processes : list process)
  : result (list process) :=
  env_name ← getitem experiment "env_name";
  num_runs ← getitem experiment "num_runs";
  let num_episodes := dict_get experiment "num_episodes" in
  let num_steps := dict_get experiment "num_steps" in
  record_period ← getitem experiment "record_period";
  let print_every_x_episodes := dict_get experiment "print_every_x_episodes" in
  let print_every_x_steps := dict_get experiment "print_every_x_steps" in
  methods ← getitem experiment "methods";
  ms ← py_iter methods;
  processes ← spawn_methods experiment env_name num_runs num_episodes num_steps
                 record_period print_every_x_episodes print_every_x_steps ms [];
  Ok (all_processes ++ processes).

(** Lines 81-82. *)
Fixpoint evaluate_all (experiments : list dict) (all_processes : list process)
  : result (list process) :=
  match experiments with
  | [] => Ok all_processes
  | e :: rest =>
      all_processes' ← evaluate e all_processes;
      evaluate_all rest all_processes'
  end.

(** Lines 76-87: the trace of [start] and [join] calls. *)
Definition run (experiments : list dict) : eff process_event () :=
  if (0 <? length experiments)%nat then
    all_processes ← lift (evaluate_all experiments []);
    for_each (λ p, tell (Started p)) all_processes;;
    for_each (λ p, tell (Joined p)) all_processes
  else lift (Raise AssertionError).

(** The execution units as the specification words them: for every
    experiment, for every method in it, for every run index in
    [0, run_count), one unit bound to (environment name, method descriptor,
    run index, episode budget, step budget, print cadences, record
    period). *)
Definition bound_method (experiment : dict) (method : value) : value :=
  match method with
  | VDict m =>
      VDict (<["agent_args" := VDict {["device_id" := dict_get experiment "device_id"]}]> m)
  | _ => method
  end.

Definition methods_of (experiment : dict) : list value :=
  match experiment !! "methods" with Some (VList ms) => ms | _ => [] end.

Definition run_count (experiment : dict) : Z :=
  match experiment !! "num_runs" with
  | Some v => default 0%Z (as_int v)
  | None => 0%Z
  end.

Definition spec_units (experiment : dict) : list process :=
  method ← methods_of experiment;
  run_idx ← range (run_count experiment);
  [Process (dict_get experiment "env_name") (bound_method experiment method) run_idx
     (dict_get experiment "num_episodes") (dict_get experiment "num_steps")
     (dict_get experiment "print_every_x_episodes")
     (dict_get experiment "print_every_x_steps")
     (dict_get experiment "record_period")].

(** A descriptor the launcher accepts: the mandatory keys, an integer run
    count, a list of method dictionaries and, when there is a method, a
    device identifier. *)
Definition is_dict (v : value) : bool :=
  match v with VDict _ => true | _ => false end.

Definition well_formed (experiment : dict) : bool :=
  has_key "env_name" experiment
  && has_key "record_period" experiment
  && match experiment !! "num_runs" with
     | Some v => bool_decide (is_Some (as_int v))
     | None => false
     end
  && match experiment !! "methods" with
     | Some (VList ms) =>
         forallb is_dict ms
         && (match ms with [] => true | _ => has_key "device_id" experiment end)
     | _ => false
     end.

End Launcher.

(* ===================================================================== *)
(** ** Aggregator and plotter: [generate_one_plot], [generate_plots] *)
(* ===================================================================== *)

Module Aggregator.
Import Py.

(** The module-level table of axis titles. *)
Definition attr_to_title : gmap string string :=
  list_to_map [("return", "return"); ("return_cost", "cummulative cost");
               ("risk_sa", "risk_sa")].

(** [np.arange] is an array of signed 64-bit integers. *)
Definition wrap64 (z : Z) : Z := ((z + 2 ^ 63) `mod` 2 ^ 64 - 2 ^ 63)%Z.

Definition fits_int64 (z : Z) : bool := ((- 2 ^ 63 <=? z) && (z <? 2 ^ 63))%Z.

(** [s.replace("_", "-")] *)
Fixpoint dashes (s : string) : string :=
  match s with
  | EmptyString => EmptyString
  | String a s' => String (if Ascii.eqb a "_"%char then "-"%char else a) (dashes s')
  end.

(** [record_period * np.arange(n)] for an integer period: the products are
    64-bit and wrap around, and a period that is itself outside the 64-bit
    range is refused.  Periods that are not integers are not modelled: they
    end in an error here. *)
Definition scaled_arange (record_period : value) (n : nat) : result (list Z) :=
  p ← py_int record_period;
  if fits_int64 p then Ok ((λ i, wrap64 (p * Z.of_nat i)) <$> seq 0 n)
  else Raise OverflowError.

Section WithNumpy.

(** Floating-point numbers and the operations on them stay abstract:
    [mean0 c] and [std0 c] are what [mean(axis=0)] and [std(axis=0)] yield
    for a column holding the values [c] (top to bottom), [sqrt_int n] is
    [np.sqrt(n)] of an integer.  [repr_object] is [str()] of the objects
    whose text the model does not fix. *)
Variable F : Type.
Variables mean0 std0 : list F → F.
Variables fadd fsub fdiv : F → F → F.
Variable sqrt_int : Z → F.
Variable repr_object : value → string.

(** The persisted run arrays: a path holds a one-dimensional array. *)
Abbreviation files := (gmap string (list F)).

(** [np.array(data)] for a list of one-dimensional arrays: shape [(0,)]
    for the empty list, shape [(N, L)] for [N] arrays of length [L], an
    error for arrays of different lengths. *)
Inductive stacked : Type :=
  | Flat (xs : list F)
  | Grid (rows : list (list F)) (ncols : nat).

Definition np_array (data : list (list F)) : result stacked :=
  match data with
  | [] => Ok (Flat [])
  | d :: rest =>
      if forallb (λ r, length r =? length d)%nat rest then Ok (Grid data (length d))
      else Raise ValueError
  end.

(** The result of a reduction or of arithmetic on it: shape [()] or
    [(L,)]. *)
Inductive ndarray : Type :=
  | Scalar (x : F)
  | Vector (xs : list F).

Definition column (rows : list (list F)) (i : nat) : list F :=
  omap (λ r : list F, r !! i) rows.

(** A reduction along axis 0. *)
Definition reduce_axis0 (f : list F → F) (a : stacked) : ndarray :=
  match a with
  | Flat xs => Scalar (f xs)
  | Grid rows n => Vector ((λ i, f (column rows i)) <$> seq 0 n)
  end.

(** [a / s] for a scalar [s]. *)
Definition nd_div (a : ndarray) (s : F) : ndarray :=
  match a with
  | Scalar x => Scalar (fdiv x s)
  | Vector xs => Vector ((λ x, fdiv x s) <$> xs)
  end.

(** Element-wise [a op b] for two results of the same shape. *)
Definition nd_zip (op : F → F → F) (a b : ndarray) : result ndarray :=
  match a, b with
  | Scalar x, Scalar y => Ok (Scalar (op x y))
  | Vector xs, Vector ys =>
      if (length xs =? length ys)%nat then Ok (Vector (zip_with op xs ys))
      else Raise ValueError
  | Scalar x, Vector ys => Ok (Vector (op x <$> ys))
  | Vector xs, Scalar y => Ok (Vector ((λ x, op x y) <$> xs))
  end.

(** [a.shape[0]] *)
Definition shape0 (a : ndarray) : result nat :=
  match a with
  | Scalar _ => Raise IndexError
  | Vector xs => Ok (length xs)
  end.

(** Calls into the plotting library and [print], in the order made. *)
Inductive plot_event : Type :=
  | RcFontSize (n : Z)
  | Print (line : string)
  | Plot (x : list Z) (y : ndarray) (label : value)
  | FillBetween (x : list Z) (lower upper : ndarray)
  | Title (s : string)
  | TickFormatSci (axis : string)
  | XLabel (s : string)
  | YLabel (s : string)
  | Legend
  | SaveFig (path : string)
  | Close.

(** [str(v)] inside an f-string. *)
Definition format_value (v : value) : string :=
  match v with
  | VStr s => s
  | VInt z => pretty z
  | VBool b => if b then "True" else "False"
  | VNone => "None"
  | _ => repr_object v
  end.

(** [f"outputs/{env_name}/{method['name']}/{run}_{attr}.npy"] *)
Definition run_path (env_name name : value) (run : Z) (attr : string) : string :=
  "outputs/" +:+ format_value env_name +:+ "/" +:+ format_value name +:+ "/"
    +:+ pretty run +:+ "_" +:+ attr +:+ ".npy".

(** Lines 381-389: the loop over the runs, appending to [data]. *)
Fixpoint load_runs (fs : files) (env_name method : value) (attr : string)
    (runs : list Z) (data : list (list F)) : eff plot_event (list (list F)) :=
  match runs with
  | [] => mret data
  | run :: rest =>
      name ← lift (subscript method "name");
      match fs !! run_path env_name name run attr with
      | Some d => load_runs fs env_name method attr rest (data ++ [d])
      | None =>
          tell (Print ("File not found for " +:+ run_path env_name name run attr));;
          load_runs fs env_name method attr rest data
      end
  end.

(** What is plotted for one method. *)
Record curve : Type := Curve {
  x_list : list Z;
  mean : ndarray;
  std_error : ndarray
}.

(** Lines 380-393. *)
Definition method_curve (fs : files) (env_name num_runs record_period : value)
    (attr : string) (method : value) : eff plot_event curve :=
  n ← lift (py_int num_runs);
  data ← load_runs fs env_name method attr (range n) [];
  arr ← lift (np_array data);
  let mean := reduce_axis0 mean0 arr in
  let std_error := nd_div (reduce_axis0 std0 arr) (sqrt_int n) in
  len ← lift (shape0 mean);
  xs ← lift (scaled_arange record_period len);
  mret (Curve xs mean std_error).

(** Lines 379-404: both arms of the test on ["num_steps"] make the same
    two calls. *)
Definition plot_method (fs : files) (env_name num_runs record_period : value)
    (attr : string) (method : value) : eff plot_event () :=
  c ← method_curve fs env_name num_runs record_period attr method;
  label ← lift (subscript method "name");
  tell (Plot (x_list c) (mean c) label);;
  lower ← lift (nd_zip fsub (mean c) (std_error c));
  upper ← lift (nd_zip fadd (mean c) (std_error c));
  tell (FillBetween (x_list c) lower upper).

(** [env_name.replace("_", "-")] *)
Definition title_of (env_name : value) : result string :=
  match env_name with
  | VStr s => Ok (dashes s)
  | _ => Raise (AttributeError "replace")
  end.

(** Lines 378-415: one chart per attribute. *)
Definition plot_attribute (fs : files) (experiment : dict)
    (env_name exp_name num_runs record_period methods : value) (attr : string)
  : eff plot_event () :=
  ms ← lift (py_iter methods);
  for_each (plot_method fs env_name num_runs record_period attr) ms;;
  title ← lift (title_of env_name);
  tell (Title title);;
  tell (TickFormatSci "y");;
  tell (TickFormatSci "x");;
  tell (XLabel (if has_key "num_steps" experiment then "Steps" else "Episodes"));;
  ylabel ← lift (match attr_to_title !! attr with
                 | Some t => Ok t
                 | None => Raise (KeyError attr)
                 end);
  tell (YLabel ylabel);;
  tell Legend;;
  tell (SaveFig ("outputs/" +:+ format_value exp_name +:+ "_" +:+ format_value env_name
                   +:+ "_" +:+ attr +:+ ".png"));;
  tell Close.

(** Lines 370-415. *)
Definition generate_one_plot (fs : files) (experiment : dict) (attributes : list string)
  : eff plot_event () :=
  tell (RcFontSize 15);;
  env_name ← lift (getitem experiment "env_name");
  exp_name ← lift (getitem experiment "exp_name");
  num_runs ← lift (getitem experiment "num_runs");
  record_period ← lift (getitem experiment "record_period");
  methods ← lift (getitem experiment "methods");
  for_each (plot_attribute fs experiment env_name exp_name num_runs record_period methods)
    attributes.

(** Lines 365-367. *)
Definition generate_plots (fs : files) (experiments : list dict) (attributes : list string)
  : eff plot_event () :=
  for_each (λ e, generate_one_plot fs e attributes) experiments.

(** The runs of a method that are on disk, in run order. *)
Definition found_runs (fs : files) (env_name name : value) (attr : string) (n : Z)
  : list (list F) :=
  omap (λ run, fs !! run_path env_name name run attr) (range n).

(** The notices for the runs that are not. *)
Definition missing_notices (fs : files) (env_name name : value) (attr : string) (n : Z)
  : list plot_event :=
  omap (λ run, match fs !! run_path env_name name run attr with
               | Some _ => None
               | None => Some (Print ("File not found for "
                                       +:+ run_path env_name name run attr))
               end) (range n).

End WithNumpy.

Arguments Flat {F} xs.
Arguments Grid {F} rows ncols.
Arguments Scalar {F} x.
Arguments Vector {F} xs.
Arguments RcFontSize {F} n.
Arguments Print {F} line.
Arguments Plot {F} x y label.
Arguments FillBetween {F} x lower upper.
Arguments Title {F} s.
Arguments TickFormatSci {F} axis.
Arguments XLabel {F} s.
Arguments YLabel {F} s.
Arguments Legend {F}.
Arguments SaveFig {F} path.
Arguments Close {F}.
Arguments Curve {F} x_list mean std_error.
Arguments x_list {F} c.
Arguments mean {F} c.
Arguments std_error {F} c.
Arguments np_array {F} data.
Arguments column {F} rows i.
Arguments reduce_axis0 {F} f a.
Arguments nd_div {F} fdiv a s.
Arguments nd_zip {F} op a b.
Arguments shape0 {F} a.
Arguments load_runs {F} repr_object fs env_name method attr runs data.
Arguments method_curve {F} mean0 std0 fdiv sqrt_int repr_object fs env_name num_runs
  record_period attr method.
Arguments plot_method {F} mean0 std0 fadd fsub fdiv sqrt_int repr_object fs env_name
  num_runs record_period attr method.
Arguments plot_attribute {F} mean0 std0 fadd fsub fdiv sqrt_int repr_object fs experiment
  env_name exp_name num_runs record_period methods attr.
Arguments generate_one_plot {F} mean0 std0 fadd fsub fdiv sqrt_int repr_object fs
  experiment attributes.
Arguments generate_plots {F} mean0 std0 fadd fsub fdiv sqrt_int repr_object fs
  experiments attributes.
Arguments found_runs {F} repr_object fs env_name name attr n.
Arguments missing_notices {F} repr_object fs env_name name attr n.

End Aggregator.

(* ===================================================================== *)
(** ** Sample environments, descriptors and collaborators *)
(* ===================================================================== *)

Module Examples.
Import Py Resolver.

(** The collaborators of the examples: a constructor returns the symbolic
    instance; the one-hot module's dimension is its [max_number_actions],
    any other module's is its [representation_dim] argument ([-1] when
    absent). *)
Definition construct_sym (c : cls) (kw : dict) : result value := Ok (VInst c kw).

Definition representation_dim_sym (v : value) : result value :=
  match v with
  | VInst c kw =>
      if String.eqb (dunder_name c) "OneHotActionTensorRepresentationModule"
      then getitem kw "max_number_actions"
      else Ok (dict_get_default kw "representation_dim" (VInt (-1)))
  | _ => Raise (AttributeError "representation_dim")
  end.

Definition resolve_sym : env → dict → result (value * rstate) :=
  resolve construct_sym representation_dim_sym.

(** CartPole: four observations, two actions of dimension one. *)
Definition cartpole : env := Env [4%Z] (ActionSpace (Some 2%Z) (Some 1%Z)).

Definition dqn : dict :=
  list_to_map
    [("name", VStr "DQN");
     ("policy_learner", VClass (OtherClass "DeepQLearning"));
     ("policy_learner_args",
        VDict (list_to_map [("hidden_dims", VList [VInt 64; VInt 64]);
                            ("training_rounds", VInt 1);
                            ("batch_size", VInt 32)]));
     ("agent_args", VDict {["device_id" := VInt 0]});
     ("exploration_module", VClass (OtherClass "EGreedyExploration"));
     ("exploration_module_args", VDict {["epsilon" := VInt 0]});
     ("replay_buffer", VClass (OtherClass "BasicReplayBuffer"));
     ("replay_buffer_args", VDict {["capacity" := VInt 50000]});
     ("action_representation_module",
        VClass (OtherClass "OneHotActionTensorRepresentationModule"));
     ("action_representation_module_args", VDict ∅)].

(** The same learner with the identity representation configured. *)
Definition dqn_identity : dict :=
  <["action_representation_module" := VClass IdentityActionRepresentationModule]> dqn.

(** No action-representation keys at all. *)
Definition dqn_plain : dict :=
  delete "action_representation_module"
    (delete "action_representation_module_args" dqn).

(** A stacked history of three steps over the identity representation. *)
Definition dqn_stacking : dict :=
  <["history_summarization_module" :=
      VClass (OtherClass "StackingHistorySummarizationModule")]>
    (<["history_summarization_module_args" := VDict {["history_length" := VInt 3]}]>
       dqn_identity).

Definition q_network (name learner network : string) : dict :=
  <["name" := VStr name]>
    (<["policy_learner" := VClass (OtherClass learner)]>
       (<["network_module" := VClass (OtherClass network)]>
          (<["network_args" := VDict {["hidden_dims" := VList [VInt 64; VInt 64]]}]>
             dqn))).

Definition dueling_dqn : dict :=
  q_network "DuelingDQN" "DeepQLearning" "DuelingQValueNetwork".

(** A variant whose name contains, but is not, "DuelingDQN". *)
Definition double_dueling_dqn : dict :=
  q_network "DoubleDuelingDQN" "DoubleDQN" "DuelingQValueNetwork".

Definition bootstrapped_dqn : dict :=
  q_network "BootstrappedDQN" "BootstrappedDQN" "EnsembleQValueNetwork".

(** An experiment of two methods and three runs. *)
Definition cartpole_experiment : dict :=
  list_to_map
    [("exp_name", VStr "benchmark_cartpole_v1_part_1");
     ("env_name", VStr "CartPole-v1");
     ("num_runs", VInt 3);
     ("num_episodes", VInt 500);
     ("print_every_x_episodes", VInt 10);
     ("record_period", VInt 1);
     ("methods", VList [VDict dqn; VDict dueling_dqn]);
     ("device_id", VInt 0)].

(** Sample arithmetic for the aggregator: integers stand for the sampled
    returns, with truncating means and a range for the spread. *)
Definition z_mean (l : list Z) : Z := (foldr Z.add 0 l / Z.of_nat (length l))%Z.
Definition z_spread (l : list Z) : Z := (foldr Z.max 0 l - foldr Z.min 1000000 l)%Z.
Definition z_sqrt (n : Z) : Z := Z.sqrt n.
Definition no_repr (v : value) : string := "<object>".

Definition plot_method_z :=
  Aggregator.plot_method z_mean z_spread Z.add Z.sub Z.div z_sqrt no_repr.

(** Runs 0 and 1 of "DQN" on disk, run 2 absent; nothing for
    "DuelingDQN". *)
Definition two_of_three : gmap string (list Z) :=
  list_to_map
    [("outputs/CartPole-v1/DQN/0_return.npy", [10; 20; 30]%Z);
     ("outputs/CartPole-v1/DQN/1_return.npy", [30; 40; 50]%Z)].

End Examples.


(* ===================================================================== *)
(** ** Single-run executor: the whole of [evaluate_single] *)
(* ===================================================================== *)

Module Executor.
Import Py Resolver Launcher Aggregator.

(** [c in s] for a character [c]. *)
Fixpoint has_char (c : ascii) (s : string) : bool :=
  match s with
  | EmptyString => false
  | String a s' => Ascii.eqb a c || has_char c s'
  end.

(** The keyword arguments of the call to [online_learning]. *)
Record learning_options : Type := LearningOptions {
  o_number_of_episodes : value;
  o_number_of_steps : value;
  o_print_every_x_episodes : value;
  o_print_every_x_steps : value;
  o_learn_after_episode : value;
  o_learn_every_k_steps : value;
  o_seed : Z;
  o_record_period : value;
  o_learning_start_step : value
}.

Section WithCollaborators.

(** Besides the constructors: the environment factory, the training loop
    (which returns the metrics as the items of a mapping, in iteration
    order) and [str()] of the objects whose text the model does not fix. *)
Variable construct : cls → dict → result value.
Variable representation_dim : value → result value.
Variable get_env : value → result env.
Variable F : Type.
Variable online_learning : value → env → learning_options → result (list (string * list F)).
Variable repr_object : value → string.

(** What a run does to the outside world, in the order done. *)
Inductive run_event : Type :=
  | SetSeed (seed : Z)
  | Printed (line : string)
  | MakeDirs (dir : string)
  | Saved (path : string) (samples : list F).

(** [f"outputs/{env_name}/{method_name}"] *)
Definition run_dir (env_name method_name : value) : string :=
  "outputs/" +:+ format_value repr_object env_name +:+ "/"
    +:+ format_value repr_object method_name.

(** [dir + f"/{run_idx}_{key}.npy"] *)
Definition save_path (dir : string) (run_idx : Z) (key : string) : string :=
  dir +:+ ("/" +:+ pretty run_idx +:+ "_" +:+ key +:+ ".npy").

(** Lines 361-362. *)
Definition save_all (dir : string) (run_idx : Z) (info : list (string * list F))
  : eff run_event () :=
  for_each (λ kv, tell (Saved (save_path dir run_idx kv.1) kv.2)) info.

(** Lines 122-362, for the arguments a process is bound to.  Lines 134-136
    read the three entries of the descriptor before the environment is
    made; [resolve] reads them again, to the same effect. *)
Definition evaluate_single_run (p : process) : eff run_event () :=
  tell (SetSeed (p_run_idx p));;
  m ← lift (match p_method p with VDict m => Ok m | _ => Raise TypeError end);
  lift (getitem m "policy_learner");;
  lift (getitem m "policy_learner_args");;
  lift (getitem m "agent_args");;
  e ← lift (get_env (p_env_name p));
  r ← lift (resolve construct representation_dim e m);
  agent ← lift (build_agent construct r.1 r.2);
  method_name ← lift (getitem (method r.2) "name");
  tell (Printed ("Run #" +:+ pretty (p_run_idx p + 1)%Z +:+ " for "
                   +:+ format_value repr_object method_name +:+ " in "
                   +:+ format_value repr_object (p_env_name p)));;
  let learn_every_k_steps := dict_get_default (method r.2) "learn_every_k_steps" (VInt 1) in
  let learn_after_episode :=
    dict_get_default (method r.2) "learn_after_episode" (VBool false) in
  info ← lift (online_learning agent e
                 (LearningOptions (p_num_episodes p) (p_num_steps p)
                    (p_print_every_x_episodes p) (p_print_every_x_steps p)
                    learn_after_episode learn_every_k_steps (p_run_idx p)
                    (p_record_period p)
                    (dict_get_default (method r.2) "learning_start_step" (VInt 0))));
  tell (MakeDirs (run_dir (p_env_name p) method_name));;
  save_all (run_dir (p_env_name p) method_name) (p_run_idx p) info.

(** The options the training loop is called with (lines 344-358): the run
    index is the seed, and three options come from the descriptor, with
    defaults. *)
Definition options_of (p : process) (m : dict) : learning_options :=
  LearningOptions (p_num_episodes p) (p_num_steps p)
    (p_print_every_x_episodes p) (p_print_every_x_steps p)
    (dict_get_default m "learn_after_episode" (VBool false))
    (dict_get_default m "learn_every_k_steps" (VInt 1))
    (p_run_idx p) (p_record_period p)
    (dict_get_default m "learning_start_step" (VInt 0)).

(** The trace of a run that went through, for the name of its method and
    the metrics the training loop returned. *)
Definition completed_trace (p : process) (name : value) (info : list (string * list F))
  : list run_event :=
  [SetSeed (p_run_idx p);
   Printed ("Run #" +:+ pretty (p_run_idx p + 1)%Z +:+ " for "
              +:+ format_value repr_object name +:+ " in "
              +:+ format_value repr_object (p_env_name p));
   MakeDirs (run_dir (p_env_name p) name)]
  ++ ((λ kv, Saved (save_path (run_dir (p_env_name p) name) (p_run_idx p) kv.1) kv.2)
        <$> info).

Definition completes (p : process) (name : value) (info : list (string * list F)) : Prop :=
  evaluate_single_run p = (completed_trace p name info, Ok ()).

(** The files on disk after a trace: [np.save] overwrites. *)
Definition write_event (fs : gmap string (list F)) (ev : run_event)
  : gmap string (list F) :=
  match ev with
  | Saved path samples => <[path := samples]> fs
  | _ => fs
  end.

Definition files_after (t : list run_event) (fs : gmap string (list F))
  : gmap string (list F) :=
  foldl write_event fs t.

End WithCollaborators.

Arguments SetSeed {F} seed.
Arguments Printed {F} line.
Arguments MakeDirs {F} dir.
Arguments Saved {F} path samples.
Arguments files_after {F} t fs.
Arguments write_event {F} fs ev.
Arguments save_all {F} dir run_idx info.

End Executor.

(* ===================================================================== *)
(** ** Vocabulary of the further properties *)
(* ===================================================================== *)

Module ResolverSpec.
Import Py Resolver.

(** The bundle the action-representation module is called with, by the
    name of its class (lines 163-177). *)
Definition injected_representation_bundle (e : env) (name : string) (a0 bundle : dict)
  : Prop :=
  if String.eqb name "OneHotActionTensorRepresentationModule" then
    ∃ n, space_n (env_action_space e) = Some n ∧
         bundle = <["max_number_actions" := VInt n]> a0
  else if String.eqb name "IdentityActionRepresentationModule" then
    ∃ n d, space_n (env_action_space e) = Some n ∧
           space_action_dim (env_action_space e) = Some d ∧
           bundle = <["representation_dim" := VInt d]>
                      (<["max_number_actions" := VInt n]> a0)
  else bundle = a0.

(** The effect of the history step on the module's bundle and on
    [policy_learner_args], by the name of the class (lines 191-221). *)
Definition injected_history (representation_dim : value → result value)
    (e : env) (name : string) (h0 bundle pla pla' : dict) : Prop :=
  if String.eqb name "StackingHistorySummarizationModule" then
    ∃ d0 ad hl total sd,
      observation_shape e !! 0%nat = Some d0 ∧
      history_action_dim representation_dim e pla = Ok ad ∧
      bundle = <["action_dim" := ad]> (<["observation_dim" := VInt d0]> h0) ∧
      h0 !! "history_length" = Some hl ∧
      py_add (VInt d0) ad = Ok total ∧ py_mul total hl = Ok sd ∧
      pla' = <["state_dim" := sd]> pla
  else if String.eqb name "LSTMHistorySummarizationModule" then
    ∃ d0 ad hd,
      observation_shape e !! 0%nat = Some d0 ∧
      history_action_dim representation_dim e pla = Ok ad ∧
      bundle = <["action_dim" := ad]> (<["observation_dim" := VInt d0]> h0) ∧
      h0 !! "hidden_dim" = Some hd ∧
      pla' = <["state_dim" := hd]> pla
  else bundle = h0 ∧ pla' = pla.

(** The keyword arguments of a network built from an image observation
    (lines 229-244 and the like): width, height and channel count are
    [shape[2]], [shape[1]] and [shape[0]], followed by the given
    dimensions and the entries of the configured bundle. *)
Definition image_keywords (e : env) (dims : list (string * value)) (bundle kw : dict)
  : Prop :=
  ∃ w h c,
    observation_shape e !! 2%nat = Some w ∧
    observation_shape e !! 1%nat = Some h ∧
    observation_shape e !! 0%nat = Some c ∧
    add_keywords ([("input_width", VInt w); ("input_height", VInt h);
                   ("input_channels_count", VInt c)] ++ dims) bundle = Ok kw.

Section WithCollaborators.
Variable construct : cls → dict → result value.

(** A module that goes to [agent_args] (replay buffer, safety module). *)
Definition stored_in_agent_args (key : string) (s s' : rstate) : Prop :=
  method s' = method s ∧ policy_learner_args s' = policy_learner_args s ∧
  if has_key key (method s) && has_key (key +:+ "_args") (method s)
  then ∃ c a inst aa,
         method s !! key = Some (VClass c) ∧
         method s !! (key +:+ "_args") = Some (VDict a) ∧
         construct c a = Ok inst ∧
         agent_args s = VDict aa ∧
         agent_args s' = VDict (<[key := inst]> aa)
  else s' = s.


End WithCollaborators.
End ResolverSpec.

Module AggregatorSpec.
Import Py Aggregator.

Section WithNumpy.
Variable F : Type.
Variable repr_object : value → string.

(** [f"outputs/{exp_name}_{env_name}_{attr}.png"] (line 414). *)
Definition chart_path (exp_name env_name : value) (attr : string) : string :=
  "outputs/" +:+ format_value repr_object exp_name +:+ "_"
    +:+ format_value repr_object env_name +:+ "_" +:+ attr +:+ ".png".

(** The calls that finish a chart (lines 405-415). *)
Definition decorations (experiment : dict) (title ylabel path : string)
  : list (plot_event F) :=
  [Title title; TickFormatSci "y"; TickFormatSci "x";
   XLabel (if has_key "num_steps" experiment then "Steps" else "Episodes");
   YLabel ylabel; Legend; SaveFig path; Close].

(** An event that is not the saving of a figure. *)
Definition not_savefig (ev : plot_event F) : Prop :=
  match ev with SaveFig _ => False | _ => True end.

End WithNumpy.

Arguments not_savefig {F} ev.
Arguments decorations {F} experiment title ylabel path.

End AggregatorSpec.

Module Sharing.
Import Py Launcher.

(** Method descriptors as objects.  An experiment lists references to
    descriptors, and two experiments (or two entries of one list) may
    refer to the same object.  [evaluate] writes [agent_args] into the
    object (line 102) and hands the reference to the process objects, and
    [run] starts the processes only after every experiment has been
    expanded (lines 81-85): what a run reads is the descriptor as it is
    then.  The experiment's own entries are kept in [x_settings]; its
    ["methods"] entry is the list [x_methods]. *)
Abbreviation ref := nat.
Abbreviation store := (gmap ref dict).

Record experiment : Type := Experiment {
  x_settings : dict;
  x_methods : list ref
}.

(** A process object before it is started: the reference to the descriptor
    and the other arguments, in the order of the [args] tuple. *)
Record pending : Type := Pending {
  pd_env_name : value;
  pd_method : ref;
  pd_run_idx : Z;
  pd_num_episodes : value;
  pd_num_steps : value;
  pd_print_every_x_episodes : value;
  pd_print_every_x_steps : value;
  pd_record_period : value
}.

(** [start] of a process, with the descriptor its run reads, and [join]. *)
Inductive launch_event : Type :=
  | Launched (p : pending) (descriptor : dict)
  | Awaited (p : pending).

(** [method["agent_args"] = {"device_id": experiment["device_id"]}] on the
    object [method] refers to. *)
Definition set_agent_args (σ : store) (method : ref) (dev : value) : result store :=
  match σ !! method with
  | Some m => Ok (<[method := <["agent_args" := VDict {["device_id" := dev]}]> m]> σ)
  | None => Raise TypeError
  end.

(** Lines 101-117. *)
Fixpoint spawn_methods (settings : dict)
    (env_name num_runs num_episodes num_steps record_period
     print_every_x_episodes print_every_x_steps : value)
    (methods : list ref) (σ : store) (processes : list pending)
  : result (store * list pending) :=
  match methods with
  | [] => Ok (σ, processes)
  | method :: rest =>
      dev ← getitem settings "device_id";
      σ' ← set_agent_args σ method dev;
      runs ← py_range num_runs;
      spawn_methods settings env_name num_runs num_episodes num_steps record_period
        print_every_x_episodes print_every_x_steps rest σ'
        (processes ++
           ((λ run_idx, Pending env_name method run_idx num_episodes num_steps
                          print_every_x_episodes print_every_x_steps record_period)
              <$> runs))
  end.

(** Lines 90-119. *)
Definition evaluate (x : experiment) (σ : store) (all_processes : list pending)
  : result (store * list pending) :=
  let experiment := x_settings x in
  env_name ← getitem experiment "env_name";
  num_runs ← getitem experiment "num_runs";
  let num_episodes := dict_get experiment "num_episodes" in
  let num_steps := dict_get experiment "num_steps" in
  record_period ← getitem experiment "record_period";
  let print_every_x_episodes := dict_get experiment "print_every_x_episodes" in
  let print_every_x_steps := dict_get experiment "print_every_x_steps" in
  '(σ', processes) ← spawn_methods experiment env_name num_runs num_episodes num_steps
                        record_period print_every_x_episodes print_every_x_steps
                        (x_methods x) σ [];
  Ok (σ', all_processes ++ processes).

(** Lines 81-82. *)
Fixpoint evaluate_all (xs : list experiment) (σ : store) (all_processes : list pending)
  : result (store * list pending) :=
  match xs with
  | [] => Ok (σ, all_processes)
  | x :: rest =>
      '(σ', all_processes') ← evaluate x σ all_processes;
      evaluate_all rest σ' all_processes'
  end.

(** [p.start()]: the run reads the descriptor as it is now. *)
Definition launch (σ : store) (p : pending) : eff launch_event () :=
  tell (Launched p (default ∅ (σ !! pd_method p))).

(** Lines 76-87. *)
Definition run (σ : store) (xs : list experiment) : eff launch_event store :=
  if (0 <? length xs)%nat then
    r ← lift (evaluate_all xs σ []);
    for_each (launch r.1) r.2;;
    for_each (λ p, tell (Awaited p)) r.2;;
    mret r.1
  else lift (Raise AssertionError).

(** The device identifier of the last experiment of the list that lists
    the descriptor [r]. *)
Fixpoint last_device (xs : list experiment) (r : ref) : option value :=
  match xs with
  | [] => None
  | x :: rest =>
      match last_device rest r with
      | Some dev => Some dev
      | None => if bool_decide (r ∈ x_methods x) then x_settings x !! "device_id" else None
      end
  end.

End Sharing.

Module Samples.
Import Py Resolver Launcher Aggregator Executor Examples.

(** An LSTM history of hidden size 128 over the identity representation. *)
Definition dqn_lstm : dict :=
  <["history_summarization_module" :=
      VClass (OtherClass "LSTMHistorySummarizationModule")]>
    (<["history_summarization_module_args" := VDict {["hidden_dim" := VInt 128]}]>
       dqn_identity).

(** An action representation the resolver does not know by name. *)
Definition dqn_binary : dict :=
  <["action_representation_module" :=
      VClass (OtherClass "BinaryActionTensorRepresentationModule")]>
    (<["action_representation_module_args" := VDict {["bits_num" := VInt 3]}]> dqn).

(** The exploration module behind a wrapper. *)
Definition dqn_wrapped : dict :=
  <["exploration_module_wrapper" := VClass (OtherClass "Warmup")]>
    (<["exploration_module_wrapper_args" := VDict {["warmup_steps" := VInt 1000]}]> dqn).

(** Atari frames: four channels of 84 by 84, six actions. *)
Definition atari : env := Env [4%Z; 84%Z; 84%Z] (ActionSpace (Some 6%Z) (Some 1%Z)).

Definition dqn_cnn : dict :=
  <["network_module" := VClass CNNQValueNetwork]>
    (<["network_args" := VDict {["hidden_dims_fully_connected" := VList [VInt 512]]}]>
       dqn).

(** An actor-critic method over frames, with twin critics. *)
Definition sac_cnn : dict :=
  <["name" := VStr "SAC"]>
    (<["critic_network_module" := VClass CNNQValueMultiHeadNetwork]>
       (<["critic_network_args" := VDict {["kernel_sizes" := VList [VInt 8; VInt 4]]}]>
          (<["use_twin_critic" := VBool true]>
             (<["actor_network_module" := VClass CNNActorNetwork]>
                (<["actor_network_args" := VDict {["kernel_sizes" := VList [VInt 8]]}]>
                   dqn))))).

(** The same with a state-value critic. *)
Definition ppo_cnn : dict :=
  <["name" := VStr "PPO"]>
    (<["critic_network_module" := VClass CNNValueNetwork]> sac_cnn).

(** A method for dynamic action spaces. *)
Definition sac_dynamic : dict :=
  <["name" := VStr "SAC_dynamic"]>
    (<["actor_network_type" := VClass (OtherClass "DynamicActionActorNetwork")]> dqn).

(** "DuelingDQN" without its network arguments. *)
Definition dueling_no_args : dict := delete "network_args" dueling_dqn.

(** The environment factory knows one name. *)
Definition get_env_sym (name : value) : result env :=
  if eq_str name "CartPole-v1" then Ok cartpole else Raise ValueError.

(** A training loop that returns two metrics of three samples, shifted by
    the seed. *)
Definition online_learning_sym (agent : value) (e : env) (o : learning_options)
  : result (list (string * list Z)) :=
  Ok [("return", [o_seed o; o_seed o + 10; o_seed o + 20]%Z);
      ("return_cost", [0; 0; 0]%Z)].

Definition evaluate_single_run_sym : process → eff (run_event Z) () :=
  evaluate_single_run construct_sym representation_dim_sym get_env_sym Z
    online_learning_sym no_repr.

(** Run [r] of "DQN" on CartPole, and the same on an unknown
    environment. *)
Definition dqn_run (r : Z) : process :=
  Process (VStr "CartPole-v1") (VDict dqn) r (VInt 500) VNone (VInt 10) VNone (VInt 1).

Definition lost_run : process :=
  Process (VStr "NoSuchEnv-v0") (VDict dqn) 0 (VInt 500) VNone (VInt 10) VNone (VInt 1).

Definition dqn_metrics (r : Z) : list (string * list Z) :=
  [("return", [r; r + 10; r + 20]%Z); ("return_cost", [0; 0; 0]%Z)].

(** One method, three runs, two of them on disk. *)
Definition dqn_experiment : dict :=
  <["methods" := VList [VDict dqn]]> cartpole_experiment.

Definition plot_attribute_z :=
  Aggregator.plot_attribute z_mean z_spread Z.add Z.sub Z.div z_sqrt no_repr.

Definition generate_one_plot_z :=
  Aggregator.generate_one_plot z_mean z_spread Z.add Z.sub Z.div z_sqrt no_repr.

End Samples.

Module SharingSamples.
Import Py Launcher Sharing Examples.

(** Two experiments, on devices 0 and 1, that list the same descriptor of
    "DQN". *)
Definition shared_store : store := {[0%nat := dqn]}.

Definition shared_experiments : list experiment :=
  [Experiment (delete "methods" cartpole_experiment) [0%nat];
   Experiment (<["device_id" := VInt 1]> (delete "methods" cartpole_experiment)) [0%nat]].

End SharingSamples.

(* ===================================================================== *)
(** * Properties *)
(* ===================================================================== *)

Set Default Proof Using "Type".

(** ** The Python fragment *)

Module PyFacts.
Import Py.

Ltac solve_elem :=
  repeat first [ apply list_elem_of_here | apply list_elem_of_further ].

Ltac split_elem H :=
  repeat (apply elem_of_cons in H as [H | H]);
  try (by apply elem_of_nil in H).

(** Goals about membership of keys in explicit lists of keys. *)
Ltac solve_keys :=
  lazymatch goal with
  | |- _ ∈ _ => solve_elem
  | |- _ ⊆ _ => let x := fresh in let Hx := fresh in
                intros x Hx; split_elem Hx; subst; solve_elem
  | |- _ ∉ _ =>
      let Hin := fresh in
      intros Hin; split_elem Hin; try discriminate;
      subst;
      match goal with
      | H : _ ∉ _ |- _ => apply H; solve_elem
      end
  | |- _ ≠ _ =>
      let E := fresh in
      intros E; try discriminate; subst;
      match goal with
      | H : _ ∉ _ |- _ => apply H; solve_elem
      end
  end.

Lemma bind_ok {A B} (m : result A) (f : A → result B) (b : B) :
  m ≫= f = Ok b ↔ ∃ a, m = Ok a ∧ f a = Ok b.
Proof.
  destruct m as [a|e]; simpl; split.
  - intros H. exists a. done.
  - intros (a' & Ha & H). by simplify_eq.
  - done.
  - intros (a' & Ha & H). done.
Qed.

Ltac inv_ok :=
  repeat match goal with
  | H : Raise _ = Ok _ |- _ => discriminate H
  | H : Ok _ = Ok _ |- _ => apply (inj Ok) in H
  | H : _ ≫= _ = Ok _ |- _ =>
      let a := fresh "a" in let Ha := fresh "Ha" in
      apply bind_ok in H as (a & Ha & H)
  | H : (if ?b then _ else _) = Ok _ |- _ =>
      let E := fresh "E" in destruct b eqn:E
  | H : match ?x with _ => _ end = Ok _ |- _ =>
      let E := fresh "E" in destruct x eqn:E
  end.

#[global] Instance Ok_inj {A} : Inj (=) (=) (@Ok A).
Proof. intros x y H. by injection H. Qed.

Lemma has_key_true k (d : dict) : has_key k d = true ↔ is_Some (d !! k).
Proof. unfold has_key. destruct (d !! k); split; (done || by intros []). Qed.

Lemma has_key_false k (d : dict) : has_key k d = false ↔ d !! k = None.
Proof. unfold has_key. destruct (d !! k); split; done. Qed.

Lemma getitem_ok (d : dict) k v : getitem d k = Ok v ↔ d !! k = Some v.
Proof. unfold getitem. destruct (d !! k); split; intros; by simplify_eq. Qed.

Lemma setitem_nested_ok (d d' : dict) k1 k2 x :
  setitem_nested d k1 k2 x = Ok d' ↔
  ∃ b, d !! k1 = Some (VDict b) ∧ d' = <[k1 := VDict (<[k2 := x]> b)]> d.
Proof.
  unfold setitem_nested. split.
  - intros H. inv_ok. apply getitem_ok in Ha. destruct a; simplify_eq/=. eauto.
  - intros (b & Hb & ->). apply getitem_ok in Hb. rewrite Hb. done.
Qed.

Lemma delitem_ok (d d' : dict) k :
  delitem d k = Ok d' ↔ is_Some (d !! k) ∧ d' = delete k d.
Proof.
  unfold delitem. destruct (d !! k) eqn:E; split.
  - intros; simplify_eq; eauto.
  - by intros [_ ->].
  - done.
  - by intros [[] _].
Qed.

Lemma add_keywords_two (k1 k2 : string) (v1 v2 : value) (d kw : dict) :
  k1 ≠ k2 →
  add_keywords [(k1, v1); (k2, v2)] d = Ok kw ↔
  d !! k1 = None ∧ d !! k2 = None ∧ kw = <[k1 := v1]> (<[k2 := v2]> d).
Proof.
  intros Hne. simpl. unfold has_key. destruct (d !! k2) eqn:E2; simpl.
  - split; [done | intros (_ & ? & _); done].
  - rewrite lookup_insert_ne by done. destruct (d !! k1) eqn:E1; simpl.
    + split; [done | intros (? & _); done].
    + split; [intros; simplify_eq; done | intros (_ & _ & ->); done].
Qed.

Lemma for_each_tell {E A} (f : A → E) (l : list A) :
  for_each (λ x, tell (f x)) l = (f <$> l, Ok ()).
Proof.
  induction l as [|x l IH]; [done|].
  simpl. unfold mbind, eff_bind. simpl. by rewrite IH.
Qed.

Lemma bind_singleton {A B} (f : A → B) (l : list A) :
  (x ← l; [f x]) = f <$> l.
Proof. induction l as [|x l IH]; [done|]. csimpl. by rewrite IH. Qed.

Lemma has_key_lookup k (d : dict) : has_key k d = true → ∃ v, d !! k = Some v.
Proof. unfold has_key. destruct (d !! k); [eauto | done]. Qed.

Lemma dict_get_lookup k (d : dict) v : d !! k = Some v → dict_get d k = v.
Proof. unfold dict_get. by intros ->. Qed.

Lemma eff_bind_ok {E A B} (m : eff E A) (f : A → eff E B) t a :
  m = (t, Ok a) → m ≫= f = (t ++ (f a).1, (f a).2).
Proof. by intros ->. Qed.

Lemma eff_bind_raise {E A B} (m : eff E A) (f : A → eff E B) t e :
  m = (t, Raise e) → m ≫= f = (t, Raise e).
Proof. by intros ->. Qed.

Lemma eff_bind_lift_ok {E A B} (r : result A) (f : A → eff E B) a :
  r = Ok a → lift r ≫= f = f a.
Proof. intros ->. unfold mbind, eff_bind, lift. simpl. by destruct (f a). Qed.

Lemma eff_bind_lift_raise {E A B} (r : result A) (f : A → eff E B) e :
  r = Raise e → lift r ≫= f = ([], Raise e).
Proof. by intros ->. Qed.

Lemma eff_bind_tell {E B} (ev : E) (k : eff E B) :
  tell ev ≫= (λ _, k) = (ev :: k.1, k.2).
Proof. done. Qed.

(** A loop whose body raises on one of the elements raises. *)
Lemma for_each_raises {E A} (body : A → eff E ()) (l : list A) x e :
  x ∈ l → (body x).2 = Raise e → ∃ e', (for_each body l).2 = Raise e'.
Proof.
  induction l as [|y l IH]; intros Hx Hb.
  - by apply elem_of_nil in Hx.
  - simpl. unfold mbind, eff_bind.
    destruct (body y) as [t [[]|e1]] eqn:Ey; simpl; [|eauto].
    apply elem_of_cons in Hx as [->|Hx].
    + rewrite Ey in Hb. done.
    + by apply IH.
Qed.

Lemma eff_snd_bind_raise {E A B} (m : eff E A) (f : A → eff E B) e :
  m.2 = Raise e → (m ≫= f).2 = Raise e.
Proof. destruct m as [t r]. simpl. by intros ->. Qed.

Lemma eff_snd_bind_ok {E A B} (m : eff E A) (f : A → eff E B) a :
  m.2 = Ok a → (m ≫= f).2 = (f a).2.
Proof. destruct m as [t r]. simpl. by intros ->. Qed.

End PyFacts.

(** ** The resolver *)

Module ResolverFacts.
Import Py PyFacts Resolver.

Lemma only_writes_refl keys s : only_writes keys s s.
Proof. done. Qed.

Lemma only_writes_insert keys s k v :
  k ∈ keys → only_writes keys s (with_pla s (<[k := v]> (policy_learner_args s))).
Proof.
  intros Hk. split; [done | split; [done |]]. simpl. intros k' Hk'.
  rewrite lookup_insert_ne; [done | by intros ->].
Qed.

Lemma only_writes_trans keys s1 s2 s3 :
  only_writes keys s1 s2 → only_writes keys s2 s3 → only_writes keys s1 s3.
Proof.
  intros (Hm1 & Ha1 & Hp1) (Hm2 & Ha2 & Hp2).
  split; [congruence | split; [congruence |]].
  intros k Hk. rewrite Hp2, Hp1; done.
Qed.

Lemma only_writes_weaken keys keys' s s' :
  keys ⊆ keys' → only_writes keys s s' → only_writes keys' s s'.
Proof.
  intros Hsub (Hm & Ha & Hp). split; [done | split; [done |]].
  intros k Hk. apply Hp. intros Hin. apply Hk, Hsub, Hin.
Qed.

Ltac solve_writes :=
  first
    [ apply only_writes_refl
    | apply only_writes_insert; solve_keys
    | split; [done | split; [done |]]; simpl; intros ? ?;
      rewrite !lookup_insert_ne by solve_keys; done ].

Section WithCollaborators.
Variable construct : cls → dict → result value.
Variable representation_dim : value → result value.

Lemma resolve_network_writes e s s' :
  resolve_network construct representation_dim e s = Ok s' →
  only_writes ["network_instance"] s s'.
Proof.
  unfold resolve_network. intros H. inv_ok; subst; solve_writes.
Qed.

Lemma resolve_critic_writes e s s' :
  resolve_critic construct representation_dim e s = Ok s' →
  only_writes ["critic_network_instance"] s s'.
Proof.
  unfold resolve_critic. intros H. inv_ok; subst; solve_writes.
Qed.

Lemma resolve_value_critic_writes e s s' :
  resolve_value_critic construct e s = Ok s' →
  only_writes ["critic_network_instance"] s s'.
Proof.
  unfold resolve_value_critic. intros H. inv_ok; subst; solve_writes.
Qed.

Lemma resolve_actor_writes e s s' :
  resolve_actor construct representation_dim e s = Ok s' →
  only_writes ["actor_network_instance"] s s'.
Proof.
  unfold resolve_actor. intros H. inv_ok; subst; solve_writes.
Qed.

Lemma resolve_dynamic_writes s s' :
  resolve_dynamic s = Ok s' → only_writes ["actor_network_type"] s s'.
Proof.
  unfold resolve_dynamic. intros H. inv_ok; subst; solve_writes.
Qed.

Lemma attach_action_space_writes e s :
  only_writes ["action_space"] s (attach_action_space e s).
Proof. apply only_writes_insert. solve_keys. Qed.

Lemma raw_dims_network_ok e (m : dict) inst :
  raw_dims_network construct e m = Ok inst ↔
  ∃ c na d0 n,
    m !! "network_module" = Some (VClass c) ∧
    m !! "network_args" = Some (VDict na) ∧
    observation_shape e !! 0%nat = Some d0 ∧
    space_n (env_action_space e) = Some n ∧
    na !! "state_dim" = None ∧ na !! "action_dim" = None ∧
    construct c (<["state_dim" := VInt d0]> (<["action_dim" := VInt n]> na)) = Ok inst.
Proof.
  unfold raw_dims_network, call, keywords, shape_at, action_n. split.
  - intros H. inv_ok. subst.
    apply getitem_ok in Ha0, Ha3.
    apply add_keywords_two in Ha4 as (? & ? & ->); [|done].
    eauto 12.
  - intros (c & na & d0 & n & Hc & Hna & Hd & Hn & H1 & H2 & Hcons).
    unfold has_key, getitem. rewrite Hc, Hna, Hd, Hn. simpl.
    unfold has_key. rewrite H2. simpl. rewrite lookup_insert_ne by done.
    rewrite H1. simpl. done.
Qed.

Lemma resolve_dueling_ok e s s' :
  resolve_dueling construct e s = Ok s' →
  only_writes ["network_instance"] s s' ∧
  ∃ nm, method s !! "name" = Some nm ∧
    (eq_str nm "DuelingDQN" = true →
     ∃ inst, raw_dims_network construct e (method s) = Ok inst ∧
             policy_learner_args s' !! "network_instance" = Some inst).
Proof.
  unfold resolve_dueling. intros H. inv_ok; subst; apply getitem_ok in Ha.
  - split; [solve_writes|]. exists a. split; [done|]. intros _.
    exists a0. split; [done|]. simpl. by rewrite lookup_insert_eq.
  - split; [solve_writes|]. exists a. split; [done|]. congruence.
Qed.

Lemma resolve_bootstrapped_ok e s s' :
  resolve_bootstrapped construct e s = Ok s' →
  method s' = method s ∧ agent_args s' = agent_args s ∧
  ∃ nm, method s !! "name" = Some nm ∧
    if eq_str nm "BootstrappedDQN" then
      ∃ inst, raw_dims_network construct e (method s) = Ok inst ∧
        policy_learner_args s' =
          delete "state_dim" (<["q_ensemble_network" := inst]> (policy_learner_args s))
    else s' = s.
Proof.
  unfold resolve_bootstrapped. intros H. inv_ok; subst; apply getitem_ok in Ha.
  - apply delitem_ok in Ha1 as [_ ->].
    split; [done|]. split; [done|]. exists a. split; [done|]. rewrite E. eauto.
  - split; [done|]. split; [done|]. exists a. split; [done|]. by rewrite E.
Qed.

Lemma resolve_networks_ok e s s' :
  resolve_networks construct representation_dim e s = Ok s' →
  method s' = method s ∧ agent_args s' = agent_args s ∧
  ∃ nm, method s !! "name" = Some nm ∧
    (∀ k, k ∉ network_keys →
       policy_learner_args s' !! k = policy_learner_args s !! k) ∧
    policy_learner_args s' !! "state_dim" =
      (if eq_str nm "BootstrappedDQN" then None
       else policy_learner_args s !! "state_dim") ∧
    (eq_str nm "BootstrappedDQN" = true →
       ∃ inst, raw_dims_network construct e (method s) = Ok inst ∧
               policy_learner_args s' !! "q_ensemble_network" = Some inst) ∧
    (eq_str nm "DuelingDQN" = true →
       ∃ inst, raw_dims_network construct e (method s) = Ok inst ∧
               policy_learner_args s' !! "network_instance" = Some inst).
Proof.
  unfold resolve_networks. intros H. inv_ok. subst s'.
  rename a into s1, a0 into s2, a1 into s3, a2 into s4, a3 into s5,
         a4 into s6, a5 into s7.
  apply resolve_network_writes in Ha as W1.
  apply resolve_critic_writes in Ha0 as W2.
  apply resolve_value_critic_writes in Ha1 as W3.
  apply resolve_actor_writes in Ha2 as W4.
  apply resolve_dueling_ok in Ha3 as (W5 & nm & Hnm & Hduel).
  apply resolve_bootstrapped_ok in Ha4 as (Hm6 & Ha6 & nm' & Hnm' & Hboot).
  apply resolve_dynamic_writes in Ha5 as W7.
  pose proof (attach_action_space_writes e s7) as W8.
  assert (W14 : only_writes ["network_instance"; "critic_network_instance";
                             "actor_network_instance"] s s4).
  { eapply only_writes_trans; [|eapply only_writes_trans;
      [|eapply only_writes_trans]];
      (eapply only_writes_weaken; [|eassumption]); solve_keys. }
  assert (W15 : only_writes ["network_instance"; "critic_network_instance";
                             "actor_network_instance"] s s5).
  { eapply only_writes_trans; [exact W14|].
    eapply only_writes_weaken; [|eassumption]. solve_keys. }
  assert (W68 : only_writes ["actor_network_type"; "action_space"] s6
                  (attach_action_space e s7)).
  { eapply only_writes_trans; (eapply only_writes_weaken; [|eassumption]); solve_keys. }
  destruct W15 as (Hm5 & Ha5' & Hp5). destruct W68 as (Hm8 & Ha8 & Hp8).
  destruct W14 as (Hm4 & Ha4' & _). destruct W5 as (Hm45 & _ & Hp45).
  assert (nm' = nm) as -> by congruence.
  rewrite Hm4 in Hnm, Hduel. rewrite Hm5 in Hboot.
  split; [congruence|]. split; [congruence|].
  exists nm. split; [done|].
  destruct (eq_str nm "BootstrappedDQN") eqn:Eb.
  - destruct Hboot as (inst & Hraw & Hpla6).
    repeat split.
    + intros k Hk. rewrite Hp8, Hpla6 by solve_keys.
      rewrite lookup_delete_ne, lookup_insert_ne by solve_keys.
      apply Hp5. solve_keys.
    + rewrite Hp8, Hpla6 by solve_keys. apply lookup_delete_eq.
    + intros _. exists inst. split; [done|].
      rewrite Hp8, Hpla6 by solve_keys.
      rewrite lookup_delete_ne by done. apply lookup_insert_eq.
    + intros Hd. destruct nm; simpl in *; try done.
      apply String.eqb_eq in Eb, Hd. congruence.
  - subst s6. repeat split.
    + intros k Hk. rewrite Hp8 by solve_keys. apply Hp5. solve_keys.
    + rewrite Hp8 by solve_keys. apply Hp5. solve_keys.
    + done.
    + intros Hd. destruct (Hduel Hd) as (inst & Hraw & Hni).
      exists inst. split; [done|]. rewrite Hp8 by solve_keys. done.
Qed.

Lemma resolve_replay_buffer_frame s s' :
  resolve_replay_buffer construct s = Ok s' →
  method s' = method s ∧ policy_learner_args s' = policy_learner_args s.
Proof. unfold resolve_replay_buffer. intros H. inv_ok; by subst. Qed.

Lemma resolve_safety_frame s s' :
  resolve_safety construct s = Ok s' →
  method s' = method s ∧ policy_learner_args s' = policy_learner_args s.
Proof. unfold resolve_safety. intros H. inv_ok; by subst. Qed.

Lemma resolve_exploration_writes s s' :
  resolve_exploration construct s = Ok s' → only_writes ["exploration_module"] s s'.
Proof. unfold resolve_exploration. intros H. inv_ok; subst; solve_writes. Qed.

Lemma inject_one_hot_ok e (m m' : dict) :
  inject_one_hot e m = Ok m' →
  ∃ f nm, m !! "action_representation_module" = Some f ∧ name_of f = Ok nm ∧
    if String.eqb nm "OneHotActionTensorRepresentationModule" then
      ∃ n a0, space_n (env_action_space e) = Some n ∧
        m !! "action_representation_module_args" = Some (VDict a0) ∧
        m' = <["action_representation_module_args" :=
                 VDict (<["max_number_actions" := VInt n]> a0)]> m
    else m' = m.
Proof.
  unfold inject_one_hot, action_n. intros H. inv_ok; subst; apply getitem_ok in Ha.
  - apply setitem_nested_ok in H as (b & Hb & ->).
    exists a, a0. rewrite E. eauto 10.
  - exists a, a0. rewrite E. eauto.
Qed.

Lemma inject_identity_ok e (m m' : dict) :
  inject_identity e m = Ok m' →
  ∃ f nm, m !! "action_representation_module" = Some f ∧ name_of f = Ok nm ∧
    if String.eqb nm "IdentityActionRepresentationModule" then
      ∃ n d a0, space_n (env_action_space e) = Some n ∧
        space_action_dim (env_action_space e) = Some d ∧
        m !! "action_representation_module_args" = Some (VDict a0) ∧
        m' = <["action_representation_module_args" :=
                 VDict (<["representation_dim" := VInt d]>
                          (<["max_number_actions" := VInt n]> a0))]> m
    else m' = m.
Proof.
  unfold inject_identity, action_n, action_dim. intros H.
  inv_ok; subst; apply getitem_ok in Ha.
  - apply setitem_nested_ok in Ha2 as (b & Hb & ->).
    apply setitem_nested_ok in H as (b' & Hb' & ->).
    rewrite lookup_insert_eq in Hb'. simplify_eq.
    exists a, a0. rewrite E. split; [done|]. split; [done|].
    exists z0, z, b. repeat split; try done. by rewrite insert_insert_eq.
  - exists a, a0. rewrite E. eauto.
Qed.

(** The action-representation step ends with the module stored under its
    key; when both keys are configured it is the configured class called
    with the (possibly extended) bundle, otherwise the default identity
    module. *)
Lemma resolve_action_representation_ok e s s' :
  resolve_action_representation construct e s = Ok s' →
  agent_args s' = agent_args s ∧
  (∀ k, k ≠ "action_representation_module_args" → method s' !! k = method s !! k) ∧
  ∃ arm, policy_learner_args s' =
           <["action_representation_module" := arm]> (policy_learner_args s) ∧
    if has_key "action_representation_module" (method s)
       && has_key "action_representation_module_args" (method s)
    then ∃ f a, method s' !! "action_representation_module" = Some f ∧
                method s' !! "action_representation_module_args" = Some a ∧
                call construct f [] a = Ok arm
    else method s' = method s ∧
         construct IdentityActionRepresentationModule ∅ = Ok arm.
Proof.
  unfold resolve_action_representation. intros H.
  destruct (has_key "action_representation_module" (method s)
            && has_key "action_representation_module_args" (method s)) eqn:E.
  - inv_ok. subst s'. simpl.
    apply inject_one_hot_ok in Ha as (f1 & n1 & Hf1 & Hn1 & H1).
    apply inject_identity_ok in Ha0 as (f2 & n2 & Hf2 & Hn2 & H2).
    apply getitem_ok in Ha1, Ha2.
    split; [done|]. split.
    + intros k Hk.
      assert (a0 !! k = a !! k) as ->.
      { destruct (String.eqb n2 _); [|by subst].
        destruct H2 as (? & ? & ? & _ & _ & _ & ->). by rewrite lookup_insert_ne. }
      destruct (String.eqb n1 _); [|by subst].
      destruct H1 as (? & ? & _ & _ & ->). by rewrite lookup_insert_ne.
    + exists a3. split; [done|]. eauto.
  - inv_ok. subst s'. simpl. split; [done|]. split; [done|]. eauto.
Qed.

Lemma resolve_modules_ok e s s' :
  resolve_modules construct e s = Ok s' →
  (∀ k, k ≠ "action_representation_module_args" → method s' !! k = method s !! k) ∧
  (∀ k, k ≠ "exploration_module" → k ≠ "action_representation_module" →
     policy_learner_args s' !! k = policy_learner_args s !! k) ∧
  ∃ s3, method s3 = method s ∧
        resolve_action_representation construct e s3 = Ok s'.
Proof.
  unfold resolve_modules. intros H. inv_ok.
  apply resolve_exploration_writes in Ha as (Hm1 & _ & Hp1).
  apply resolve_replay_buffer_frame in Ha0 as (Hm2 & Hp2).
  apply resolve_safety_frame in Ha1 as (Hm3 & Hp3).
  pose proof H as (_ & Hm4 & arm & Hp4 & _)%resolve_action_representation_ok.
  split; [|split].
  - intros k Hk. rewrite Hm4 by done. congruence.
  - intros k Hk1 Hk2. rewrite Hp4, lookup_insert_ne by done.
    rewrite Hp3, Hp2. apply Hp1. intros Hin. by split_elem Hin.
  - exists a1. split; [congruence | done].
Qed.

Lemma inject_history_dims_ok e s (m2 : dict) :
  inject_history_dims representation_dim e s = Ok m2 →
  ∃ d0 ad h0,
    observation_shape e !! 0%nat = Some d0 ∧
    history_action_dim representation_dim e (policy_learner_args s) = Ok ad ∧
    method s !! "history_summarization_module_args" = Some (VDict h0) ∧
    m2 = <["history_summarization_module_args" :=
             VDict (<["action_dim" := ad]> (<["observation_dim" := VInt d0]> h0))]>
           (method s).
Proof.
  unfold inject_history_dims, shape_at. intros H. inv_ok. subst.
  apply setitem_nested_ok in Ha0 as (b & Hb & ->).
  apply setitem_nested_ok in H as (b' & Hb' & ->).
  rewrite lookup_insert_eq in Hb'. simplify_eq.
  eexists _, _, _. split; [done|]. split; [done|]. split; [done|].
  by rewrite insert_insert_eq.
Qed.

Lemma getitem_nested_insert (m : dict) k1 k2 (b : dict) v :
  getitem_nested (<[k1 := VDict b]> m) k1 k2 = Ok v ↔ b !! k2 = Some v.
Proof.
  unfold getitem_nested, getitem. rewrite lookup_insert_eq. simpl.
  apply getitem_ok.
Qed.

Lemma resolve_history_frame e s s' :
  resolve_history construct representation_dim e s = Ok s' →
  (∀ k, k ≠ "history_summarization_module_args" → method s' !! k = method s !! k) ∧
  (∀ k, k ≠ "state_dim" → policy_learner_args s' !! k = policy_learner_args s !! k) ∧
  (has_key "history_summarization_module" (method s)
   && has_key "history_summarization_module_args" (method s) = false → s' = s).
Proof.
  unfold resolve_history. intros H.
  destruct (has_key "history_summarization_module" (method s)
            && has_key "history_summarization_module_args" (method s)) eqn:E.
  2:{ inv_ok. by subst. }
  inv_ok; subst; simpl.
  - apply inject_history_dims_ok in Ha6 as (d0 & ad & h0 & _ & _ & _ & ->).
    repeat split; [| |done]; intros k Hk; by rewrite lookup_insert_ne.
  - apply inject_history_dims_ok in Ha6 as (d0 & ad & h0 & _ & _ & _ & ->).
    repeat split; [| |done]; intros k Hk; by rewrite lookup_insert_ne.
  - done.
Qed.

(** The stacking variant: [state_dim] is overwritten with
    [(observation_dim + action_dim) * history_length]. *)
Lemma resolve_history_stacking e s s' c :
  resolve_history construct representation_dim e s = Ok s' →
  method s !! "history_summarization_module" = Some (VClass c) →
  is_Some (method s !! "history_summarization_module_args") →
  dunder_name c = "StackingHistorySummarizationModule" →
  ∃ d0 ad h0 hl sum sd,
    observation_shape e !! 0%nat = Some d0 ∧
    history_action_dim representation_dim e (policy_learner_args s) = Ok ad ∧
    method s !! "history_summarization_module_args" = Some (VDict h0) ∧
    h0 !! "history_length" = Some hl ∧
    py_add (VInt d0) ad = Ok sum ∧ py_mul sum hl = Ok sd ∧
    policy_learner_args s' !! "state_dim" = Some sd.
Proof.
  unfold resolve_history. intros H Hc Ha Hn.
  assert (has_key "history_summarization_module" (method s)
          && has_key "history_summarization_module_args" (method s) = true) as E.
  { apply andb_true_iff; split; apply has_key_true; [by rewrite Hc | done]. }
  rewrite E in H. clear Ha.
  inv_ok; apply getitem_ok in Ha; rewrite Hc in Ha; simplify_eq; simpl in *;
    simplify_eq; rewrite Hn in *; simpl in *; try done.
  match goal with
  | H : inject_history_dims _ _ _ = Ok _ |- _ =>
      apply inject_history_dims_ok in H as (d0 & ad & h0 & Hd0 & Had & Hh0 & ->)
  end.
  repeat match goal with
  | H : getitem_nested (<[_ := _]> _) _ _ = Ok _ |- _ =>
      apply getitem_nested_insert in H
  end.
  simplify_map_eq.
  eexists _, _, _, _, _, _.
  split; [reflexivity|]. split; [eassumption|]. split; [reflexivity|].
  split; [eassumption|]. split; [eassumption|]. split; [eassumption|]. done.
Qed.

Lemma resolve_init_ok e (m : dict) pl s0 :
  resolve_init e m = Ok (pl, s0) →
  method s0 = m ∧
  ∃ d0 p, observation_shape e !! 0%nat = Some d0 ∧
    m !! "policy_learner_args" = Some (VDict p) ∧
    policy_learner_args s0 = <["state_dim" := VInt d0]> p.
Proof.
  unfold resolve_init, shape_at. intros H. inv_ok. simplify_eq.
  repeat match goal with H : getitem _ _ = Ok _ |- _ => apply getitem_ok in H end.
  simpl. eauto 10.
Qed.

(** [resolve] is the four phases in sequence. *)
Lemma resolve_phases e m pl s' :
  resolve construct representation_dim e m = Ok (pl, s') →
  ∃ s0 s1 s2, phases construct representation_dim e m pl s0 s1 s2 s'.
Proof.
  unfold resolve, phases. intros H. inv_ok. destruct a as [pl0 s0]. inv_ok.
  simplify_eq. eauto 10.
Qed.

Lemma call_class c (a : dict) :
  call construct (VClass c) [] (VDict a) = construct c a.
Proof. done. Qed.

Lemma call_ok f a inst :
  call construct f [] a = Ok inst →
  ∃ c d, f = VClass c ∧ a = VDict d ∧ construct c d = Ok inst.
Proof.
  unfold call, keywords. intros H. inv_ok; subst; simpl in *; simplify_eq. eauto.
Qed.

(** Once the action-representation module is stored, the conditional
    expression of the history step reads the module's dimension. *)
Lemma history_action_dim_resolved e (pla : dict) :
  is_Some (pla !! "action_representation_module") →
  history_action_dim representation_dim e pla
  = arm_representation_dim representation_dim pla.
Proof.
  intros Hs. unfold history_action_dim.
  by apply has_key_true in Hs as ->.
Qed.

(** The modules phase ends with the action-representation module stored. *)
Lemma resolve_modules_stores_module e s s' :
  resolve_modules construct e s = Ok s' →
  ∃ arm,
    policy_learner_args s' !! "action_representation_module" = Some arm ∧
    if has_key "action_representation_module" (method s)
       && has_key "action_representation_module_args" (method s)
    then ∃ c a, method s !! "action_representation_module" = Some (VClass c) ∧
                method s' !! "action_representation_module_args" = Some (VDict a) ∧
                construct c a = Ok arm
    else construct IdentityActionRepresentationModule ∅ = Ok arm.
Proof.
  intros (_ & _ & s3 & Hm3 & H)%resolve_modules_ok.
  apply resolve_action_representation_ok in H as (_ & Hm & arm & Hp & Harm).
  exists arm. split; [rewrite Hp; apply lookup_insert_eq|]. rewrite <- Hm3.
  destruct (has_key "action_representation_module" (method s3) && _).
  - destruct Harm as (f & a & Hf & Ha & Hcall).
    apply call_ok in Hcall as (c & d & -> & -> & Hc).
    exists c, d. rewrite <- Hm by done. done.
  - by destruct Harm.
Qed.

(** The policy learner is the configured constructor called with the
    resolved bundle. *)
Lemma evaluate_single_learner e m pl s' agent :
  resolve construct representation_dim e m = Ok (pl, s') →
  evaluate_single construct representation_dim e m = Ok agent →
  ∃ c learner, pl = VClass c ∧ construct c (policy_learner_args s') = Ok learner.
Proof.
  unfold evaluate_single, build_agent, call, keywords. intros -> H. simpl in H.
  inv_ok; simplify_eq. eauto.
Qed.

End WithCollaborators.
End ResolverFacts.

Module ResolverTheorems.
Import Py PyFacts Resolver ResolverFacts.

Section WithCollaborators.
Variable construct : cls → dict → result value.
Variable representation_dim : value → result value.

(** C5.  A descriptor without the history-summarization key: the resolved
    [state_dim] is the raw observation dimension [shape[0]], the only step
    that touches it afterwards being the deletion for "BootstrappedDQN". *)
Theorem no_history_state_dim e (m : dict) pl s' :
  resolve construct representation_dim e m = Ok (pl, s') →
  m !! "history_summarization_module" = None →
  ∃ d0 nm,
    observation_shape e !! 0%nat = Some d0 ∧
    m !! "name" = Some nm ∧
    policy_learner_args s' !! "state_dim" =
      if eq_str nm "BootstrappedDQN" then None else Some (VInt d0).
Proof.
  intros (s0 & s1 & s2 & H0 & H1 & H2 & H3)%resolve_phases Hno.
  apply resolve_init_ok in H0 as (Hm0 & d0 & p & Hd0 & _ & Hp0).
  apply resolve_modules_ok in H1 as (Hm1 & Hp1 & _).
  apply resolve_history_frame in H2 as (_ & _ & Hskip).
  rewrite Hskip in H3.
  2:{ apply andb_false_iff. left. apply has_key_false. rewrite Hm1, Hm0; done. }
  apply resolve_networks_ok in H3 as (_ & _ & nm & Hnm & _ & Hsd & _).
  exists d0, nm. split; [done|]. split.
  - rewrite Hm1, Hm0 in Hnm; done.
  - rewrite Hsd, Hp1, Hp0 by done. by rewrite lookup_insert_eq.
Qed.

(** C9.  After the action-representation step [policy_learner_args] holds
    an ["action_representation_module"] entry, whatever the descriptor: the
    configured class called with its bundle when both keys are present, the
    default identity module otherwise.  The conditional expression of the
    history step therefore always reads the module's dimension, and never
    [env.action_space.action_dim]. *)
Theorem action_representation_always_present e s s' :
  resolve_modules construct e s = Ok s' →
  (∃ arm,
     policy_learner_args s' !! "action_representation_module" = Some arm ∧
     if has_key "action_representation_module" (method s)
        && has_key "action_representation_module_args" (method s)
     then ∃ c a, method s !! "action_representation_module" = Some (VClass c) ∧
                 method s' !! "action_representation_module_args" = Some (VDict a) ∧
                 construct c a = Ok arm
     else construct IdentityActionRepresentationModule ∅ = Ok arm) ∧
  has_key "action_representation_module" (policy_learner_args s') = true ∧
  history_action_dim representation_dim e (policy_learner_args s')
  = arm_representation_dim representation_dim (policy_learner_args s').
Proof.
  intros H. pose proof (resolve_modules_stores_module _ _ _ _ H) as (arm & Hl & Harm).
  split; [eauto|]. split.
  - apply has_key_true. by rewrite Hl.
  - apply history_action_dim_resolved. by rewrite Hl.
Qed.

(** C1.  The stacking variant: the history step sets [state_dim] to
    [(observation_dim + action_dim) * history_length], with
    [observation_dim = shape[0]] and [action_dim] the representation
    dimension of the action-representation module resolved before it.  The
    value stays in the final bundle, the deletion for "BootstrappedDQN"
    apart. *)
Theorem stacking_state_dim e (m : dict) pl s' c :
  resolve construct representation_dim e m = Ok (pl, s') →
  m !! "history_summarization_module" = Some (VClass c) →
  dunder_name c = "StackingHistorySummarizationModule" →
  is_Some (m !! "history_summarization_module_args") →
  ∃ s0 s1 s2 d0 arm ad h0 hl total sd nm,
    phases construct representation_dim e m pl s0 s1 s2 s' ∧
    observation_shape e !! 0%nat = Some d0 ∧
    policy_learner_args s1 !! "action_representation_module" = Some arm ∧
    representation_dim arm = Ok ad ∧
    m !! "history_summarization_module_args" = Some (VDict h0) ∧
    h0 !! "history_length" = Some hl ∧
    py_add (VInt d0) ad = Ok total ∧ py_mul total hl = Ok sd ∧
    (∀ za zh, ad = VInt za → hl = VInt zh → sd = VInt ((d0 + za) * zh)) ∧
    policy_learner_args s2 !! "state_dim" = Some sd ∧
    m !! "name" = Some nm ∧
    policy_learner_args s' !! "state_dim" =
      (if eq_str nm "BootstrappedDQN" then None else Some sd).
Proof.
  intros (s0 & s1 & s2 & H0 & H1 & H2 & H3)%resolve_phases Hc Hn Ha.
  pose proof H0 as (Hm0 & _)%resolve_init_ok.
  pose proof H1 as (arm & Harm & _)%resolve_modules_stores_module.
  assert (Hdim : history_action_dim representation_dim e (policy_learner_args s1)
                 = arm_representation_dim representation_dim (policy_learner_args s1)).
  { apply history_action_dim_resolved. by rewrite Harm. }
  pose proof H1 as (Hm1 & _ & _)%resolve_modules_ok.
  pose proof H2 as (Hm2 & Hp2 & _)%resolve_history_frame.
  pose proof H2 as Hstack.
  eapply resolve_history_stacking in Hstack
    as (d0 & ad & h0 & hl & total & sd & Hd0 & Had & Hh0 & Hhl & Hadd & Hmul & Hsd);
    [| rewrite Hm1, Hm0; done | rewrite Hm1, Hm0; done | done].
  pose proof H3 as (_ & _ & nm & Hnm & Hp3 & Hsd3 & _)%resolve_networks_ok.
  rewrite Hdim in Had. unfold arm_representation_dim, getitem in Had.
  rewrite Harm in Had. simpl in Had.
  exists s0, s1, s2, d0, arm, ad, h0, hl, total, sd, nm. split_and!; try done.
  - rewrite Hm1, Hm0 in Hh0; done.
  - intros za zh -> ->. unfold py_add in Hadd. simpl in Hadd. simplify_eq.
    unfold py_mul in Hmul. simpl in Hmul. by simplify_eq.
  - rewrite Hm2, Hm1, Hm0 in Hnm; done.
  - rewrite Hsd3, Hsd. done.
Qed.

Lemma built_from_raw_dims_transport e (m m' : dict) inst :
  m' !! "network_module" = m !! "network_module" →
  m' !! "network_args" = m !! "network_args" →
  raw_dims_network construct e m' = Ok inst →
  built_from_raw_dims construct e m inst.
Proof.
  intros H1 H2 (c & na & d0 & n & ? & ? & ?)%raw_dims_network_ok.
  exists c, na, d0, n. rewrite <- H1, <- H2. done.
Qed.

(** The descriptor seen by the network steps differs from the given one
    only in the two injected bundles. *)
Lemma resolve_method_keys e (m : dict) pl s' k :
  resolve construct representation_dim e m = Ok (pl, s') →
  k ≠ "action_representation_module_args" →
  k ≠ "history_summarization_module_args" →
  method s' !! k = m !! k.
Proof.
  intros (s0 & s1 & s2 & H0 & H1 & H2 & H3)%resolve_phases Hk1 Hk2.
  apply resolve_init_ok in H0 as (Hm0 & _).
  apply resolve_modules_ok in H1 as (Hm1 & _ & _).
  apply resolve_history_frame in H2 as (Hm2 & _ & _).
  apply resolve_networks_ok in H3 as (Hm3 & _).
  rewrite Hm3, Hm2, Hm1, Hm0; done.
Qed.

Lemma resolve_name_branches e (m : dict) pl s' nm :
  resolve construct representation_dim e m = Ok (pl, s') →
  m !! "name" = Some nm →
  policy_learner_args s' !! "state_dim" =
    (if eq_str nm "BootstrappedDQN" then None
     else policy_learner_args s' !! "state_dim") ∧
  (eq_str nm "BootstrappedDQN" = true →
     ∃ inst, built_from_raw_dims construct e m inst ∧
             policy_learner_args s' !! "q_ensemble_network" = Some inst) ∧
  (eq_str nm "DuelingDQN" = true →
     ∃ inst, built_from_raw_dims construct e m inst ∧
             policy_learner_args s' !! "network_instance" = Some inst).
Proof.
  intros (s0 & s1 & s2 & H0 & H1 & H2 & H3)%resolve_phases Hname.
  apply resolve_init_ok in H0 as (Hm0 & _).
  apply resolve_modules_ok in H1 as (Hm1 & _ & _).
  apply resolve_history_frame in H2 as (Hm2 & _ & _).
  apply resolve_networks_ok in H3 as (_ & _ & nm' & Hnm & _ & Hsd & Hb & Hd).
  assert (Hkeys : ∀ k, k ≠ "action_representation_module_args" →
                       k ≠ "history_summarization_module_args" →
                       method s2 !! k = m !! k).
  { intros k ? ?. rewrite Hm2, Hm1, Hm0; done. }
  rewrite Hkeys in Hnm by done. assert (nm' = nm) as -> by congruence.
  split; [|split].
  - rewrite Hsd. by destruct (eq_str nm "BootstrappedDQN").
  - intros (inst & Hraw & Hq)%Hb. exists inst. split; [|done].
    eapply built_from_raw_dims_transport; [| |exact Hraw]; by apply Hkeys.
  - intros (inst & Hraw & Hq)%Hd. exists inst. split; [|done].
    eapply built_from_raw_dims_transport; [| |exact Hraw]; by apply Hkeys.
Qed.

(** C3.  For the method named "BootstrappedDQN" the final bundle, the one
    the policy-learner constructor is called with, has no [state_dim]
    entry, and its [q_ensemble_network] is the configured network class
    called with the raw observation dimension and the raw action count. *)
Theorem bootstrapped_drops_state_dim e (m : dict) pl s' :
  resolve construct representation_dim e m = Ok (pl, s') →
  m !! "name" = Some (VStr "BootstrappedDQN") →
  policy_learner_args s' !! "state_dim" = None ∧
  (∃ inst, built_from_raw_dims construct e m inst ∧
           policy_learner_args s' !! "q_ensemble_network" = Some inst) ∧
  (∀ agent, evaluate_single construct representation_dim e m = Ok agent →
     ∃ c learner, pl = VClass c ∧
                  construct c (policy_learner_args s') = Ok learner).
Proof.
  intros H Hname.
  destruct (resolve_name_branches _ _ _ _ _ H Hname) as (Hsd & Hb & _).
  split; [exact Hsd|]. split; [by apply Hb|].
  intros agent. by apply evaluate_single_learner.
Qed.

(** C8, as the code has it.  For the method whose name is exactly
    "DuelingDQN" the final [network_instance] is the configured network
    class called with [state_dim = shape[0]] and
    [action_dim = action_space.n]: the dimension of the
    action-representation module plays no part. *)
Theorem dueling_exact_name e (m : dict) pl s' :
  resolve construct representation_dim e m = Ok (pl, s') →
  m !! "name" = Some (VStr "DuelingDQN") →
  ∃ inst, built_from_raw_dims construct e m inst ∧
          policy_learner_args s' !! "network_instance" = Some inst.
Proof.
  intros H Hname.
  destruct (resolve_name_branches _ _ _ _ _ H Hname) as (_ & _ & Hd).
  by apply Hd.
Qed.

(** C4.  The identity action-representation variant with its bundle
    present: [max_number_actions = action_space.n] and
    [representation_dim = action_space.action_dim] are written into the
    bundle, and the module is the class called with that bundle. *)
Theorem identity_module_injection e (m : dict) pl s' c :
  resolve construct representation_dim e m = Ok (pl, s') →
  m !! "action_representation_module" = Some (VClass c) →
  dunder_name c = "IdentityActionRepresentationModule" →
  is_Some (m !! "action_representation_module_args") →
  ∃ n d a0 inst,
    space_n (env_action_space e) = Some n ∧
    space_action_dim (env_action_space e) = Some d ∧
    m !! "action_representation_module_args" = Some (VDict a0) ∧
    let bundle := <["representation_dim" := VInt d]>
                    (<["max_number_actions" := VInt n]> a0) in
    method s' !! "action_representation_module_args" = Some (VDict bundle) ∧
    construct c bundle = Ok inst ∧
    policy_learner_args s' !! "action_representation_module" = Some inst.
Proof.
  intros (s0 & s1 & s2 & H0 & H1 & H2 & H3)%resolve_phases Hc Hn Ha.
  apply resolve_init_ok in H0 as (Hm0 & _).
  apply resolve_modules_ok in H1 as (_ & _ & s3 & Hm3 & H1).
  apply resolve_history_frame in H2 as (Hm2 & Hp2 & _).
  apply resolve_networks_ok in H3 as (Hm4 & _ & _ & _ & Hp3 & _).
  rewrite Hm0 in Hm3.
  unfold resolve_action_representation in H1. rewrite Hm3 in H1.
  assert (has_key "action_representation_module" m
          && has_key "action_representation_module_args" m = true) as E.
  { apply andb_true_iff; split; apply has_key_true; [by rewrite Hc | done]. }
  rewrite E in H1. inv_ok. subst s1.
  apply inject_one_hot_ok in Ha0 as (f1 & n1 & Hf1 & Hn1 & Hone).
  rewrite Hc in Hf1. simplify_eq. simpl in Hn1. simplify_eq. rewrite Hn in Hone.
  simpl in Hone. subst a.
  apply inject_identity_ok in Ha1 as (f2 & n2 & Hf2 & Hn2 & Hid).
  rewrite Hc in Hf2. simplify_eq. simpl in Hn2. simplify_eq. rewrite Hn in Hid.
  simpl in Hid. destruct Hid as (n & d & a0' & Hsn & Hsd & Ha0 & ->).
  apply getitem_ok in Ha2, Ha3.
  rewrite lookup_insert_ne in Ha2 by done. rewrite lookup_insert_eq in Ha3.
  rewrite Hc in Ha2. simplify_eq. rewrite call_class in Ha4.
  exists n, d, a0', a3. simpl. repeat split; try done.
  - rewrite Hm4, Hm2 by done. simpl. by rewrite lookup_insert_eq.
  - rewrite Hp3 by (unfold network_keys in *; solve_keys). rewrite Hp2 by done.
    simpl. by rewrite lookup_insert_eq.
Qed.

End WithCollaborators.
(** *** The theorems at the sample descriptors *)

Import Examples.

(** [dqn_plain] on CartPole has no history-summarization key: its
    [state_dim] is 4. *)
Lemma no_history_state_dim_witness :
  ∃ pl s',
    resolve_sym cartpole dqn_plain = Ok (pl, s') ∧
    dqn_plain !! "history_summarization_module" = None ∧
    policy_learner_args s' !! "state_dim" = Some (VInt 4).
Proof.
  destruct (resolve_sym cartpole dqn_plain) as [[pl s']|err] eqn:E;
    [|by vm_compute in E].
  exists pl, s'. split; [done|]. split; [by vm_compute|].
  destruct (no_history_state_dim construct_sym representation_dim_sym
              cartpole dqn_plain pl s' E)
    as (d0 & nm & Hd0 & Hnm & Hsd); [by vm_compute|].
  clear E. vm_compute in Hd0, Hnm.
  injection Hd0 as <-. injection Hnm as <-. exact Hsd.
Defined.

(** [dqn_stacking] on CartPole: (4 + 1) * 3 = 15. *)
Lemma stacking_state_dim_witness :
  ∃ pl s',
    resolve_sym cartpole dqn_stacking = Ok (pl, s') ∧
    dqn_stacking !! "history_summarization_module"
      = Some (VClass (OtherClass "StackingHistorySummarizationModule")) ∧
    is_Some (dqn_stacking !! "history_summarization_module_args") ∧
    policy_learner_args s' !! "state_dim" = Some (VInt 15).
Proof.
  destruct (resolve_sym cartpole dqn_stacking) as [[pl s']|err] eqn:E;
    [|by vm_compute in E].
  exists pl, s'. split; [done|]. split; [by vm_compute|].
  split; [by vm_compute; eexists|].
  destruct (stacking_state_dim construct_sym representation_dim_sym
              cartpole dqn_stacking pl s'
              (OtherClass "StackingHistorySummarizationModule") E)
    as (s0 & s1 & s2 & d0 & arm & ad & h0 & hl & total & sd & nm
        & (H0 & H1 & _) & Hd0 & Harm & Had & Hh0 & Hhl & _ & _ & Hint & _ & Hnm & Hsd);
    [by vm_compute | done | by vm_compute; eexists |].
  clear E.
  assert (Hs1 : policy_learner_args s1 !! "action_representation_module"
                = Some (VInst IdentityActionRepresentationModule
                          (<["representation_dim" := VInt 1]>
                             (<["max_number_actions" := VInt 2]> ∅)))).
  { vm_compute in H0. injection H0 as _ <-.
    vm_compute in H1. injection H1 as <-. vm_compute. reflexivity. }
  clear H0 H1. rewrite Hs1 in Harm. injection Harm as <-.
  vm_compute in Hd0, Hh0, Hnm, Had.
  injection Hd0 as <-. injection Hh0 as <-. injection Hnm as <-. injection Had as <-.
  vm_compute in Hhl. injection Hhl as <-.
  rewrite (Hint 1%Z 3%Z eq_refl eq_refl) in Hsd. exact Hsd.
Defined.

(** [bootstrapped_dqn] on CartPole. *)
Lemma bootstrapped_drops_state_dim_witness :
  ∃ pl s',
    resolve_sym cartpole bootstrapped_dqn = Ok (pl, s') ∧
    bootstrapped_dqn !! "name" = Some (VStr "BootstrappedDQN") ∧
    policy_learner_args s' !! "state_dim" = None ∧
    (∃ inst, built_from_raw_dims construct_sym cartpole bootstrapped_dqn inst ∧
             policy_learner_args s' !! "q_ensemble_network" = Some inst) ∧
    is_ok (evaluate_single construct_sym representation_dim_sym
             cartpole bootstrapped_dqn) = true.
Proof.
  destruct (resolve_sym cartpole bootstrapped_dqn) as [[pl s']|err] eqn:E;
    [|by vm_compute in E].
  exists pl, s'. split; [done|]. split; [by vm_compute|].
  destruct (bootstrapped_drops_state_dim construct_sym representation_dim_sym
              cartpole bootstrapped_dqn pl s' E) as (Hsd & Hq & _);
    [by vm_compute|].
  split; [exact Hsd|]. split; [exact Hq|]. by vm_compute.
Defined.

(** [dueling_dqn] on CartPole. *)
Lemma dueling_exact_name_witness :
  ∃ pl s',
    resolve_sym cartpole dueling_dqn = Ok (pl, s') ∧
    dueling_dqn !! "name" = Some (VStr "DuelingDQN") ∧
    ∃ inst, built_from_raw_dims construct_sym cartpole dueling_dqn inst ∧
            policy_learner_args s' !! "network_instance" = Some inst.
Proof.
  destruct (resolve_sym cartpole dueling_dqn) as [[pl s']|err] eqn:E;
    [|by vm_compute in E].
  exists pl, s'. split; [done|]. split; [by vm_compute|].
  apply (dueling_exact_name construct_sym representation_dim_sym
           cartpole dueling_dqn pl s' E).
  by vm_compute.
Defined.

(** C8, as stated, fails: "DoubleDuelingDQN" contains "DuelingDQN", its
    resolution on CartPole succeeds, and no network is built from the raw
    dimensions: the final bundle has no [network_instance] at all. *)
Lemma dueling_substring_counterexample :
  substring_of "DuelingDQN" "DoubleDuelingDQN" = true ∧
  double_dueling_dqn !! "name" = Some (VStr "DoubleDuelingDQN") ∧
  ∃ pl s',
    resolve_sym cartpole double_dueling_dqn = Ok (pl, s') ∧
    policy_learner_args s' !! "network_instance" = None ∧
    ¬ ∃ inst, built_from_raw_dims construct_sym cartpole double_dueling_dqn inst ∧
              policy_learner_args s' !! "network_instance" = Some inst.
Proof.
  split; [by vm_compute|]. split; [by vm_compute|].
  destruct (resolve_sym cartpole double_dueling_dqn) as [[pl s']|err] eqn:E;
    [|by vm_compute in E].
  exists pl, s'. split; [done|].
  vm_compute in E. injection E as _ <-.
  split; [vm_compute; reflexivity|].
  intros (inst & _ & Hinst). vm_compute in Hinst. discriminate Hinst.
Qed.

(** [dqn_identity] on CartPole: the bundle gains
    [max_number_actions = 2] and [representation_dim = 1]. *)
Lemma identity_module_injection_witness :
  ∃ pl s',
    resolve_sym cartpole dqn_identity = Ok (pl, s') ∧
    dqn_identity !! "action_representation_module"
      = Some (VClass IdentityActionRepresentationModule) ∧
    is_Some (dqn_identity !! "action_representation_module_args") ∧
    method s' !! "action_representation_module_args"
      = Some (VDict (<["representation_dim" := VInt 1]>
                       (<["max_number_actions" := VInt 2]> ∅))) ∧
    policy_learner_args s' !! "action_representation_module"
      = Some (VInst IdentityActionRepresentationModule
                (<["representation_dim" := VInt 1]>
                   (<["max_number_actions" := VInt 2]> ∅))).
Proof.
  destruct (resolve_sym cartpole dqn_identity) as [[pl s']|err] eqn:E;
    [|by vm_compute in E].
  exists pl, s'. split; [done|]. split; [by vm_compute|].
  split; [by vm_compute; eexists|].
  destruct (identity_module_injection construct_sym representation_dim_sym
              cartpole dqn_identity pl s' IdentityActionRepresentationModule E)
    as (n & d & a0 & inst & Hn & Hd & Ha0 & Hb & Hc & Hp);
    [by vm_compute | done | by vm_compute; eexists |].
  clear E. vm_compute in Hn, Hd, Ha0.
  injection Hn as <-. injection Hd as <-. injection Ha0 as <-.
  unfold construct_sym in Hc. injection Hc as <-. split; [exact Hb | exact Hp].
Defined.

(** The action-representation step on [dqn_plain]: the default identity
    module is stored. *)
Lemma action_representation_always_present_witness :
  ∃ s',
    resolve_modules construct_sym cartpole
      (RState dqn_plain ∅ (VDict ∅)) = Ok s' ∧
    has_key "action_representation_module" (policy_learner_args s') = true ∧
    history_action_dim representation_dim_sym cartpole (policy_learner_args s')
    = arm_representation_dim representation_dim_sym (policy_learner_args s').
Proof.
  destruct (resolve_modules construct_sym cartpole (RState dqn_plain ∅ (VDict ∅)))
    as [s'|err] eqn:E; [|by vm_compute in E].
  exists s'. split; [done|].
  apply (action_representation_always_present construct_sym representation_dim_sym
           cartpole _ s' E).
Defined.


End ResolverTheorems.

(** ** The launcher *)

Module LauncherFacts.
Import Py PyFacts Launcher.

Section Spawn.
Variable experiment : dict.
Variables env_name num_runs num_episodes num_steps record_period
          print_every_x_episodes print_every_x_steps dev : value.
Variable n : Z.
Hypothesis Hdev : experiment !! "device_id" = Some dev.
Hypothesis Hn : as_int num_runs = Some n.

Lemma spawn_methods_units (methods : list value) (processes : list process) :
  forallb is_dict methods = true →
  spawn_methods experiment env_name num_runs num_episodes num_steps record_period
    print_every_x_episodes print_every_x_steps methods processes
  = Ok (processes ++
          (method ← methods; run_idx ← range n;
           [Process env_name (bound_method experiment method) run_idx num_episodes
              num_steps print_every_x_episodes print_every_x_steps record_period])).
Proof using Hdev Hn.
  revert processes. induction methods as [|m ms IH]; intros processes Hd.
  - simpl. by rewrite app_nil_r.
  - simpl in Hd. apply andb_true_iff in Hd as [Hm Hms].
    destruct m; try done. simpl.
    unfold getitem. rewrite Hdev. simpl.
    unfold py_range, py_int. rewrite Hn. simpl.
    rewrite IH by done. f_equal. rewrite <- app_assoc. f_equal. f_equal.
    unfold dict_get. rewrite Hdev. by rewrite bind_singleton.
Qed.

End Spawn.

Lemma evaluate_units (experiment : dict) (all_processes : list process) :
  well_formed experiment = true →
  evaluate experiment all_processes = Ok (all_processes ++ spec_units experiment).
Proof.
  unfold well_formed, evaluate, spec_units, methods_of, run_count.
  intros H. repeat (apply andb_true_iff in H as [H ?]).
  apply has_key_lookup in H as [env_name Henv].
  match goal with H : has_key _ _ = true |- _ =>
    apply has_key_lookup in H as [rp Hrp] end.
  destruct (experiment !! "num_runs") as [nr|] eqn:Hnr; [|done].
  match goal with H : bool_decide _ = true |- _ =>
    apply bool_decide_eq_true in H as [n Hn] end.
  destruct (experiment !! "methods") as [ms|] eqn:Hms; [|done].
  destruct ms as [| | | | | |ms| |]; try done.
  match goal with H : _ && _ = true |- _ => apply andb_true_iff in H as [Hd Hdev] end.
  unfold getitem. rewrite Henv, Hnr, Hrp, Hms. simpl.
  rewrite (dict_get_lookup _ _ _ Henv), (dict_get_lookup _ _ _ Hrp), Hn. simpl.
  destruct ms as [|m ms]; [done|].
  apply has_key_lookup in Hdev as [dev Hdev].
  erewrite spawn_methods_units; [done | exact Hdev | exact Hn | exact Hd].
Qed.

Lemma evaluate_all_units (experiments : list dict) (all_processes : list process) :
  Forall (λ x, well_formed x = true) experiments →
  evaluate_all experiments all_processes
  = Ok (all_processes ++ (experiments ≫= spec_units)).
Proof.
  intros Hwf. revert all_processes.
  induction Hwf as [|x xs Hx _ IH]; intros acc; simpl.
  - by rewrite app_nil_r.
  - rewrite evaluate_units by done. simpl. rewrite IH. by rewrite app_assoc.
Qed.

(** One unit per method and run index. *)
Lemma spec_units_length (experiment : dict) :
  length (spec_units experiment)
  = (length (methods_of experiment) * Z.to_nat (run_count experiment))%nat.
Proof.
  unfold spec_units. induction (methods_of experiment) as [|m ms IH]; [done|].
  csimpl. rewrite length_app, IH. f_equal.
  rewrite bind_singleton, length_fmap. unfold range.
  by rewrite length_fmap, length_seq.
Qed.

(** The unit of the [j]-th method and run index [r] sits at position
    [j * run_count + r]. *)
Lemma spec_units_lookup (experiment : dict) (j r : nat) method :
  methods_of experiment !! j = Some method →
  (r < Z.to_nat (run_count experiment))%nat →
  spec_units experiment !! (j * Z.to_nat (run_count experiment) + r)%nat
  = Some (Process (dict_get experiment "env_name") (bound_method experiment method)
            (Z.of_nat r)
            (dict_get experiment "num_episodes") (dict_get experiment "num_steps")
            (dict_get experiment "print_every_x_episodes")
            (dict_get experiment "print_every_x_steps")
            (dict_get experiment "record_period")).
Proof.
  unfold spec_units. intros Hj Hr.
  revert j Hj. induction (methods_of experiment) as [|m ms IH]; intros j Hj; [done|].
  csimpl. rewrite bind_singleton.
  assert (Hlen : length (range (run_count experiment))
                 = Z.to_nat (run_count experiment)).
  { unfold range. by rewrite length_fmap, length_seq. }
  destruct j as [|j]; simpl in *.
  - simplify_eq. rewrite lookup_app_l by (rewrite length_fmap; lia).
    rewrite list_lookup_fmap. unfold range. rewrite list_lookup_fmap.
    rewrite lookup_seq_lt by done. done.
  - rewrite lookup_app_r by (rewrite length_fmap; lia).
    rewrite length_fmap, Hlen.
    replace (Z.to_nat (run_count experiment) + j * Z.to_nat (run_count experiment)
             + r - Z.to_nat (run_count experiment))%nat
      with (j * Z.to_nat (run_count experiment) + r)%nat by lia.
    by apply IH.
Qed.

End LauncherFacts.

Module LauncherTheorems.
Import Py PyFacts Launcher LauncherFacts.

(** C7.  [run] asserts that there is an experiment; for well-formed
    experiments it creates the units of the specification (one per
    experiment, method and run index below the run count, bound to the
    arguments in the order of [evaluate_single]), starts every one of them,
    then joins every one of them, and returns. *)
Theorem launcher_trace (experiments : list dict) :
  Forall (λ x, well_formed x = true) experiments →
  run experiments =
    match experiments with
    | [] => ([], Raise AssertionError)
    | _ =>
        let units := experiments ≫= spec_units in
        ((Started <$> units) ++ (Joined <$> units), Ok ())
    end
  ∧ length (experiments ≫= spec_units)
    = sum_list ((λ x, length (methods_of x) * Z.to_nat (run_count x))%nat
                  <$> experiments).
Proof.
  intros Hwf. split.
  - destruct experiments as [|x xs]; [done|].
    unfold run. change (0 <? length (x :: xs))%nat with true. cbv iota.
    rewrite (eff_bind_lift_ok _ _ _ (evaluate_all_units _ [] Hwf)).
    rewrite app_nil_l. rewrite !for_each_tell.
    unfold mbind, eff_bind. simpl. done.
  - clear Hwf. induction experiments as [|x xs IH]; [done|].
    csimpl. rewrite length_app, spec_units_length, IH. done.
Qed.

Import Examples.

(** The sample experiment: two methods, three runs, six units. *)
Lemma launcher_trace_witness :
  Forall (λ x, well_formed x = true) [cartpole_experiment] ∧
  run [cartpole_experiment]
  = ((Started <$> spec_units cartpole_experiment)
       ++ (Joined <$> spec_units cartpole_experiment), Ok ()) ∧
  length (spec_units cartpole_experiment) = 6%nat.
Proof.
  assert (Hwf : Forall (λ x, well_formed x = true) [cartpole_experiment]).
  { repeat constructor. }
  destruct (launcher_trace [cartpole_experiment] Hwf) as [Hrun Hlen].
  split; [exact Hwf|]. split.
  - rewrite Hrun. csimpl. by rewrite app_nil_r.
  - csimpl in Hlen. rewrite app_nil_r in Hlen. rewrite Hlen. by vm_compute.
Defined.

End LauncherTheorems.


(** ** The aggregator *)

Module AggregatorFacts.
Import Py PyFacts Aggregator.

Lemma wrap64_fits z : fits_int64 z = true → wrap64 z = z.
Proof.
  unfold fits_int64, wrap64. intros [H1 H2]%andb_true_iff.
  apply Z.leb_le in H1. apply Z.ltb_lt in H2.
  rewrite Z.mod_small; lia.
Qed.

Section WithNumpy.
Variable F : Type.
Variables mean0 std0 : list F → F.
Variables fadd fsub fdiv : F → F → F.
Variable sqrt_int : Z → F.
Variable repr_object : value → string.

Local Abbreviation run_path := (run_path repr_object).
Local Abbreviation load_runs := (load_runs repr_object).
Local Abbreviation found_runs := (found_runs repr_object).
Local Abbreviation missing_notices := (missing_notices repr_object).
Local Abbreviation method_curve := (method_curve mean0 std0 fdiv sqrt_int repr_object).
Local Abbreviation plot_method := (plot_method mean0 std0 fadd fsub fdiv sqrt_int repr_object).

Lemma load_runs_cons (fs : gmap string (list F)) env_name method attr run rest data :
  load_runs fs env_name method attr (run :: rest) data
  = (name ← lift (subscript method "name");
     match fs !! run_path env_name name run attr with
     | Some d => load_runs fs env_name method attr rest (data ++ [d])
     | None =>
         tell (Print ("File not found for " +:+ run_path env_name name run attr));;
         load_runs fs env_name method attr rest data
     end).
Proof. done. Qed.

Lemma load_runs_spec (fs : gmap string (list F)) env_name method name attr
    (runs : list Z) (data : list (list F)) :
  subscript method "name" = Ok name →
  load_runs fs env_name method attr runs data
  = (omap (λ run, match fs !! run_path env_name name run attr with
                  | Some _ => None
                  | None => Some (Print ("File not found for "
                                            +:+ run_path env_name name run attr))
                  end) runs,
     Ok (data ++ omap (λ run, fs !! run_path env_name name run attr) runs)).
Proof.
  intros Hname. revert data. induction runs as [|run runs IH]; intros data.
  - simpl. by rewrite app_nil_r.
  - rewrite load_runs_cons, (eff_bind_lift_ok _ _ _ Hname). cbv beta.
    destruct (fs !! run_path env_name name run attr) as [d|] eqn:E.
    + rewrite IH. simpl. rewrite E. simpl. by rewrite <- app_assoc.
    + rewrite eff_bind_tell, IH. simpl. rewrite E. done.
Qed.

Lemma np_array_grid (data : list (list F)) (L : nat) :
  data ≠ [] → Forall (λ d, length d = L) data →
  np_array data = Ok (Grid data L).
Proof.
  intros Hne Hall. destruct data as [|d rest]; [done|].
  apply Forall_cons in Hall as [Hd Hrest]. simpl.
  assert (forallb (λ r : list F, (length r =? length d)%nat) rest = true) as ->.
  { apply forallb_forall. intros r Hr%list_elem_of_In.
    rewrite Forall_forall in Hrest. apply Nat.eqb_eq. rewrite Hd. by apply Hrest. }
  by rewrite Hd.
Qed.

(** In a grid every column has one value per row. *)
Lemma column_length (rows : list (list F)) (L i : nat) :
  Forall (λ d, length d = L) rows → (i < L)%nat →
  length (column rows i) = length rows.
Proof.
  intros Hall Hi. unfold column. induction Hall as [|d rows Hd _ IH]; [done|].
  destruct (d !! i) as [x|] eqn:E.
  - cbn [omap list_omap]. rewrite E. cbn [length]. by f_equal.
  - apply lookup_ge_None in E. lia.
Qed.

Section OneMethod.
Variable fs : gmap string (list F).
Variables env_name num_runs record_period method name : value.
Variable attr : string.
Variable n : Z.
Hypothesis Hname : subscript method "name" = Ok name.
Hypothesis Hn : as_int num_runs = Some n.

Lemma load_range :
  load_runs fs env_name method attr (range n) []
  = (missing_notices fs env_name name attr n, Ok (found_runs fs env_name name attr n)).
Proof using Hname. by rewrite (load_runs_spec _ _ _ _ _ _ _ Hname). Qed.

(** No run on disk: the reduction of the empty array has no axis to
    measure. *)
Lemma method_curve_nothing_found :
  found_runs fs env_name name attr n = [] →
  method_curve fs env_name num_runs record_period attr method
  = (missing_notices fs env_name name attr n, Raise IndexError).
Proof using Hname Hn.
  intros Hnone. unfold Aggregator.method_curve.
  rewrite (eff_bind_lift_ok (py_int num_runs) _ n) by (unfold py_int; by rewrite Hn).
  rewrite (eff_bind_ok _ _ _ _ load_range). rewrite Hnone.
  rewrite (eff_bind_lift_ok _ _ (Flat [])) by done.
  simpl. by rewrite app_nil_r.
Qed.

(** At least one run on disk, all of one length. *)
Lemma method_curve_found (L : nat) (p : Z) :
  found_runs fs env_name name attr n ≠ [] →
  Forall (λ d, length d = L) (found_runs fs env_name name attr n) →
  as_int record_period = Some p → fits_int64 p = true →
  method_curve fs env_name num_runs record_period attr method
  = (missing_notices fs env_name name attr n,
     Ok (Curve
           ((λ i, wrap64 (p * Z.of_nat i)) <$> seq 0 L)
           (Vector ((λ i, mean0 (column (found_runs fs env_name name attr n) i))
                        <$> seq 0 L))
           (Vector ((λ x, fdiv x (sqrt_int n)) <$>
                        ((λ i, std0 (column (found_runs fs env_name name attr n) i))
                           <$> seq 0 L))))).
Proof using Hname Hn.
  intros Hne Hall Hp Hfit. unfold Aggregator.method_curve.
  rewrite (eff_bind_lift_ok (py_int num_runs) _ n) by (unfold py_int; by rewrite Hn).
  rewrite (eff_bind_ok _ _ _ _ load_range).
  rewrite (eff_bind_lift_ok _ _ _ (np_array_grid _ _ Hne Hall)).
  simpl. rewrite length_fmap, length_seq. unfold scaled_arange, py_int.
  rewrite Hp. simpl. rewrite Hfit. simpl. by rewrite app_nil_r.
Qed.

End OneMethod.

Lemma column_lookup (rows : list (list F)) (L i j : nat) d :
  Forall (λ d, length d = L) rows → (i < L)%nat →
  rows !! j = Some d → column rows i !! j = d !! i.
Proof.
  intros Hall Hi. revert j. unfold column.
  induction Hall as [|r rows Hr _ IH]; intros j Hj; [done|].
  destruct (r !! i) as [x|] eqn:E.
  2:{ apply lookup_ge_None in E. lia. }
  cbn [omap list_omap]. rewrite E.
  destruct j as [|j]; simpl in *; [by simplify_eq | by apply IH].
Qed.

Lemma missing_notice_elem (fs : gmap string (list F)) env_name name attr n run :
  run ∈ range n → fs !! run_path env_name name run attr = None →
  Print ("File not found for " +:+ run_path env_name name run attr)
  ∈ missing_notices fs env_name name attr n.
Proof.
  intros Hrun Hnone. unfold Aggregator.missing_notices.
  apply list_elem_of_omap. exists run. by rewrite Hnone.
Qed.

Lemma found_run_elem (fs : gmap string (list F)) env_name name attr n run d :
  run ∈ range n → fs !! run_path env_name name run attr = Some d →
  d ∈ found_runs fs env_name name attr n.
Proof.
  intros Hrun Hd. unfold Aggregator.found_runs.
  apply list_elem_of_omap. by exists run.
Qed.

Lemma found_runs_none (fs : gmap string (list F)) env_name name attr n :
  (∀ run, run ∈ range n → fs !! run_path env_name name run attr = None) →
  found_runs fs env_name name attr n = [].
Proof.
  intros Hall. unfold Aggregator.found_runs.
  induction (range n) as [|run runs IH]; [done|].
  cbn [omap list_omap]. rewrite Hall by apply list_elem_of_here.
  apply IH. intros r Hr. apply Hall. by apply list_elem_of_further.
Qed.

(** Every run is either loaded or reported. *)
Lemma found_missing_count (fs : gmap string (list F)) env_name name attr n :
  (length (found_runs fs env_name name attr n)
   + length (missing_notices fs env_name name attr n))%nat = Z.to_nat n.
Proof.
  unfold Aggregator.found_runs, Aggregator.missing_notices.
  replace (Z.to_nat n) with (length (range n))
    by (unfold range; by rewrite length_fmap, length_seq).
  induction (range n) as [|run runs IH]; [done|].
  cbn [omap list_omap]. destruct (fs !! _); simpl; lia.
Qed.

(** What [plot_method] emits for a method with at least one run on disk. *)
Lemma plot_method_found (fs : gmap string (list F))
    (env_name num_runs record_period method name : value) (attr : string)
    (n p : Z) (L : nat) :
  subscript method "name" = Ok name →
  as_int num_runs = Some n →
  as_int record_period = Some p → fits_int64 p = true →
  found_runs fs env_name name attr n ≠ [] →
  Forall (λ d, length d = L) (found_runs fs env_name name attr n) →
  let xs := (λ i, wrap64 (p * Z.of_nat i)) <$> seq 0 L in
  let means := (λ i, mean0 (column (found_runs fs env_name name attr n) i))
                 <$> seq 0 L in
  let errs := (λ x, fdiv x (sqrt_int n)) <$>
                ((λ i, std0 (column (found_runs fs env_name name attr n) i))
                   <$> seq 0 L) in
  plot_method fs env_name num_runs record_period attr method
  = (missing_notices fs env_name name attr n
       ++ [Plot xs (Vector means) name;
           FillBetween xs (Vector (zip_with fsub means errs))
                          (Vector (zip_with fadd means errs))],
     Ok ()).
Proof.
  intros Hname Hn Hp Hfit Hne Hall xs means errs.
  pose proof (method_curve_found fs env_name num_runs record_period method name
                attr n Hname Hn L p Hne Hall Hp Hfit) as Hcurve.
  unfold Aggregator.plot_method.
  rewrite (eff_bind_ok _ _ _ _ Hcurve), (eff_bind_lift_ok _ _ _ Hname).
  simpl. rewrite !length_fmap, !length_seq, Nat.eqb_refl. done.
Qed.

End WithNumpy.
End AggregatorFacts.

Module AggregatorTheorems.
Import Py PyFacts Aggregator AggregatorFacts.

Section WithNumpy.
Variable F : Type.
Variables mean0 std0 : list F → F.
Variables fadd fsub fdiv : F → F → F.
Variable sqrt_int : Z → F.
Variable repr_object : value → string.

Local Abbreviation run_path := (run_path repr_object).
Local Abbreviation load_runs := (load_runs repr_object).
Local Abbreviation found_runs := (found_runs repr_object).
Local Abbreviation missing_notices := (missing_notices repr_object).
Local Abbreviation method_curve := (method_curve mean0 std0 fdiv sqrt_int repr_object).
Local Abbreviation plot_method := (plot_method mean0 std0 fadd fsub fdiv sqrt_int repr_object).
Local Abbreviation generate_one_plot :=
  (generate_one_plot mean0 std0 fadd fsub fdiv sqrt_int repr_object).

(** C2.  With [N] run files found, all of length [L], and [R] the
    configured run count: the plotted mean at point [i] is the mean of the
    [N] found values at [i], the standard error at [i] is their standard
    deviation divided by [sqrt R], and the abscissa at [i] is
    [record_period * i] (as a 64-bit integer). *)
Theorem plotted_statistics (fs : gmap string (list F))
    (env_name num_runs record_period method name : value) (attr : string)
    (n p : Z) (L : nat) :
  subscript method "name" = Ok name →
  as_int num_runs = Some n →
  as_int record_period = Some p → fits_int64 p = true →
  found_runs fs env_name name attr n ≠ [] →
  Forall (λ d, length d = L) (found_runs fs env_name name attr n) →
  ∃ xs means errs,
    method_curve fs env_name num_runs record_period attr method
    = (missing_notices fs env_name name attr n,
       Ok (Curve xs (Vector means) (Vector errs))) ∧
    plot_method fs env_name num_runs record_period attr method
    = (missing_notices fs env_name name attr n
         ++ [Plot xs (Vector means) name;
             FillBetween xs (Vector (zip_with fsub means errs))
                              (Vector (zip_with fadd means errs))],
       Ok ()) ∧
    length xs = L ∧ length means = L ∧ length errs = L ∧
    ∀ i, (i < L)%nat →
      let values := column (found_runs fs env_name name attr n) i in
      length values = length (found_runs fs env_name name attr n) ∧
      (∀ j d, found_runs fs env_name name attr n !! j = Some d →
              values !! j = d !! i) ∧
      means !! i = Some (mean0 values) ∧
      errs !! i = Some (fdiv (std0 values) (sqrt_int n)) ∧
      xs !! i = Some (wrap64 (p * Z.of_nat i)) ∧
      (fits_int64 (p * Z.of_nat i) = true → xs !! i = Some (p * Z.of_nat i)%Z).
Proof.
  intros Hname Hn Hp Hfit Hne Hall.
  pose proof (method_curve_found F mean0 std0 fdiv sqrt_int repr_object
                fs env_name num_runs record_period method name attr n
                Hname Hn L p Hne Hall Hp Hfit) as Hcurve.
  eexists _, _, _. split; [exact Hcurve|]. split; [|split; [|split; [|split]]].
  - by apply (plot_method_found F mean0 std0 fadd fsub fdiv sqrt_int repr_object).
  - by rewrite length_fmap, length_seq.
  - by rewrite length_fmap, length_seq.
  - by rewrite !length_fmap, length_seq.
  - intros i Hi values. split_and!.
    + by apply column_length with L.
    + intros j d Hj. by apply column_lookup with L.
    + rewrite list_lookup_fmap, lookup_seq_lt by done. done.
    + rewrite !list_lookup_fmap, lookup_seq_lt by done. done.
    + rewrite list_lookup_fmap, lookup_seq_lt by done. done.
    + intros Hfi. rewrite list_lookup_fmap, lookup_seq_lt by done. simpl.
      by rewrite wrap64_fits.
Qed.

(** C6.  A run whose file is absent is reported and skipped, and the loop
    goes on: the loop never raises, every absent run has its notice, every
    present run is in the data; and with at least one run present
    (all of one length) the method is plotted without an error. *)
Theorem missing_runs_are_skipped (fs : gmap string (list F))
    (env_name num_runs record_period method name : value) (attr : string) (n : Z) :
  subscript method "name" = Ok name →
  as_int num_runs = Some n →
  load_runs fs env_name method attr (range n) []
  = (missing_notices fs env_name name attr n, Ok (found_runs fs env_name name attr n)) ∧
  (∀ run, run ∈ range n → fs !! run_path env_name name run attr = None →
     Print ("File not found for " +:+ run_path env_name name run attr)
     ∈ missing_notices fs env_name name attr n) ∧
  (∀ run d, run ∈ range n → fs !! run_path env_name name run attr = Some d →
     d ∈ found_runs fs env_name name attr n) ∧
  (length (found_runs fs env_name name attr n)
   + length (missing_notices fs env_name name attr n))%nat = Z.to_nat n ∧
  (∀ L p,
     found_runs fs env_name name attr n ≠ [] →
     Forall (λ d, length d = L) (found_runs fs env_name name attr n) →
     as_int record_period = Some p → fits_int64 p = true →
     (plot_method fs env_name num_runs record_period attr method).2 = Ok ()).
Proof.
  intros Hname Hn. split_and!.
  - by apply load_range.
  - apply missing_notice_elem.
  - apply found_run_elem.
  - apply found_missing_count.
  - intros L p Hne Hall Hp Hfit.
    rewrite (plot_method_found F mean0 std0 fadd fsub fdiv sqrt_int repr_object
               fs env_name num_runs record_period method name attr n p L);
      done.
Qed.

(** C10.  When every run file of a method is absent the method is not
    passed over: its data set is empty, the mean has no axis, and reading
    [mean.shape[0]] raises; nothing is plotted for it and the whole
    [generate_one_plot] call raises. *)
Theorem all_runs_missing_raises (fs : gmap string (list F))
    (env_name num_runs record_period method name : value) (attr : string) (n : Z) :
  subscript method "name" = Ok name →
  as_int num_runs = Some n →
  (∀ run, run ∈ range n → fs !! run_path env_name name run attr = None) →
  found_runs fs env_name name attr n = [] ∧
  reduce_axis0 mean0 (Flat []) = Scalar (mean0 []) ∧
  plot_method fs env_name num_runs record_period attr method
  = (missing_notices fs env_name name attr n, Raise IndexError) ∧
  ∀ (experiment : dict) (attributes : list string) exp_name methods ms,
    experiment !! "env_name" = Some env_name →
    experiment !! "exp_name" = Some exp_name →
    experiment !! "num_runs" = Some num_runs →
    experiment !! "record_period" = Some record_period →
    experiment !! "methods" = Some methods →
    py_iter methods = Ok ms → method ∈ ms → attr ∈ attributes →
    ∃ e, (generate_one_plot fs experiment attributes).2 = Raise e.
Proof.
  intros Hname Hn Hnone.
  pose proof (found_runs_none F repr_object fs env_name name attr n Hnone) as Hfound.
  pose proof (method_curve_nothing_found F mean0 std0 fdiv sqrt_int repr_object
                fs env_name num_runs record_period method name attr n
                Hname Hn Hfound) as Hcurve.
  assert (Hplot : plot_method fs env_name num_runs record_period attr method
                  = (missing_notices fs env_name name attr n, Raise IndexError)).
  { unfold Aggregator.plot_method. by rewrite (eff_bind_raise _ _ _ _ Hcurve). }
  split_and!; [done | done | done |].
  intros experiment attributes exp_name methods ms He Hx Hr Hp Hm Hms Hin Hattr.
  destruct (for_each_raises
              (Aggregator.plot_method mean0 std0 fadd fsub fdiv sqrt_int repr_object
                 fs env_name num_runs record_period attr) ms method IndexError Hin)
    as [e' He'].
  { by rewrite Hplot. }
  unfold Aggregator.generate_one_plot.
  rewrite eff_bind_tell. cbn [snd].
  unfold getitem. rewrite He, Hx, Hr, Hp, Hm.
  rewrite !(eff_bind_lift_ok _ _ _ eq_refl).
  eapply (for_each_raises _ _ attr e'); [exact Hattr|].
  unfold Aggregator.plot_attribute.
  rewrite (eff_bind_lift_ok _ _ _ Hms).
  apply eff_snd_bind_raise. exact He'.
Qed.

End WithNumpy.
(** *** The theorems at the sample files *)

Import Examples.

(** "DQN" in the sample files: runs 0 and 1 found, three points each. *)
Lemma plotted_statistics_witness :
  subscript (VDict dqn) "name" = Ok (VStr "DQN") ∧
  found_runs no_repr two_of_three (VStr "CartPole-v1") (VStr "DQN") "return" 3
    = [[10; 20; 30]; [30; 40; 50]]%Z ∧
  plot_method_z two_of_three (VStr "CartPole-v1") (VInt 3) (VInt 10) "return" (VDict dqn)
  = ([Print "File not found for outputs/CartPole-v1/DQN/2_return.npy";
      Plot [0; 10; 20]%Z (Vector [20; 30; 40]%Z) (VStr "DQN");
      FillBetween [0; 10; 20]%Z (Vector [0; 10; 20]%Z) (Vector [40; 50; 60]%Z)],
     Ok ()).
Proof.
  split; [by vm_compute|]. split; [by vm_compute|].
  destruct (plotted_statistics Z z_mean z_spread Z.add Z.sub Z.div z_sqrt no_repr
              two_of_three (VStr "CartPole-v1") (VInt 3) (VInt 10) (VDict dqn)
              (VStr "DQN") "return" 3 10 3)
    as (xs & means & errs & Hcurve & Hplot & _);
    [by vm_compute | done | done | by vm_compute | by vm_compute
    | by vm_compute; repeat constructor |].
  unfold plot_method_z. rewrite Hplot. clear Hplot. vm_compute in Hcurve.
  injection Hcurve as <- <- <-. vm_compute. reflexivity.
Defined.

(** The same files: run 2 is reported, runs 0 and 1 are kept, the method
    is plotted. *)
Lemma missing_runs_are_skipped_witness :
  subscript (VDict dqn) "name" = Ok (VStr "DQN") ∧
  two_of_three !! run_path no_repr (VStr "CartPole-v1") (VStr "DQN") 2 "return" = None ∧
  load_runs no_repr two_of_three (VStr "CartPole-v1") (VDict dqn) "return" (range 3) []
  = ([Print "File not found for outputs/CartPole-v1/DQN/2_return.npy"],
     Ok [[10; 20; 30]; [30; 40; 50]]%Z) ∧
  (plot_method_z two_of_three (VStr "CartPole-v1") (VInt 3) (VInt 10) "return"
     (VDict dqn)).2 = Ok ().
Proof.
  split; [by vm_compute|]. split; [by vm_compute|].
  destruct (missing_runs_are_skipped Z z_mean z_spread Z.add Z.sub Z.div z_sqrt no_repr
              two_of_three (VStr "CartPole-v1") (VInt 3) (VInt 10) (VDict dqn)
              (VStr "DQN") "return" 3)
    as (Hload & _ & _ & _ & Hplot); [by vm_compute | done |].
  split.
  - rewrite Hload. by vm_compute.
  - unfold plot_method_z. apply (Hplot 3%nat 10%Z);
      [by vm_compute | by vm_compute; repeat constructor | done | by vm_compute].
Defined.

(** "DuelingDQN" has no file at all: plotting it raises, and so does the
    chart of the sample experiment. *)
Lemma all_runs_missing_raises_witness :
  (∀ run, run ∈ range 3 →
     two_of_three !! run_path no_repr (VStr "CartPole-v1") (VStr "DuelingDQN") run "return"
     = None) ∧
  plot_method_z two_of_three (VStr "CartPole-v1") (VInt 3) (VInt 1) "return"
    (VDict dueling_dqn)
  = ([Print "File not found for outputs/CartPole-v1/DuelingDQN/0_return.npy";
      Print "File not found for outputs/CartPole-v1/DuelingDQN/1_return.npy";
      Print "File not found for outputs/CartPole-v1/DuelingDQN/2_return.npy"],
     Raise IndexError) ∧
  ∃ e, (generate_one_plot z_mean z_spread Z.add Z.sub Z.div z_sqrt no_repr
          two_of_three cartpole_experiment ["return"]).2 = Raise e.
Proof.
  assert (Hnone : ∀ run, run ∈ range 3 →
            two_of_three
              !! run_path no_repr (VStr "CartPole-v1") (VStr "DuelingDQN") run "return"
            = None).
  { intros run Hrun. vm_compute in Hrun.
    repeat (apply elem_of_cons in Hrun as [->|Hrun]; [by vm_compute|]).
    by apply elem_of_nil in Hrun. }
  destruct (all_runs_missing_raises Z z_mean z_spread Z.add Z.sub Z.div z_sqrt no_repr
              two_of_three (VStr "CartPole-v1") (VInt 3) (VInt 1) (VDict dueling_dqn)
              (VStr "DuelingDQN") "return" 3)
    as (_ & _ & Hplot & Hall); [by vm_compute | done | exact Hnone |].
  split; [exact Hnone|]. split.
  - unfold plot_method_z. rewrite Hplot. by vm_compute.
  - apply (Hall cartpole_experiment ["return"]
             (VStr "benchmark_cartpole_v1_part_1")
             (VList [VDict dqn; VDict dueling_dqn])
             [VDict dqn; VDict dueling_dqn]);
      [vm_compute; reflexivity.. | |].
    + apply list_elem_of_further, list_elem_of_here.
    + apply list_elem_of_here.
Defined.


End AggregatorTheorems.

(** ** Strings and traces *)

Module StringFacts.
Import Executor.

Lemma append_cons (x : ascii) (a b : string) :
  String x a +:+ b = String x (a +:+ b).
Proof. reflexivity. Qed.

Lemma append_nil (b : string) : "" +:+ b = b.
Proof. reflexivity. Qed.

Lemma append_assoc (a b c : string) : (a +:+ b) +:+ c = a +:+ (b +:+ c).
Proof.
  induction a as [|x a IH]; [done|]. rewrite !append_cons. by rewrite IH.
Qed.

Lemma length_append (a b : string) :
  String.length (a +:+ b) = (String.length a + String.length b)%nat.
Proof.
  induction a as [|x a IH]; [done|]. rewrite append_cons. simpl. by rewrite IH.
Qed.

(** Cancellation on the right. *)
Lemma append_inj_r (a b c : string) : a +:+ c = b +:+ c → a = b.
Proof.
  revert b. induction a as [|x a IH]; intros [|y b] H;
    rewrite ?append_cons, ?append_nil in H.
  - done.
  - apply (f_equal String.length) in H. simpl in H. rewrite length_append in H. lia.
  - apply (f_equal String.length) in H. simpl in H. rewrite length_append in H. lia.
  - injection H as -> H. f_equal. by apply IH.
Qed.

Lemma pretty_N_char_no_underscore (x : N) :
  Ascii.eqb (pretty_N_char x) "_"%char = false.
Proof. unfold pretty_N_char. by repeat case_match. Qed.

Lemma pretty_N_go_no_underscore (x : N) (s : string) :
  has_char "_" (pretty_N_go x s) = has_char "_" s.
Proof.
  revert s. induction (N.lt_wf_0 x) as [x _ IH]; intros s.
  destruct (decide (x = 0%N)) as [->|Hx].
  - by rewrite pretty_N_go_0.
  - rewrite pretty_N_go_step by lia. rewrite IH.
    + simpl. by rewrite pretty_N_char_no_underscore.
    + apply N.div_lt; lia.
Qed.

(** The decimal text of an integer has no underscore. *)
Lemma pretty_Z_no_underscore (z : Z) : has_char "_" (pretty z) = false.
Proof.
  destruct z as [|p|p]; [done| |].
  - apply (pretty_N_go_no_underscore (Npos p) "").
  - change (pretty (Zneg p)) with ("-" +:+ pretty (Npos p)). simpl.
    apply (pretty_N_go_no_underscore (Npos p) "").
Qed.

(** Two texts split at their first underscore. *)
Lemma split_at_underscore (a b c d : string) :
  has_char "_" a = false → has_char "_" c = false →
  a +:+ "_" +:+ b = c +:+ "_" +:+ d → a = c ∧ b = d.
Proof.
  revert c. induction a as [|x a IH]; intros [|y c] Ha Hc H;
    rewrite ?append_cons, ?append_nil in H; simpl in Ha, Hc.
  - by injection H.
  - injection H as <- _. by apply orb_false_iff in Hc as [? _].
  - injection H as -> _. by apply orb_false_iff in Ha as [? _].
  - injection H as -> H. apply orb_false_iff in Ha as [_ Ha].
    apply orb_false_iff in Hc as [_ Hc].
    destruct (IH c Ha Hc H) as [-> ->]. done.
Qed.

End StringFacts.

Module EffFacts.
Import Py PyFacts.

(** A computation all of whose events satisfy [P]. *)
Lemma events_bind {E A B} (P : E → Prop) (m : eff E A) (f : A → eff E B) :
  Forall P m.1 → (∀ a, m.2 = Ok a → Forall P (f a).1) → Forall P (m ≫= f).1.
Proof.
  destruct m as [t [a|e]]; simpl; intros Ht Hf; unfold mbind, eff_bind; simpl.
  - apply Forall_app. split; [done|]. by apply Hf.
  - done.
Qed.

Lemma events_lift {E A} (P : E → Prop) (r : result A) : Forall P (lift (E:=E) r).1.
Proof. constructor. Qed.

Lemma events_tell {E} (P : E → Prop) (ev : E) : P ev → Forall P (tell ev).1.
Proof. intros H. by repeat constructor. Qed.

Lemma events_ret {E A} (P : E → Prop) (a : A) : Forall P (mret (M:=eff E) a).1.
Proof. constructor. Qed.

Lemma events_for_each {E A} (P : E → Prop) (body : A → eff E ()) (l : list A) :
  (∀ x, x ∈ l → Forall P (body x).1) → Forall P (for_each body l).1.
Proof.
  induction l as [|x l IH]; intros H; [constructor|].
  simpl. apply events_bind.
  - apply H, list_elem_of_here.
  - intros _ _. apply IH. intros y Hy. by apply H, list_elem_of_further.
Qed.

(** A loop that reaches an element on which the body fails. *)
Lemma for_each_stops {E A} (P : E → Prop) (body : A → eff E ()) (l1 l2 : list A) x :
  (∀ y, y ∈ l1 → Forall P (body y).1) →
  Forall P (body x).1 →
  is_ok (body x).2 = false →
  Forall P (for_each body (l1 ++ x :: l2)).1 ∧
  is_ok (for_each body (l1 ++ x :: l2)).2 = false.
Proof.
  intros H1 Hx Hfail. induction l1 as [|y l1 IH]; simpl.
  - unfold mbind, eff_bind. destruct (body x) as [t [[]|e]]; simpl in *; done.
  - destruct IH as [IH1 IH2].
    { intros z Hz. by apply H1, list_elem_of_further. }
    pose proof (H1 y (list_elem_of_here _ _)) as Hy.
    unfold mbind, eff_bind. destruct (body y) as [t [[]|e]]; simpl in *; [|done].
    split; [|done]. apply Forall_app. done.
Qed.

Lemma lift_ok_bind {E A B} (a : A) (f : A → eff E B) : lift (Ok a) ≫= f = f a.
Proof. unfold mbind, eff_bind, lift. simpl. by destruct (f a). Qed.

Lemma lift_raise_bind {E A B} (e : exn) (f : A → eff E B) :
  lift (Raise e) ≫= f = ([], Raise e).
Proof. done. Qed.

Lemma eff_bind_inv_ok {E A B} (m : eff E A) (f : A → eff E B) t b :
  m ≫= f = (t, Ok b) →
  ∃ t1 a t2, m = (t1, Ok a) ∧ f a = (t2, Ok b) ∧ t = t1 ++ t2.
Proof.
  destruct m as [t1 [a|e]]; unfold mbind, eff_bind; simpl; [|done].
  destruct (f a) as [t2 r] eqn:Ef. simpl. intros [= <- ->]. eauto 10.
Qed.

Lemma lift_inv_ok {E A} (r : result A) t a :
  lift (E:=E) r = (t, Ok a) → r = Ok a ∧ t = [].
Proof. unfold lift. by intros [= <- ->]. Qed.

Lemma tell_inv {E} (ev : E) t u : tell ev = (t, Ok u) → t = [ev].
Proof. unfold tell. by intros [= <-]. Qed.

(** A loop that goes through: the traces of the bodies, in order. *)
Lemma for_each_inv_ok {E A} (body : A → eff E ()) (l : list A) t :
  for_each body l = (t, Ok ()) →
  t = mjoin ((λ x, (body x).1) <$> l) ∧ Forall (λ x, (body x).2 = Ok ()) l.
Proof.
  revert t. induction l as [|x l IH]; intros t H.
  - injection H as <-. done.
  - simpl in H. apply eff_bind_inv_ok in H as (t1 & [] & t2 & Hx & Hl & ->).
    apply IH in Hl as [-> Hall]. csimpl. rewrite Hx. simpl. split; [done|].
    constructor; [by rewrite Hx | done].
Qed.

End EffFacts.

(** ** The resolver, step by step *)

Module ResolverSteps.
Import Py PyFacts Resolver ResolverFacts ResolverSpec.

(** What a successful merge of keyword arguments holds. *)
Lemma add_keywords_ok (explicit : list (string * value)) (d kw : dict) :
  add_keywords explicit d = Ok kw →
  (∀ k v, (k, v) ∈ explicit → kw !! k = Some v ∧ d !! k = None) ∧
  (∀ k, k ∉ explicit.*1 → kw !! k = d !! k).
Proof.
  revert kw. induction explicit as [|[k v] rest IH]; intros kw H; simpl in H.
  - simplify_eq. split; [|done]. intros k v Hin. by apply elem_of_nil in Hin.
  - inv_ok. subst. destruct (IH a Ha) as [IH1 IH2].
    apply has_key_false in E. split.
    + intros k' v' Hin. apply elem_of_cons in Hin as [[= -> ->]|Hin].
      * rewrite lookup_insert_eq. split; [done|].
        destruct (decide (k ∈ rest.*1)) as [Hk|Hk].
        -- apply list_elem_of_fmap in Hk as ([k0 v0] & -> & Hk). simpl in *.
           destruct (IH1 _ _ Hk) as [Hkw _]. congruence.
        -- by rewrite <- IH2.
      * destruct (IH1 _ _ Hin) as [Hkw Hd]. split; [|done].
        rewrite lookup_insert_ne; [done|]. intros ->. congruence.
    + intros k' Hk'. apply not_elem_of_cons in Hk' as [Hne Hk']. simpl in Hne.
      rewrite lookup_insert_ne by done. by apply IH2.
Qed.

Lemma keywords_ok explicit bundle (kw : dict) :
  keywords explicit bundle = Ok kw →
  ∃ d, bundle = VDict d ∧ add_keywords explicit d = Ok kw.
Proof. unfold keywords. destruct bundle; try done. eauto. Qed.

Lemma store_subscript_ok v k x v' :
  store_subscript v k x = Ok v' ↔ ∃ d, v = VDict d ∧ v' = VDict (<[k := x]> d).
Proof.
  unfold store_subscript. split.
  - destruct v; try done. intros. simplify_eq. eauto.
  - by intros (d & -> & ->).
Qed.

Lemma shape_at_ok e i z : shape_at e i = Ok z ↔ observation_shape e !! i = Some z.
Proof.
  unfold shape_at. destruct (observation_shape e !! i); split; congruence.
Qed.

Ltac inv_items :=
  repeat match goal with
    | H : getitem _ _ = Ok _ |- _ => apply getitem_ok in H
    | H : shape_at _ _ = Ok _ |- _ => apply shape_at_ok in H
    end.

(** Reading an entry of the final bundle off a resolution. *)
Lemma final_entry (r : result (value * rstate)) pl s' k :
  r = Ok (pl, s') →
  policy_learner_args s' !! k
  = match r with Ok (_, s) => policy_learner_args s !! k | Raise _ => None end.
Proof. by intros ->. Qed.

(** Reading an entry of the final descriptor off a resolution. *)
Lemma final_method_entry (r : result (value * rstate)) pl s' k :
  r = Ok (pl, s') →
  method s' !! k = match r with Ok (_, s) => method s !! k | Raise _ => None end.
Proof. by intros ->. Qed.

Section WithCollaborators.
Variable construct : cls → dict → result value.
Variable representation_dim : value → result value.

Lemma call_inv f explicit bundle inst :
  call construct f explicit bundle = Ok inst →
  ∃ c d kw, f = VClass c ∧ bundle = VDict d ∧
            add_keywords explicit d = Ok kw ∧ construct c kw = Ok inst.
Proof.
  unfold call. intros H. inv_ok; try done.
  apply keywords_ok in Ha as (d & -> & Hk). subst. eauto 10.
Qed.

Lemma resolve_modules_steps e s s' :
  resolve_modules construct e s = Ok s' →
  ∃ s1 s2 s3,
    resolve_exploration construct s = Ok s1 ∧
    resolve_replay_buffer construct s1 = Ok s2 ∧
    resolve_safety construct s2 = Ok s3 ∧
    resolve_action_representation construct e s3 = Ok s'.
Proof. unfold resolve_modules. intros H. inv_ok. eauto 10. Qed.

Lemma resolve_networks_steps e s s' :
  resolve_networks construct representation_dim e s = Ok s' →
  ∃ s1 s2 s3 s4 s5 s6 s7,
    resolve_network construct representation_dim e s = Ok s1 ∧
    resolve_critic construct representation_dim e s1 = Ok s2 ∧
    resolve_value_critic construct e s2 = Ok s3 ∧
    resolve_actor construct representation_dim e s3 = Ok s4 ∧
    resolve_dueling construct e s4 = Ok s5 ∧
    resolve_bootstrapped construct e s5 = Ok s6 ∧
    resolve_dynamic s6 = Ok s7 ∧
    s' = attach_action_space e s7.
Proof. unfold resolve_networks. intros H. inv_ok. subst. eauto 20. Qed.

(** The exploration step, exactly. *)
Lemma resolve_exploration_exact s s' :
  resolve_exploration construct s = Ok s' →
  method s' = method s ∧ agent_args s' = agent_args s ∧
  if has_key "exploration_module" (method s)
     && has_key "exploration_module_args" (method s)
  then ∃ c a inner,
         method s !! "exploration_module" = Some (VClass c) ∧
         method s !! "exploration_module_args" = Some (VDict a) ∧
         construct c a = Ok inner ∧
         if has_key "exploration_module_wrapper" (method s)
         then ∃ w wa outer,
                method s !! "exploration_module_wrapper" = Some (VClass w) ∧
                method s !! "exploration_module_wrapper_args" = Some (VDict wa) ∧
                wa !! "exploration_module" = None ∧
                construct w (<["exploration_module" := inner]> wa) = Ok outer ∧
                policy_learner_args s' !! "exploration_module" = Some outer
         else policy_learner_args s' !! "exploration_module" = Some inner
  else s' = s.
Proof.
  unfold resolve_exploration. intros H.
  destruct (has_key "exploration_module" (method s) && _) eqn:E; [|by simplify_eq].
  inv_ok; subst; simpl; (split; [done|]); (split; [done|]).
  - match goal with H : call _ _ [] _ = Ok _ |- _ =>
      apply call_inv in H as (c & bundle & kw & -> & -> & Hkw & Hc) end.
    match goal with H : call _ _ [_] _ = Ok _ |- _ =>
      apply call_inv in H as (w & wa & kw' & -> & -> & Hkw' & Hw) end.
    simpl in Hkw. simplify_eq.
    repeat match goal with H : getitem _ _ = Ok _ |- _ => apply getitem_ok in H end.
    rewrite lookup_insert_eq in *. simplify_eq.
    simpl in Hkw'.
    destruct (has_key "exploration_module" wa) eqn:E1; simplify_eq.
    apply has_key_false in E1.
    eexists c, kw, _. split_and!; try done.
    eexists w, wa, _. split_and!; first [done | by rewrite lookup_insert_eq].
  - match goal with H : call _ _ [] _ = Ok _ |- _ =>
      apply call_inv in H as (c & bundle & kw & -> & -> & Hkw & Hc) end.
    simpl in Hkw. simplify_eq.
    repeat match goal with H : getitem _ _ = Ok _ |- _ => apply getitem_ok in H end.
    eexists c, kw, _. split_and!; first [done | by rewrite lookup_insert_eq].
Qed.

Lemma resolve_replay_buffer_exact s s' :
  resolve_replay_buffer construct s = Ok s' → stored_in_agent_args construct "replay_buffer" s s'.
Proof.
  unfold resolve_replay_buffer, stored_in_agent_args. intros H.
  change ("replay_buffer" +:+ "_args") with "replay_buffer_args".
  destruct (has_key "replay_buffer" (method s) && _) eqn:E; [|by simplify_eq].
  inv_ok; subst; simpl. split; [done|]. split; [done|].
  match goal with H : call _ _ [] _ = Ok _ |- _ =>
    apply call_inv in H as (c & bundle & kw & -> & -> & Hkw & Hc) end.
  simpl in Hkw. simplify_eq.
  match goal with H : store_subscript _ _ _ = Ok _ |- _ =>
    apply store_subscript_ok in H as (aa & Haa & ->) end.
  repeat match goal with H : getitem _ _ = Ok _ |- _ => apply getitem_ok in H end.
  eauto 10.
Qed.

Lemma resolve_safety_exact s s' :
  resolve_safety construct s = Ok s' → stored_in_agent_args construct "safety_module" s s'.
Proof.
  unfold resolve_safety, stored_in_agent_args. intros H.
  change ("safety_module" +:+ "_args") with "safety_module_args".
  destruct (has_key "safety_module" (method s) && _) eqn:E; [|by simplify_eq].
  inv_ok; subst; simpl. split; [done|]. split; [done|].
  match goal with H : call _ _ [] _ = Ok _ |- _ =>
    apply call_inv in H as (c & bundle & kw & -> & -> & Hkw & Hc) end.
  simpl in Hkw. simplify_eq.
  match goal with H : store_subscript _ _ _ = Ok _ |- _ =>
    apply store_subscript_ok in H as (aa & Haa & ->) end.
  repeat match goal with H : getitem _ _ = Ok _ |- _ => apply getitem_ok in H end.
  eauto 10.
Qed.

(** The action-representation step, exactly. *)
Lemma resolve_action_representation_exact e s s' :
  resolve_action_representation construct e s = Ok s' →
  agent_args s' = agent_args s ∧
  ∃ arm,
    policy_learner_args s'
    = <["action_representation_module" := arm]> (policy_learner_args s) ∧
    if has_key "action_representation_module" (method s)
       && has_key "action_representation_module_args" (method s)
    then ∃ c b0 bundle,
           method s !! "action_representation_module" = Some (VClass c) ∧
           method s !! "action_representation_module_args" = Some (VDict b0) ∧
           injected_representation_bundle e (dunder_name c) b0 bundle ∧
           method s' = <["action_representation_module_args" := VDict bundle]> (method s) ∧
           construct c bundle = Ok arm
    else method s' = method s ∧
         construct IdentityActionRepresentationModule ∅ = Ok arm.
Proof.
  unfold resolve_action_representation. intros H.
  destruct (has_key "action_representation_module" (method s) && _) eqn:E.
  2:{ inv_ok. subst. simpl. split; [done|]. eauto. }
  apply andb_true_iff in E as [_ [b0v Hb0]%has_key_true].
  inv_ok. subst s'. simpl. split; [done|]. eexists. split; [done|].
  match goal with H : inject_one_hot _ _ = Ok _ |- _ =>
    apply inject_one_hot_ok in H as (f1 & n1 & Hf1 & Hn1 & H1) end.
  match goal with H : inject_identity _ _ = Ok _ |- _ =>
    apply inject_identity_ok in H as (f2 & n2 & Hf2 & Hn2 & H2) end.
  match goal with H : call _ _ [] _ = Ok _ |- _ =>
    apply call_inv in H as (c & bundle & kw & -> & -> & Hkw & Hc) end.
  simpl in Hkw. simplify_eq.
  repeat match goal with H : getitem _ _ = Ok _ |- _ => apply getitem_ok in H end.
  destruct f1 as [| | | |c1| | | |]; simplify_eq/=.
  destruct (String.eqb (dunder_name c1) "OneHotActionTensorRepresentationModule") eqn:E1.
  - destruct H1 as (n & b0 & Hn & Hb0' & ->).
    rewrite lookup_insert_ne in Hf2 by done. rewrite Hf1 in Hf2. simplify_eq/=.
    apply String.eqb_eq in E1 as E1'. rewrite E1' in H2. simpl in H2. subst.
    rewrite lookup_insert_ne in * by done. rewrite lookup_insert_eq in *. simplify_eq.
    eexists c1, b0, _. split_and!; [done|done| |done|done].
    unfold injected_representation_bundle. rewrite E1. eauto.
  - subst. rewrite Hf1 in Hf2. simplify_eq/=.
    destruct (String.eqb (dunder_name c1) "IdentityActionRepresentationModule") eqn:E2.
    + destruct H2 as (n & d & b0 & Hn & Hd & Hb0' & ->).
      rewrite lookup_insert_ne in * by done. rewrite lookup_insert_eq in *. simplify_eq.
      eexists c1, b0, _. split_and!; [done|done| |done|done].
      unfold injected_representation_bundle. rewrite E1, E2. eauto.
    + subst. destruct b0v; simplify_eq.
      eexists c1, _, _. split_and!; [done|done| |by rewrite insert_id|done].
      unfold injected_representation_bundle. by rewrite E1, E2.
Qed.


(** The history-summarization step, exactly. *)
Lemma resolve_history_exact e s s' :
  resolve_history construct representation_dim e s = Ok s' →
  if has_key "history_summarization_module" (method s)
     && has_key "history_summarization_module_args" (method s)
  then ∃ c h0 bundle inst aa,
         method s !! "history_summarization_module" = Some (VClass c) ∧
         method s !! "history_summarization_module_args" = Some (VDict h0) ∧
         injected_history representation_dim e (dunder_name c) h0 bundle
           (policy_learner_args s) (policy_learner_args s') ∧
         method s' = <["history_summarization_module_args" := VDict bundle]> (method s) ∧
         construct c bundle = Ok inst ∧
         agent_args s = VDict aa ∧
         agent_args s' = VDict (<["history_summarization_module" := inst]> aa)
  else s' = s.
Proof.
  unfold resolve_history. intros H.
  destruct (has_key "history_summarization_module" (method s) && _) eqn:E;
    [|by simplify_eq].
  apply andb_true_iff in E as [_ [h0v Hh0]%has_key_true].
  inv_ok; subst; simpl in *;
    match goal with H : call _ _ [] _ = Ok _ |- _ =>
      apply call_inv in H as (c & bundle & kw & -> & -> & Hkw & Hc) end;
    simpl in Hkw; simplify_eq;
    match goal with H : store_subscript _ _ _ = Ok _ |- _ =>
      apply store_subscript_ok in H as (aa & Haa & ->) end;
    try match goal with H : inject_history_dims _ _ _ = Ok _ |- _ =>
      apply inject_history_dims_ok in H as (d0 & ad & h0 & Hd0 & Had & Hh0' & ->) end;
    repeat match goal with
      | H : getitem_nested (<[_ := _]> _) _ _ = Ok _ |- _ =>
          apply getitem_nested_insert in H
      | H : getitem _ _ = Ok _ |- _ => apply getitem_ok in H end;
    match goal with H : name_of ?f = Ok _ |- _ =>
      destruct f as [| | | |c1| | | |]; simplify_eq/= end.
  - rewrite lookup_insert_ne in * by done. rewrite lookup_insert_eq in *.
    simplify_map_eq.
    eexists c1, h0, _, _, aa. split_and!; [done|done| |done|done|done|done].
    unfold injected_history.
    match goal with H : String.eqb _ _ = true |- _ => rewrite H end.
    eexists _, _, _, _, _. split_and!; eauto.
  - rewrite lookup_insert_ne in * by done. rewrite lookup_insert_eq in *.
    simplify_map_eq.
    eexists c1, h0, _, _, aa. split_and!; [done|done| |done|done|done|done].
    unfold injected_history.
    repeat match goal with H : String.eqb _ _ = _ |- _ => rewrite H; clear H end.
    eexists _, _, _. split_and!; eauto.
  - eexists c1, _, _, _, aa. split_and!; [done|done| |by rewrite insert_id|done|done|done].
    unfold injected_history.
    repeat match goal with H : String.eqb _ _ = _ |- _ => rewrite H; clear H end.
    done.
Qed.



Ltac inv_call :=
  match goal with H : call _ _ _ _ = Ok _ |- _ =>
    let c := fresh "c" in let b := fresh "bundle" in let kw := fresh "kw" in
    let Hkw := fresh "Hkw" in let Hc := fresh "Hc" in
    apply call_inv in H as (c & b & kw & -> & -> & Hkw & Hc) end.


(** The Q-network step, exactly (lines 227-246). *)
Lemma resolve_network_exact e s s' :
  resolve_network construct representation_dim e s = Ok s' →
  if key_is_cnn_q (method s) "network_module"
  then ∃ c ad na kw inst,
         method s !! "network_module" = Some (VClass c) ∧
         arm_representation_dim representation_dim (policy_learner_args s) = Ok ad ∧
         method s !! "network_args" = Some (VDict na) ∧
         image_keywords e
           [("action_dim", ad);
            ("output_dim", if is_cls (VClass c) CNNQValueNetwork then VInt 1 else ad)]
           na kw ∧
         construct c kw = Ok inst ∧
         s' = with_pla s (<["network_instance" := inst]> (policy_learner_args s))
  else s' = s.
Proof.
  unfold resolve_network. intros H.
  destruct (key_is_cnn_q (method s) "network_module") eqn:E; [|by simplify_eq].
  inv_ok; subst; inv_call; inv_items; simplify_eq.
  - eexists c, _, bundle, kw, _. split_and!; try done.
    exists a0, a1, a2. match goal with H : is_cls _ _ = _ |- _ => rewrite H end. done.
  - rewrite Ha3 in Ha4. injection Ha4 as <-.
    eexists c, a3, bundle, kw, _. split_and!; try done.
    exists a0, a1, a2. match goal with H : is_cls _ _ = _ |- _ => rewrite H end. done.
Qed.


Lemma cnn_critic_ok e (m : dict) ad od n :
  cnn_critic construct e m ad od = Ok n →
  ∃ c ca kw,
    m !! "critic_network_module" = Some (VClass c) ∧
    m !! "critic_network_args" = Some (VDict ca) ∧
    image_keywords e [("action_dim", ad); ("output_dim", od)] ca kw ∧
    construct c kw = Ok n.
Proof.
  unfold cnn_critic. intros H. inv_ok. inv_call. inv_items.
  eexists c, bundle, kw. split_and!; try done. by eexists _, _, _.
Qed.

(** The critic step, exactly (lines 247-286). *)
Lemma resolve_critic_exact e s s' :
  resolve_critic construct representation_dim e s = Ok s' →
  if key_is_cnn_q (method s) "critic_network_module"
  then ∃ c ad ca kw n critic,
         method s !! "critic_network_module" = Some (VClass c) ∧
         arm_representation_dim representation_dim (policy_learner_args s) = Ok ad ∧
         method s !! "critic_network_args" = Some (VDict ca) ∧
         image_keywords e
           [("action_dim", ad);
            ("output_dim", if is_cls (VClass c) CNNQValueNetwork then VInt 1 else ad)]
           ca kw ∧
         construct c kw = Ok n ∧
         (if use_twin_critic (method s)
          then construct TwinCritic
                 (<["network_instance_1" := n]> (<["network_instance_2" := n]> ∅))
               = Ok critic
          else critic = n) ∧
         s' = with_pla s (<["critic_network_instance" := critic]> (policy_learner_args s))
  else s' = s.
Proof.
  unfold resolve_critic. intros H.
  destruct (key_is_cnn_q (method s) "critic_network_module") eqn:E; [|by simplify_eq].
  inv_ok; subst.
  - match goal with H1 : cnn_critic _ _ _ _ _ = Ok ?x, H2 : cnn_critic _ _ _ _ _ = Ok ?y |- _ =>
      rewrite H1 in H2; injection H2 as <-;
      apply cnn_critic_ok in H1 as (c & ca & kw & Hc & Hca & Hkw & Hn) end.
    inv_items. rewrite Hc in *. simplify_eq.
    eexists c, _, ca, kw, _, _.
    split_and!; try done;
      match goal with H : use_twin_critic _ = _ |- _ => rewrite H end; done.
  - match goal with H1 : cnn_critic _ _ _ _ _ = Ok ?x |- _ =>
      apply cnn_critic_ok in H1 as (c & ca & kw & Hc & Hca & Hkw & Hn) end.
    inv_items. rewrite Hc in *. simplify_eq.
    eexists c, _, ca, kw, _, _.
    split_and!; try done;
      match goal with H : use_twin_critic _ = _ |- _ => rewrite H end; done.
Qed.

(** The value-critic step, exactly (lines 288-300). *)
Lemma resolve_value_critic_exact e s s' :
  resolve_value_critic construct e s = Ok s' →
  if key_is_cls (method s) "critic_network_module" CNNValueNetwork
  then ∃ ca kw inst,
         method s !! "critic_network_args" = Some (VDict ca) ∧
         image_keywords e [("output_dim", VInt 1)] ca kw ∧
         construct CNNValueNetwork kw = Ok inst ∧
         s' = with_pla s (<["critic_network_instance" := inst]> (policy_learner_args s))
  else s' = s.
Proof.
  unfold resolve_value_critic. intros H.
  destruct (key_is_cls (method s) "critic_network_module" CNNValueNetwork) eqn:E;
    [|by simplify_eq].
  inv_ok; subst. inv_call. inv_items.
  unfold key_is_cls in E. rewrite Ha in E. simpl in E. apply bool_decide_eq_true in E.
  subst. eexists bundle, kw, _. split_and!; try done. by eexists _, _, _.
Qed.

(** The actor step, exactly (lines 302-314). *)
Lemma resolve_actor_exact e s s' :
  resolve_actor construct representation_dim e s = Ok s' →
  if key_is_cls (method s) "actor_network_module" CNNActorNetwork
  then ∃ od aa kw inst,
         arm_representation_dim representation_dim (policy_learner_args s) = Ok od ∧
         method s !! "actor_network_args" = Some (VDict aa) ∧
         image_keywords e [("output_dim", od)] aa kw ∧
         construct CNNActorNetwork kw = Ok inst ∧
         s' = with_pla s (<["actor_network_instance" := inst]> (policy_learner_args s))
  else s' = s.
Proof.
  unfold resolve_actor. intros H.
  destruct (key_is_cls (method s) "actor_network_module" CNNActorNetwork) eqn:E;
    [|by simplify_eq].
  inv_ok; subst. inv_call. inv_items.
  unfold key_is_cls in E. rewrite Ha in E. simpl in E. apply bool_decide_eq_true in E.
  subst. eexists _, bundle, kw, _. split_and!; try done. by eexists _, _, _.
Qed.

(** The last name-specific step, exactly (lines 332-333). *)
Lemma resolve_dynamic_exact s s' nm :
  resolve_dynamic s = Ok s' →
  method s !! "name" = Some (VStr nm) →
  if substring_of "dynamic" nm
  then ∃ t, method s !! "actor_network_type" = Some t ∧
            s' = with_pla s (<["actor_network_type" := t]> (policy_learner_args s))
  else s' = s.
Proof.
  unfold resolve_dynamic. intros H Hnm. inv_ok; subst; inv_items;
    rewrite Hnm in *; simplify_eq/=;
    match goal with H : substring_of _ _ = _ |- _ => rewrite H end; eauto.
Qed.



(** The first lines, exactly (lines 134-138). *)
Lemma resolve_init_exact e (m : dict) pl s0 :
  resolve_init e m = Ok (pl, s0) →
  ∃ p aa d0,
    m !! "policy_learner" = Some pl ∧
    m !! "policy_learner_args" = Some (VDict p) ∧
    m !! "agent_args" = Some aa ∧
    observation_shape e !! 0%nat = Some d0 ∧
    s0 = RState m (<["state_dim" := VInt d0]> p) aa.
Proof.
  unfold resolve_init. intros H. inv_ok. inv_items.
  injection H as <- <-. eauto 10.
Qed.


Lemma resolve_dueling_skip e s s' nm :
  resolve_dueling construct e s = Ok s' →
  method s !! "name" = Some nm →
  eq_str nm "DuelingDQN" = false →
  s' = s.
Proof.
  unfold resolve_dueling. intros H Hnm Hne. inv_ok; inv_items; congruence.
Qed.

Lemma resolve_bootstrapped_writes e s s' :
  resolve_bootstrapped construct e s = Ok s' →
  only_writes ["q_ensemble_network"; "state_dim"] s s'.
Proof.
  intros (Hm & Ha & nm & _ & H)%resolve_bootstrapped_ok.
  destruct (eq_str nm "BootstrappedDQN"); [|subst; apply only_writes_refl].
  destruct H as (inst & _ & Hp). split; [done|]. split; [done|].
  intros k Hk. rewrite Hp.
  rewrite lookup_delete_ne, lookup_insert_ne; [done| |]; intros <-; apply Hk; solve_keys.
Qed.

(** Reading a key of [policy_learner_args] across a step that does not
    write it. *)
Lemma only_writes_lookup keys s s' k :
  only_writes keys s s' → k ∉ keys →
  policy_learner_args s' !! k = policy_learner_args s !! k.
Proof. intros (_ & _ & H). apply H. Qed.

Lemma only_writes_method keys s s' : only_writes keys s s' → method s' = method s.
Proof. by intros (H & _). Qed.

(** The representation dimension read by a network step is the one of the
    module found in the bundle. *)
Lemma arm_representation_dim_ok (pla : dict) ad :
  arm_representation_dim representation_dim pla = Ok ad ↔
  ∃ arm, pla !! "action_representation_module" = Some arm ∧
         representation_dim arm = Ok ad.
Proof.
  unfold arm_representation_dim, getitem.
  destruct (pla !! "action_representation_module") as [arm|]; simpl; split.
  - eauto.
  - by intros (arm' & [= <-] & H).
  - done.
  - by intros (arm' & [=] & _).
Qed.

(** The network steps, with what each may write. *)
Lemma resolve_networks_writes e s s' :
  resolve_networks construct representation_dim e s = Ok s' →
  ∃ n1 n2 n3 n4 n5 n6 n7,
    (resolve_network construct representation_dim e s = Ok n1 ∧
     resolve_critic construct representation_dim e n1 = Ok n2 ∧
     resolve_value_critic construct e n2 = Ok n3 ∧
     resolve_actor construct representation_dim e n3 = Ok n4 ∧
     resolve_dueling construct e n4 = Ok n5 ∧
     resolve_bootstrapped construct e n5 = Ok n6 ∧
     resolve_dynamic n6 = Ok n7 ∧
     s' = attach_action_space e n7) ∧
    only_writes ["network_instance"] s n1 ∧
    only_writes ["critic_network_instance"] n1 n2 ∧
    only_writes ["critic_network_instance"] n2 n3 ∧
    only_writes ["actor_network_instance"] n3 n4 ∧
    only_writes ["network_instance"] n4 n5 ∧
    only_writes ["q_ensemble_network"; "state_dim"] n5 n6 ∧
    only_writes ["actor_network_type"] n6 n7 ∧
    only_writes ["action_space"] n7 s'.
Proof.
  intros (n1 & n2 & n3 & n4 & n5 & n6 & n7 & H1 & H2 & H3 & H4 & H5 & H6 & H7 & ->)
    %resolve_networks_steps.
  exists n1, n2, n3, n4, n5, n6, n7. split_and!; try done.
  - by eapply resolve_network_writes.
  - by eapply resolve_critic_writes.
  - by eapply resolve_value_critic_writes.
  - by eapply resolve_actor_writes.
  - by eapply resolve_dueling_ok.
  - by eapply resolve_bootstrapped_writes.
  - by eapply resolve_dynamic_writes.
  - apply attach_action_space_writes.
Qed.


(** [resolve], step by step up to the network steps. *)
Lemma resolve_trace e m pl s' :
  resolve construct representation_dim e m = Ok (pl, s') →
  ∃ s0 x1 x2 x3 s1 s2,
    resolve_init e m = Ok (pl, s0) ∧
    resolve_exploration construct s0 = Ok x1 ∧
    resolve_replay_buffer construct x1 = Ok x2 ∧
    resolve_safety construct x2 = Ok x3 ∧
    resolve_action_representation construct e x3 = Ok s1 ∧
    resolve_history construct representation_dim e s1 = Ok s2 ∧
    resolve_networks construct representation_dim e s2 = Ok s'.
Proof.
  intros (s0 & s1 & s2 & H0 & H1 & H2 & H3)%resolve_phases.
  apply resolve_modules_steps in H1 as (x1 & x2 & x3 & ? & ? & ? & ?).
  eexists s0, x1, x2, x3, s1, s2. split_and!; eassumption.
Qed.

(** The descriptor up to the action-representation step is the given
    one. *)
Lemma resolve_trace_method e m pl s0 x1 x2 x3 :
  resolve_init e m = Ok (pl, s0) →
  resolve_exploration construct s0 = Ok x1 →
  resolve_replay_buffer construct x1 = Ok x2 →
  resolve_safety construct x2 = Ok x3 →
  method s0 = m ∧ method x1 = m ∧ method x2 = m ∧ method x3 = m.
Proof.
  intros (Hm0 & _)%resolve_init_ok (Hm1 & _)%resolve_exploration_exact
         (Hm2 & _)%resolve_replay_buffer_frame (Hm3 & _)%resolve_safety_frame.
  split_and!; congruence.
Qed.

Lemma has_both k1 k2 (m : dict) :
  is_Some (m !! k1) → is_Some (m !! k2) → has_key k1 m && has_key k2 m = true.
Proof. intros H1 H2. apply andb_true_iff. split; by apply has_key_true. Qed.



(** The state the network steps start from: the descriptor is the given
    one up to the two bundles, and the action-representation module is in
    place. *)
Lemma resolve_before_networks e m pl s' :
  resolve construct representation_dim e m = Ok (pl, s') →
  ∃ s2 arm,
    resolve_networks construct representation_dim e s2 = Ok s' ∧
    (∀ k, k ≠ "action_representation_module_args" →
          k ≠ "history_summarization_module_args" → method s2 !! k = m !! k) ∧
    policy_learner_args s2 !! "action_representation_module" = Some arm.
Proof.
  intros (s0 & x1 & x2 & x3 & s1 & s2 & H0 & E1 & E2 & E3 & H1 & H2 & H3)%resolve_trace.
  destruct (resolve_trace_method _ _ _ _ _ _ _ H0 E1 E2 E3) as (_ & _ & _ & Hm3).
  apply resolve_action_representation_ok in H1 as (_ & Hm1 & arm & Hp1 & _).
  apply resolve_history_frame in H2 as (Hm2 & Hp2 & _).
  exists s2, arm. split; [done|]. split.
  - intros k Hk1 Hk2. rewrite Hm2, Hm1, Hm3; done.
  - rewrite Hp2, Hp1 by done. apply lookup_insert_eq.
Qed.

Lemma key_is_cnn_q_class (m : dict) k c :
  m !! k = Some (VClass c) →
  key_is_cnn_q m k = bool_decide (c = CNNQValueNetwork)
                     || bool_decide (c = CNNQValueMultiHeadNetwork).
Proof. unfold key_is_cnn_q, is_cnn_q. by intros ->. Qed.

Lemma key_is_cls_class (m : dict) k c c' :
  m !! k = Some (VClass c) → key_is_cls m k c' = bool_decide (c = c').
Proof. unfold key_is_cls. by intros ->. Qed.


End WithCollaborators.
End ResolverSteps.

Module ResolutionTheorems.
Import Py PyFacts Resolver ResolverFacts ResolverSpec ResolverSteps.

Ltac open_resolve H :=
  apply resolve_trace in H
    as (s0 & x1 & x2 & x3 & s1 & s2 & H0 & E1 & E2 & E3 & H1 & H2 & H3);
  destruct (resolve_trace_method _ _ _ _ _ _ _ _ H0 E1 E2 E3)
    as (Hm0 & Hmx1 & Hmx2 & Hmx3).

Section WithCollaborators.
Variable construct : cls → dict → result value.
Variable representation_dim : value → result value.

(** X1.  The LSTM variant of the history step: [state_dim] becomes the
    [hidden_dim] entry of the module's argument bundle, and reaches the
    final bundle unless the deletion for "BootstrappedDQN" removes it. *)
Theorem lstm_state_dim e (m : dict) pl s' c :
  resolve construct representation_dim e m = Ok (pl, s') →
  m !! "history_summarization_module" = Some (VClass c) →
  dunder_name c = "LSTMHistorySummarizationModule" →
  is_Some (m !! "history_summarization_module_args") →
  ∃ h0 hd nm,
    m !! "history_summarization_module_args" = Some (VDict h0) ∧
    h0 !! "hidden_dim" = Some hd ∧
    m !! "name" = Some nm ∧
    policy_learner_args s' !! "state_dim" =
      (if eq_str nm "BootstrappedDQN" then None else Some hd).
Proof.
  intros H Hc Hn Ha.
  pose proof (ResolverTheorems.resolve_method_keys _ _ _ _ _ _ "name" H) as Hname.
  open_resolve H. rename Hmx3 into Hm3.
  apply resolve_action_representation_ok in H1 as (_ & Hm1 & _).
  apply resolve_history_exact in H2.
  rewrite has_both in H2 by (rewrite Hm1, Hm3; done).
  destruct H2 as (c' & h0 & bundle & inst & aa & Hc' & Hh0 & Hinj & Hm2 & _).
  rewrite Hm1, Hm3 in Hc', Hh0 by done. rewrite Hc in Hc'. injection Hc' as <-.
  unfold injected_history in Hinj. rewrite Hn in Hinj. simpl in Hinj.
  destruct Hinj as (d0 & ad & hd & _ & _ & _ & Hhd & Hp2).
  apply resolve_networks_ok in H3 as (Hm & _ & nm & Hnm & _ & Hsd & _).
  exists h0, hd, nm. split_and!; try done.
  - rewrite <- Hname, Hm; done.
  - rewrite Hsd, Hp2, lookup_insert_eq. done.
Qed.


(** X2.  The history-summarization module handed to the agent: the
    configured class called with its bundle, to which the two variants the
    code knows by name add [observation_dim = shape[0]] and [action_dim],
    the representation dimension of the resolved action-representation
    module.  The instance is stored in [agent_args]. *)
Theorem history_module_bundle e (m : dict) pl s' c :
  resolve construct representation_dim e m = Ok (pl, s') →
  m !! "history_summarization_module" = Some (VClass c) →
  is_Some (m !! "history_summarization_module_args") →
  ∃ h0 bundle inst aa,
    m !! "history_summarization_module_args" = Some (VDict h0) ∧
    (if String.eqb (dunder_name c) "StackingHistorySummarizationModule"
        || String.eqb (dunder_name c) "LSTMHistorySummarizationModule"
     then ∃ d0 arm ad,
            observation_shape e !! 0%nat = Some d0 ∧
            policy_learner_args s' !! "action_representation_module" = Some arm ∧
            representation_dim arm = Ok ad ∧
            bundle = <["action_dim" := ad]> (<["observation_dim" := VInt d0]> h0)
     else bundle = h0) ∧
    method s' !! "history_summarization_module_args" = Some (VDict bundle) ∧
    construct c bundle = Ok inst ∧
    agent_args s' = VDict aa ∧
    aa !! "history_summarization_module" = Some inst.
Proof.
  intros H Hc Ha. open_resolve H. rename Hmx3 into Hm3.
  apply resolve_action_representation_ok in H1 as (_ & Hm1 & arm & Hp1 & _).
  pose proof H2 as (_ & Hp2 & _)%resolve_history_frame.
  apply resolve_history_exact in H2.
  rewrite has_both in H2 by (rewrite Hm1, Hm3; done).
  destruct H2 as (c' & h0 & bundle & inst & aa & Hc' & Hh0 & Hinj & Hm2 & Hinst & Haa & Haa').
  rewrite Hm1, Hm3 in Hc', Hh0 by done. rewrite Hc in Hc'. injection Hc' as <-.
  apply resolve_networks_ok in H3 as (Hm & Hagent & nm & _ & Hkeep & _).
  assert (Harm : policy_learner_args s' !! "action_representation_module" = Some arm).
  { rewrite Hkeep by (unfold network_keys; solve_keys).
    rewrite Hp2, Hp1 by done. apply lookup_insert_eq. }
  assert (Hdim : ∀ ad, history_action_dim representation_dim e (policy_learner_args s1)
                       = Ok ad → representation_dim arm = Ok ad).
  { intros ad. rewrite history_action_dim_resolved by (rewrite Hp1, lookup_insert_eq; done).
    unfold arm_representation_dim, getitem. by rewrite Hp1, lookup_insert_eq. }
  exists h0, bundle, inst, (<["history_summarization_module" := inst]> aa).
  split_and!; try done.
  - unfold injected_history in Hinj.
    destruct (String.eqb (dunder_name c) "StackingHistorySummarizationModule").
    + destruct Hinj as (d0 & ad & _ & _ & _ & Hd0 & Had & -> & _). simpl. eauto 10.
    + destruct (String.eqb (dunder_name c) "LSTMHistorySummarizationModule"); simpl.
      * destruct Hinj as (d0 & ad & _ & Hd0 & Had & -> & _). eauto 10.
      * by destruct Hinj.
  - rewrite Hm, Hm2. apply lookup_insert_eq.
  - congruence.
  - apply lookup_insert_eq.
Qed.


(** The history step stores into [agent_args] at one key only. *)
Lemma resolve_history_agent_args e s s' :
  resolve_history construct representation_dim e s = Ok s' →
  agent_args s' = agent_args s ∨
  ∃ aa inst, agent_args s = VDict aa ∧
             agent_args s' = VDict (<["history_summarization_module" := inst]> aa).
Proof.
  intros H%resolve_history_exact.
  destruct (has_key "history_summarization_module" (method s) && _).
  - destruct H as (c & h0 & bundle & inst & aa & _ & _ & _ & _ & _ & Haa & Haa'). eauto.
  - subst. by left.
Qed.

(** X3.  The replay buffer and the safety module: each, when configured
    with its bundle, is the class called with exactly that bundle, and the
    instance is stored in [agent_args] under the key of the class. *)
Theorem auxiliary_modules_in_agent_args e (m : dict) pl s' key :
  resolve construct representation_dim e m = Ok (pl, s') →
  key ∈ ["replay_buffer"; "safety_module"] →
  is_Some (m !! key) →
  is_Some (m !! (key +:+ "_args")) →
  ∃ c a inst aa,
    m !! key = Some (VClass c) ∧
    m !! (key +:+ "_args") = Some (VDict a) ∧
    construct c a = Ok inst ∧
    agent_args s' = VDict aa ∧
    aa !! key = Some inst.
Proof.
  intros H Hkey Hk Ha. open_resolve H.
  apply resolve_replay_buffer_exact in E2 as (_ & _ & E2).
  apply resolve_safety_exact in E3 as (_ & _ & E3).
  apply resolve_action_representation_ok in H1 as (Ha1 & _).
  apply resolve_history_agent_args in H2.
  apply resolve_networks_ok in H3 as (_ & Ha3 & _).
  rewrite Hmx1 in E2. rewrite Hmx2 in E3.
  apply elem_of_cons in Hkey as [->|Hkey].
  - change ("replay_buffer" +:+ "_args") with "replay_buffer_args" in *.
    rewrite has_both in E2 by done.
    destruct E2 as (c & a & inst & aa & Hc & Hargs & Hinst & _ & Haa2).
    assert (∃ aa3, agent_args x3 = VDict aa3 ∧ aa3 !! "replay_buffer" = Some inst)
      as (aa3 & Haa3 & Hl3).
    { destruct (has_key "safety_module" m && _).
      - destruct E3 as (? & ? & inst' & aa' & _ & _ & _ & Haa' & ->).
        rewrite Haa2 in Haa'. injection Haa' as <-.
        eexists. split; [done|]. rewrite lookup_insert_ne by done. apply lookup_insert_eq.
      - subst x3. eexists. split; [done|]. apply lookup_insert_eq. }
    rewrite <- Ha1 in Haa3.
    destruct H2 as [H2|(aa' & inst' & Haa' & H2)]; rewrite <- Ha3 in H2.
    + exists c, a, inst, aa3. split_and!; try done. congruence.
    + rewrite Haa3 in Haa'. injection Haa' as <-.
      eexists c, a, inst, _. split_and!; try done.
      by rewrite lookup_insert_ne.
  - apply list_elem_of_singleton in Hkey as ->.
    change ("safety_module" +:+ "_args") with "safety_module_args" in *.
    rewrite has_both in E3 by done.
    destruct E3 as (c & a & inst & aa & Hc & Hargs & Hinst & _ & Haa3).
    rewrite <- Ha1 in Haa3.
    destruct H2 as [H2|(aa' & inst' & Haa' & H2)]; rewrite <- Ha3 in H2.
    + eexists c, a, inst, _.
      split_and!; [done|done|done|by rewrite H2, Haa3|apply lookup_insert_eq].
    + rewrite Haa3 in Haa'. injection Haa' as <-.
      eexists c, a, inst, _. split_and!; try done.
      rewrite lookup_insert_ne by done. apply lookup_insert_eq.
Qed.


Lemma stored_in_agent_args_keeps key s s' (aa : dict) :
  stored_in_agent_args construct key s s' →
  agent_args s = VDict aa →
  ∃ aa', agent_args s' = VDict aa' ∧
    ∀ k, (k = key → has_key key (method s) && has_key (key +:+ "_args") (method s) = false) →
         aa' !! k = aa !! k.
Proof.
  intros (_ & _ & H) Haa.
  destruct (has_key key (method s) && _).
  - destruct H as (c & a & inst & aa1 & _ & _ & _ & Haa1 & ->).
    rewrite Haa in Haa1. injection Haa1 as <-.
    eexists. split; [done|]. intros k Hk. rewrite lookup_insert_ne; [done|].
    intros <-. by specialize (Hk eq_refl).
  - subst. eauto.
Qed.

(** X4.  What [agent_args] carries to the agent's constructor: the entries
    of the descriptor's [agent_args] (the launcher puts [device_id] there),
    unchanged, the only keys ever written being those of the replay buffer,
    the safety module and the history-summarization module, each only when
    it is configured together with its bundle. *)
Theorem agent_args_preserved e (m aa0 : dict) pl s' :
  resolve construct representation_dim e m = Ok (pl, s') →
  m !! "agent_args" = Some (VDict aa0) →
  ∃ aa,
    agent_args s' = VDict aa ∧
    ∀ k, (k ∈ ["replay_buffer"; "safety_module"; "history_summarization_module"] →
          has_key k m && has_key (k +:+ "_args") m = false) →
         aa !! k = aa0 !! k.
Proof.
  intros H Haa0. open_resolve H.
  assert (Ha0 : agent_args s0 = VDict aa0).
  { apply resolve_init_exact in H0 as (p & aa & d0 & _ & _ & Haa & _ & ->).
    simpl. congruence. }
  apply resolve_exploration_exact in E1 as (_ & Ha1 & _).
  apply resolve_replay_buffer_exact in E2. apply resolve_safety_exact in E3.
  rewrite <- Ha1 in Ha0.
  destruct (stored_in_agent_args_keeps _ _ _ _ E2 Ha0) as (aa2 & Haa2 & K2).
  destruct (stored_in_agent_args_keeps _ _ _ _ E3 Haa2) as (aa3 & Haa3 & K3).
  rewrite Hmx1 in K2. rewrite Hmx2 in K3.
  pose proof H1 as (Hag1 & Hm1 & _)%resolve_action_representation_ok.
  rewrite <- Hag1 in Haa3.
  apply resolve_networks_ok in H3 as (_ & Hag3 & _).
  apply resolve_history_exact in H2.
  assert (Hsame : has_key "history_summarization_module" (method s1)
                  && has_key "history_summarization_module_args" (method s1)
                  = has_key "history_summarization_module" m
                    && has_key "history_summarization_module_args" m).
  { unfold has_key. by rewrite !Hm1, Hmx3. }
  rewrite Hsame in H2.
  destruct (has_key "history_summarization_module" m
            && has_key "history_summarization_module_args" m) eqn:Eh.
  - destruct H2 as (c & h0 & bundle & inst & aa & _ & _ & _ & _ & _ & Haa & Haa').
    rewrite Haa3 in Haa. injection Haa as <-.
    eexists. split; [by rewrite Hag3, Haa'|].
    intros k Hk. rewrite lookup_insert_ne.
    + rewrite K3, K2; [done| |]; intros ->; apply Hk; solve_keys.
    + intros <-. enough (true = false) by done. rewrite <- Eh. apply Hk. solve_keys.
  - subst s2. exists aa3. split; [congruence|].
    intros k Hk. rewrite K3, K2; [done| |]; intros ->; apply Hk; solve_keys.
Qed.

(** X5.  The one-hot action-representation variant with its bundle present:
    only [max_number_actions = action_space.n] is written into the bundle,
    and the module is the class called with that bundle. *)
Theorem one_hot_module_injection e (m : dict) pl s' c :
  resolve construct representation_dim e m = Ok (pl, s') →
  m !! "action_representation_module" = Some (VClass c) →
  dunder_name c = "OneHotActionTensorRepresentationModule" →
  is_Some (m !! "action_representation_module_args") →
  ∃ n a0 inst,
    space_n (env_action_space e) = Some n ∧
    m !! "action_representation_module_args" = Some (VDict a0) ∧
    let bundle := <["max_number_actions" := VInt n]> a0 in
    method s' !! "action_representation_module_args" = Some (VDict bundle) ∧
    construct c bundle = Ok inst ∧
    policy_learner_args s' !! "action_representation_module" = Some inst.
Proof.
  intros H Hc Hn Ha. open_resolve H.
  apply resolve_action_representation_exact in H1 as (_ & arm & Hp1 & H1).
  rewrite Hmx3, has_both in H1 by done.
  destruct H1 as (c' & a0 & bundle & Hc' & Ha0 & Hinj & Hm1 & Harm).
  rewrite Hc in Hc'. injection Hc' as <-.
  unfold injected_representation_bundle in Hinj. rewrite Hn in Hinj. simpl in Hinj.
  destruct Hinj as (n & Hsn & ->).
  apply resolve_history_frame in H2 as (Hm2 & Hp2 & _).
  apply resolve_networks_ok in H3 as (Hm3 & _ & _ & _ & Hp3 & _).
  exists n, a0, arm. simpl. split_and!; try done.
  - rewrite Hm3, Hm2, Hm1 by done. apply lookup_insert_eq.
  - rewrite Hp3 by (unfold network_keys; solve_keys). rewrite Hp2, Hp1 by done.
    apply lookup_insert_eq.
Qed.

(** X6.  An action-representation class the code does not know by name is
    called with its bundle as configured: nothing is read off the action
    space and nothing is written into the bundle. *)
Theorem other_representation_untouched e (m : dict) pl s' c :
  resolve construct representation_dim e m = Ok (pl, s') →
  m !! "action_representation_module" = Some (VClass c) →
  dunder_name c ≠ "OneHotActionTensorRepresentationModule" →
  dunder_name c ≠ "IdentityActionRepresentationModule" →
  is_Some (m !! "action_representation_module_args") →
  ∃ a0 inst,
    m !! "action_representation_module_args" = Some (VDict a0) ∧
    method s' !! "action_representation_module_args" = Some (VDict a0) ∧
    construct c a0 = Ok inst ∧
    policy_learner_args s' !! "action_representation_module" = Some inst.
Proof.
  intros H Hc Hn1 Hn2 Ha. open_resolve H.
  apply resolve_action_representation_exact in H1 as (_ & arm & Hp1 & H1).
  rewrite Hmx3, has_both in H1 by done.
  destruct H1 as (c' & a0 & bundle & Hc' & Ha0 & Hinj & Hm1 & Harm).
  rewrite Hc in Hc'. injection Hc' as <-.
  unfold injected_representation_bundle in Hinj.
  apply String.eqb_neq in Hn1, Hn2. rewrite Hn1, Hn2 in Hinj. subst bundle.
  apply resolve_history_frame in H2 as (Hm2 & Hp2 & _).
  apply resolve_networks_ok in H3 as (Hm3 & _ & _ & _ & Hp3 & _).
  exists a0, arm. split_and!; try done.
  - rewrite Hm3, Hm2, Hm1 by done. apply lookup_insert_eq.
  - rewrite Hp3 by (unfold network_keys; solve_keys). rewrite Hp2, Hp1 by done.
    apply lookup_insert_eq.
Qed.

(** X7.  The exploration module of the final bundle: the configured class
    called with its bundle and, when a wrapper is configured, the wrapper
    called with that instance as [exploration_module] and its own bundle. *)
Theorem exploration_module_wrapped e (m : dict) pl s' :
  resolve construct representation_dim e m = Ok (pl, s') →
  is_Some (m !! "exploration_module") →
  is_Some (m !! "exploration_module_args") →
  ∃ c a inner,
    m !! "exploration_module" = Some (VClass c) ∧
    m !! "exploration_module_args" = Some (VDict a) ∧
    construct c a = Ok inner ∧
    if has_key "exploration_module_wrapper" m
    then ∃ w wa outer,
           m !! "exploration_module_wrapper" = Some (VClass w) ∧
           m !! "exploration_module_wrapper_args" = Some (VDict wa) ∧
           wa !! "exploration_module" = None ∧
           construct w (<["exploration_module" := inner]> wa) = Ok outer ∧
           policy_learner_args s' !! "exploration_module" = Some outer
    else policy_learner_args s' !! "exploration_module" = Some inner.
Proof.
  intros H Hk Ha. open_resolve H.
  apply resolve_exploration_exact in E1 as (_ & _ & E1).
  rewrite Hm0, has_both in E1 by done.
  destruct E1 as (c & a & inner & Hc & Hargs & Hinner & E1).
  apply resolve_replay_buffer_frame in E2 as (_ & Hp2).
  apply resolve_safety_frame in E3 as (_ & Hp3).
  apply resolve_action_representation_ok in H1 as (_ & _ & arm & Hp1 & _).
  apply resolve_history_frame in H2 as (_ & Hph & _).
  apply resolve_networks_ok in H3 as (_ & _ & _ & _ & Hpn & _).
  assert (Hfinal : policy_learner_args s' !! "exploration_module"
                   = policy_learner_args x1 !! "exploration_module").
  { rewrite Hpn by (unfold network_keys; solve_keys). rewrite Hph, Hp1 by done.
    rewrite lookup_insert_ne by done. by rewrite Hp3, Hp2. }
  exists c, a, inner. split_and!; try done.
  destruct (has_key "exploration_module_wrapper" m).
  - destruct E1 as (w & wa & outer & ? & ? & ? & ? & ?).
    exists w, wa, outer. split_and!; try done. congruence.
  - congruence.
Qed.


Ltac open_networks H :=
  apply resolve_before_networks in H as (s2 & arm & H & Hmeth & Harm);
  apply resolve_networks_writes in H
    as (n1 & n2 & n3 & n4 & n5 & n6 & n7
        & (N1 & N2 & N3 & N4 & N5 & N6 & N7 & Hs')
        & W1 & W2 & W3 & W4 & W5 & W6 & W7 & W8).

Ltac across W := rewrite (only_writes_lookup _ _ _ _ W) by solve_keys.
Ltac method_across W := rewrite (only_writes_method _ _ _ W) in *.

(** X8.  A Q-network over image observations (class [CNNQValueNetwork] or
    [CNNQValueMultiHeadNetwork]): it is built with width, height and
    channel count [shape[2]], [shape[1]], [shape[0]], with [action_dim] the
    representation dimension of the resolved action-representation module,
    and with [output_dim] 1 for the first class and that dimension for the
    second.  It is the final [network_instance] unless the method is named
    "DuelingDQN". *)
Theorem cnn_q_network_dims e (m : dict) pl s' c nm :
  resolve construct representation_dim e m = Ok (pl, s') →
  m !! "network_module" = Some (VClass c) →
  c = CNNQValueNetwork ∨ c = CNNQValueMultiHeadNetwork →
  m !! "name" = Some nm →
  eq_str nm "DuelingDQN" = false →
  ∃ arm ad na kw inst,
    policy_learner_args s' !! "action_representation_module" = Some arm ∧
    representation_dim arm = Ok ad ∧
    m !! "network_args" = Some (VDict na) ∧
    image_keywords e
      [("action_dim", ad);
       ("output_dim", if bool_decide (c = CNNQValueNetwork) then VInt 1 else ad)]
      na kw ∧
    construct c kw = Ok inst ∧
    policy_learner_args s' !! "network_instance" = Some inst.
Proof.
  intros H Hc Hcls Hnm Hne. open_networks H.
  apply resolve_network_exact in N1.
  rewrite (key_is_cnn_q_class _ _ c) in N1 by (rewrite Hmeth; done).
  assert (bool_decide (c = CNNQValueNetwork)
          || bool_decide (c = CNNQValueMultiHeadNetwork) = true) as Hq.
  { destruct Hcls as [->| ->]; done. }
  rewrite Hq in N1.
  destruct N1 as (c' & ad & na & kw & inst & Hc' & Had & Hna & Hkw & Hinst & Hn1).
  rewrite Hmeth in Hc', Hna by done. rewrite Hc in Hc'. injection Hc' as <-.
  apply arm_representation_dim_ok in Had as (arm' & Harm' & Had).
  rewrite Harm in Harm'. injection Harm' as <-.
  apply (resolve_dueling_skip _ _ _ _ nm) in N5; [subst n5| |done].
  2:{ method_across W4. method_across W3. method_across W2. method_across W1.
      rewrite Hmeth; done. }
  exists arm, ad, na, kw, inst. split_and!; try done.
  - across W8. across W7. across W6. across W4. across W3. across W2. across W1. done.
  - across W8. across W7. across W6. across W4. across W3. across W2.
    rewrite Hn1. apply lookup_insert_eq.
Qed.


(** X9.  A critic over image observations (class [CNNQValueNetwork] or
    [CNNQValueMultiHeadNetwork]): the network is built from the image
    dimensions and the representation dimension like the Q-network, and
    with [use_twin_critic] present and true the final
    [critic_network_instance] is a [TwinCritic] of two such networks,
    otherwise the network itself. *)
Theorem cnn_critic_twin e (m : dict) pl s' c :
  resolve construct representation_dim e m = Ok (pl, s') →
  m !! "critic_network_module" = Some (VClass c) →
  c = CNNQValueNetwork ∨ c = CNNQValueMultiHeadNetwork →
  ∃ arm ad ca kw n critic,
    policy_learner_args s' !! "action_representation_module" = Some arm ∧
    representation_dim arm = Ok ad ∧
    m !! "critic_network_args" = Some (VDict ca) ∧
    image_keywords e
      [("action_dim", ad);
       ("output_dim", if bool_decide (c = CNNQValueNetwork) then VInt 1 else ad)]
      ca kw ∧
    construct c kw = Ok n ∧
    (if use_twin_critic m
     then construct TwinCritic
            (<["network_instance_1" := n]> (<["network_instance_2" := n]> ∅))
          = Ok critic
     else critic = n) ∧
    policy_learner_args s' !! "critic_network_instance" = Some critic.
Proof.
  intros H Hc Hcls. open_networks H.
  assert (Hm1 : ∀ k, k ≠ "action_representation_module_args" →
                     k ≠ "history_summarization_module_args" →
                     method n1 !! k = m !! k).
  { intros k ? ?. method_across W1. by apply Hmeth. }
  apply resolve_critic_exact in N2.
  rewrite (key_is_cnn_q_class _ _ c) in N2 by (rewrite Hm1; done).
  assert (bool_decide (c = CNNQValueNetwork)
          || bool_decide (c = CNNQValueMultiHeadNetwork) = true) as Hq.
  { destruct Hcls as [->| ->]; done. }
  rewrite Hq in N2.
  destruct N2 as (c' & ad & ca & kw & n & critic & Hc' & Had & Hca & Hkw & Hn & Htwin & Hn2).
  rewrite Hm1 in Hc', Hca by done. rewrite Hc in Hc'. injection Hc' as <-.
  apply arm_representation_dim_ok in Had as (arm' & Harm' & Had).
  rewrite (only_writes_lookup _ _ _ _ W1) in Harm' by solve_keys.
  rewrite Harm in Harm'. injection Harm' as <-.
  assert (use_twin_critic (method n1) = use_twin_critic m) as Htw.
  { unfold use_twin_critic. by rewrite Hm1. }
  rewrite Htw in Htwin.
  apply resolve_value_critic_exact in N3.
  rewrite (key_is_cls_class _ _ c) in N3.
  2:{ method_across W2. rewrite Hm1; done. }
  rewrite bool_decide_eq_false_2 in N3 by (destruct Hcls as [->| ->]; done).
  subst n3.
  exists arm, ad, ca, kw, n, critic. split_and!; try done.
  - across W8. across W7. across W6. across W5. across W4. across W2. across W1. done.
  - across W8. across W7. across W6. across W5. across W4.
    rewrite Hn2. apply lookup_insert_eq.
Qed.

(** X10.  A state-value critic over image observations (class
    [CNNValueNetwork]) is built from the image dimensions with
    [output_dim = 1], and is the final [critic_network_instance]. *)
Theorem cnn_value_critic_dims e (m : dict) pl s' :
  resolve construct representation_dim e m = Ok (pl, s') →
  m !! "critic_network_module" = Some (VClass CNNValueNetwork) →
  ∃ ca kw inst,
    m !! "critic_network_args" = Some (VDict ca) ∧
    image_keywords e [("output_dim", VInt 1)] ca kw ∧
    construct CNNValueNetwork kw = Ok inst ∧
    policy_learner_args s' !! "critic_network_instance" = Some inst.
Proof.
  intros H Hc. open_networks H.
  assert (Hm2 : ∀ k, k ≠ "action_representation_module_args" →
                     k ≠ "history_summarization_module_args" →
                     method n2 !! k = m !! k).
  { intros k ? ?. method_across W2. method_across W1. by apply Hmeth. }
  apply resolve_value_critic_exact in N3.
  rewrite (key_is_cls_class _ _ CNNValueNetwork) in N3 by (rewrite Hm2; done).
  rewrite bool_decide_eq_true_2 in N3 by done.
  destruct N3 as (ca & kw & inst & Hca & Hkw & Hinst & Hn3).
  rewrite Hm2 in Hca by done.
  exists ca, kw, inst. split_and!; try done.
  across W8. across W7. across W6. across W5. across W4.
  rewrite Hn3. apply lookup_insert_eq.
Qed.

(** X11.  An actor over image observations (class [CNNActorNetwork]) is
    built from the image dimensions with [output_dim] the representation
    dimension of the resolved action-representation module, and is the
    final [actor_network_instance]. *)
Theorem cnn_actor_dims e (m : dict) pl s' :
  resolve construct representation_dim e m = Ok (pl, s') →
  m !! "actor_network_module" = Some (VClass CNNActorNetwork) →
  ∃ arm od aa kw inst,
    policy_learner_args s' !! "action_representation_module" = Some arm ∧
    representation_dim arm = Ok od ∧
    m !! "actor_network_args" = Some (VDict aa) ∧
    image_keywords e [("output_dim", od)] aa kw ∧
    construct CNNActorNetwork kw = Ok inst ∧
    policy_learner_args s' !! "actor_network_instance" = Some inst.
Proof.
  intros H Hc. open_networks H.
  assert (Hm3 : ∀ k, k ≠ "action_representation_module_args" →
                     k ≠ "history_summarization_module_args" →
                     method n3 !! k = m !! k).
  { intros k ? ?. method_across W3. method_across W2. method_across W1.
    by apply Hmeth. }
  apply resolve_actor_exact in N4.
  rewrite (key_is_cls_class _ _ CNNActorNetwork) in N4 by (rewrite Hm3; done).
  rewrite bool_decide_eq_true_2 in N4 by done.
  destruct N4 as (od & aa & kw & inst & Had & Haa & Hkw & Hinst & Hn4).
  rewrite Hm3 in Haa by done.
  apply arm_representation_dim_ok in Had as (arm' & Harm' & Had).
  rewrite (only_writes_lookup _ _ _ _ W3) in Harm' by solve_keys.
  rewrite (only_writes_lookup _ _ _ _ W2) in Harm' by solve_keys.
  rewrite (only_writes_lookup _ _ _ _ W1) in Harm' by solve_keys.
  rewrite Harm in Harm'. injection Harm' as <-.
  exists arm, od, aa, kw, inst. split_and!; try done.
  - across W8. across W7. across W6. across W5. across W4. across W3. across W2.
    across W1. done.
  - across W8. across W7. across W6. across W5.
    rewrite Hn4. apply lookup_insert_eq.
Qed.

(** X12.  A method whose name contains "dynamic" has the descriptor's
    [actor_network_type] copied into the final bundle; for any other name
    the step writes nothing, and the entry is the one configured in
    [policy_learner_args], if any. *)
Theorem dynamic_actor_network_type e (m : dict) pl s' nm :
  resolve construct representation_dim e m = Ok (pl, s') →
  m !! "name" = Some (VStr nm) →
  if substring_of "dynamic" nm
  then ∃ t, m !! "actor_network_type" = Some t ∧
            policy_learner_args s' !! "actor_network_type" = Some t
  else ∃ p, m !! "policy_learner_args" = Some (VDict p) ∧
            policy_learner_args s' !! "actor_network_type" = p !! "actor_network_type".
Proof.
  intros H Hnm. open_resolve H.
  apply resolve_init_exact in H0 as (p & aa & d0 & _ & Hp & _ & _ & ->).
  apply resolve_exploration_writes in E1 as (_ & _ & Hp1).
  apply resolve_replay_buffer_frame in E2 as (_ & Hp2).
  apply resolve_safety_frame in E3 as (_ & Hp3).
  apply resolve_action_representation_ok in H1 as (_ & Hmeth1 & arm0 & Hp4 & _).
  apply resolve_history_frame in H2 as (Hmeth2 & Hp5 & _).
  assert (Hbefore : policy_learner_args s2 !! "actor_network_type"
                    = p !! "actor_network_type").
  { rewrite Hp5, Hp4 by done. rewrite lookup_insert_ne by done.
    rewrite Hp3, Hp2, Hp1 by solve_keys. simpl. by rewrite lookup_insert_ne. }
  apply resolve_networks_writes in H3
    as (n1 & n2 & n3 & n4 & n5 & n6 & n7
        & (N1 & N2 & N3 & N4 & N5 & N6 & N7 & Hs')
        & W1 & W2 & W3 & W4 & W5 & W6 & W7 & W8).
  assert (Hm6 : ∀ k, k ≠ "action_representation_module_args" →
                     k ≠ "history_summarization_module_args" →
                     method n6 !! k = m !! k).
  { intros k ? ?. method_across W6. method_across W5. method_across W4.
    method_across W3. method_across W2. method_across W1.
    rewrite Hmeth2, Hmeth1, Hmx3; done. }
  eapply resolve_dynamic_exact in N7; [|rewrite Hm6; done].
  destruct (substring_of "dynamic" nm).
  - destruct N7 as (t & Ht & Hn7). rewrite Hm6 in Ht by done.
    exists t. split; [done|]. across W8. rewrite Hn7. apply lookup_insert_eq.
  - subst n7. exists p. split; [done|].
    across W8. across W6. across W5. across W4. across W3. across W2. across W1. done.
Qed.


(** X13.  Hyper-parameters pass through: every entry of the descriptor's
    [policy_learner_args] under a key the resolution does not own reaches
    the policy learner's constructor unchanged, no such key is added, and
    [action_space] is always the environment's action space. *)
Theorem hyperparameters_pass_through e (m : dict) pl s' :
  resolve construct representation_dim e m = Ok (pl, s') →
  ∃ p,
    m !! "policy_learner_args" = Some (VDict p) ∧
    policy_learner_args s' !! "action_space" = Some (VSpace (env_action_space e)) ∧
    ∀ k, k ∉ "exploration_module" :: "action_representation_module" :: network_keys →
         policy_learner_args s' !! k = p !! k.
Proof.
  intros H. open_resolve H.
  apply resolve_init_exact in H0 as (p & aa & d0 & _ & Hp & _ & _ & ->).
  apply resolve_exploration_writes in E1 as (_ & _ & Hp1).
  apply resolve_replay_buffer_frame in E2 as (_ & Hp2).
  apply resolve_safety_frame in E3 as (_ & Hp3).
  apply resolve_action_representation_ok in H1 as (_ & _ & arm0 & Hp4 & _).
  apply resolve_history_frame in H2 as (_ & Hp5 & _).
  pose proof H3 as (_ & _ & _ & _ & Hp6 & _)%resolve_networks_ok.
  apply resolve_networks_steps in H3 as (? & ? & ? & ? & ? & n6 & n7 & _ & _ & _ & _ & _ & _ & _ & ->).
  exists p. split; [done|]. split; [apply lookup_insert_eq|].
  intros k Hk. apply not_elem_of_cons in Hk as [Hk1 Hk].
  apply not_elem_of_cons in Hk as [Hk2 Hk].
  rewrite Hp6 by done. rewrite Hp5.
  2:{ intros ->. apply Hk. unfold network_keys. solve_keys. }
  rewrite Hp4, lookup_insert_ne by done.
  rewrite Hp3, Hp2, Hp1.
  2:{ intros Hin. apply list_elem_of_singleton in Hin. done. }
  simpl. rewrite lookup_insert_ne; [done|].
  intros <-. apply Hk. unfold network_keys. solve_keys.
Qed.

(** X14.  What every successful resolution needs: the descriptor has
    [policy_learner] (the constructor returned), a dictionary under
    [policy_learner_args], an [agent_args] entry and a [name] that supports
    the test ["dynamic" in name], and the observation shape has a first
    entry. *)
Theorem resolution_requirements e (m : dict) pl s' :
  resolve construct representation_dim e m = Ok (pl, s') →
  m !! "policy_learner" = Some pl ∧
  (∃ p, m !! "policy_learner_args" = Some (VDict p)) ∧
  is_Some (m !! "agent_args") ∧
  (∃ nm, m !! "name" = Some nm ∧ is_ok (str_in "dynamic" nm) = true) ∧
  is_Some (observation_shape e !! 0%nat).
Proof.
  intros H.
  pose proof (ResolverTheorems.resolve_method_keys _ _ _ _ _ _ "name" H) as Hname.
  open_resolve H.
  apply resolve_init_exact in H0 as (p & aa & d0 & Hpl & Hp & Haa & Hd0 & _).
  split_and!; eauto.
  apply resolve_networks_steps in H3
    as (? & ? & ? & ? & ? & n6 & n7 & _ & _ & _ & _ & _ & _ & N7 & ->).
  pose proof N7 as (M7 & _)%resolve_dynamic_writes.
  assert (Hn : method n6 !! "name" = m !! "name").
  { rewrite <- M7. by apply Hname. }
  unfold resolve_dynamic in N7.
  destruct (getitem (method n6) "name") as [v|] eqn:Ev; [|done].
  apply getitem_ok in Ev. csimpl in N7.
  destruct (str_in "dynamic" v) as [b|] eqn:Es; [|done].
  exists v. split; [congruence | by rewrite Es].
Qed.

(** X15.  The branches for "DuelingDQN" and "BootstrappedDQN" assert that the
    descriptor has both [network_module] and [network_args], and the call
    passes [state_dim] and [action_dim] by keyword: a descriptor of either
    name that lacks one of the two keys, or whose [network_args] already
    sets one of the two dimensions, is never resolved. *)
Theorem named_branch_preconditions e (m : dict) nm :
  m !! "name" = Some nm →
  eq_str nm "DuelingDQN" || eq_str nm "BootstrappedDQN" = true →
  m !! "network_module" = None ∨ m !! "network_args" = None ∨
  (∃ na, m !! "network_args" = Some (VDict na) ∧
         (is_Some (na !! "state_dim") ∨ is_Some (na !! "action_dim"))) →
  is_ok (resolve construct representation_dim e m) = false.
Proof.
  intros Hnm Hname Hbad.
  destruct (resolve construct representation_dim e m) as [[pl s']|err] eqn:H; [|done].
  exfalso.
  destruct (ResolverTheorems.resolve_name_branches _ _ _ _ _ _ _ H Hnm) as (_ & Hb & Hd).
  assert (∃ inst, built_from_raw_dims construct e m inst)
    as (inst & c & na & d0 & n & Hc & Hna & _ & _ & Hsd & Had & _).
  { apply orb_true_iff in Hname as [Hname|Hname].
    - destruct (Hd Hname) as (inst & ? & _). eauto.
    - destruct (Hb Hname) as (inst & ? & _). eauto. }
  destruct Hbad as [Hbad|[Hbad|(na' & Hna' & Hbad)]]; [congruence..|].
  rewrite Hna in Hna'. injection Hna' as <-.
  destruct Hbad as [[? Hbad]|[? Hbad]]; congruence.
Qed.

End WithCollaborators.
End ResolutionTheorems.

Module ResolutionExamples.
Import Py PyFacts Resolver ResolverSpec ResolverSteps Examples Samples ResolutionTheorems.

Ltac resolved E :=
  match goal with
  | |- context [resolve_sym ?e ?m] =>
      let pl := fresh "pl" in let s' := fresh "s'" in let Hok := fresh "Hok" in
      assert (Hok : is_ok (resolve_sym e m) = true) by (vm_compute; reflexivity);
      destruct (resolve_sym e m) as [[pl s']|?] eqn:E; [clear Hok | discriminate Hok];
      exists pl, s'; split; [reflexivity|]
  end.

(** [dqn_lstm] on CartPole: [state_dim] is the hidden size. *)
Lemma lstm_state_dim_witness :
  ∃ pl s',
    resolve_sym cartpole dqn_lstm = Ok (pl, s') ∧
    dqn_lstm !! "history_summarization_module"
      = Some (VClass (OtherClass "LSTMHistorySummarizationModule")) ∧
    is_Some (dqn_lstm !! "history_summarization_module_args") ∧
    policy_learner_args s' !! "state_dim" = Some (VInt 128).
Proof.
  resolved E. split; [by vm_compute|]. split; [by vm_compute; eexists|].
  destruct (lstm_state_dim construct_sym representation_dim_sym cartpole dqn_lstm
              pl s' (OtherClass "LSTMHistorySummarizationModule") E)
    as (h0 & hd & nm & Hh0 & Hhd & Hnm & Hsd);
    [by vm_compute | done | by vm_compute; eexists |].
  clear E. vm_compute in Hh0, Hnm. injection Hh0 as <-. injection Hnm as <-.
  vm_compute in Hhd. injection Hhd as <-. exact Hsd.
Defined.

(** [dqn_stacking] on CartPole: the module gets [observation_dim = 4] and
    [action_dim = 1] besides its [history_length]. *)
Lemma history_module_bundle_witness :
  ∃ pl s',
    resolve_sym cartpole dqn_stacking = Ok (pl, s') ∧
    dqn_stacking !! "history_summarization_module"
      = Some (VClass (OtherClass "StackingHistorySummarizationModule")) ∧
    is_Some (dqn_stacking !! "history_summarization_module_args") ∧
    ∃ aa inst,
      agent_args s' = VDict aa ∧
      aa !! "history_summarization_module" = Some inst ∧
      construct_sym (OtherClass "StackingHistorySummarizationModule")
        (<["action_dim" := VInt 1]>
           (<["observation_dim" := VInt 4]> {["history_length" := VInt 3]}))
      = Ok inst.
Proof.
  resolved E. split; [by vm_compute|]. split; [by vm_compute; eexists|].
  destruct (history_module_bundle construct_sym representation_dim_sym cartpole
              dqn_stacking pl s' (OtherClass "StackingHistorySummarizationModule") E)
    as (h0 & bundle & inst & aa & Hh0 & Hb & _ & Hinst & Haa & Hl);
    [by vm_compute | by vm_compute; eexists |].
  exists aa, inst. split; [done|]. split; [done|].
  simpl in Hb. destruct Hb as (d0 & arm & ad & Hd0 & Harm & Had & ->).
  assert (Harm' : policy_learner_args s' !! "action_representation_module"
                  = Some (VInst IdentityActionRepresentationModule
                            (<["representation_dim" := VInt 1]>
                               (<["max_number_actions" := VInt 2]> ∅)))).
  { rewrite (final_entry _ _ _ "action_representation_module" E). by vm_compute. }
  clear E. rewrite Harm' in Harm. injection Harm as <-.
  vm_compute in Hd0, Hh0, Had.
  injection Hd0 as <-. injection Hh0 as <-. injection Had as <-. exact Hinst.
Defined.

(** [dqn] on CartPole: the replay buffer of capacity 50000 is in
    [agent_args]. *)
Lemma auxiliary_modules_in_agent_args_witness :
  ∃ pl s',
    resolve_sym cartpole dqn = Ok (pl, s') ∧
    ∃ aa, agent_args s' = VDict aa ∧
          aa !! "replay_buffer"
          = Some (VInst (OtherClass "BasicReplayBuffer") {["capacity" := VInt 50000]}).
Proof.
  resolved E.
  destruct (auxiliary_modules_in_agent_args construct_sym representation_dim_sym
              cartpole dqn pl s' "replay_buffer" E)
    as (c & a & inst & aa & Hc & Ha & Hinst & Haa & Hl);
    [by apply list_elem_of_here | by vm_compute; eexists | by vm_compute; eexists |].
  clear E. exists aa. split; [done|].
  vm_compute in Hc, Ha. injection Hc as <-. injection Ha as <-.
  unfold construct_sym in Hinst. injection Hinst as <-. exact Hl.
Defined.

(** [dqn] on CartPole: the device identifier reaches the agent. *)
Lemma agent_args_preserved_witness :
  ∃ pl s',
    resolve_sym cartpole dqn = Ok (pl, s') ∧
    dqn !! "agent_args" = Some (VDict {["device_id" := VInt 0]}) ∧
    ∃ aa, agent_args s' = VDict aa ∧ aa !! "device_id" = Some (VInt 0).
Proof.
  resolved E. split; [by vm_compute|].
  destruct (agent_args_preserved construct_sym representation_dim_sym cartpole dqn
              {["device_id" := VInt 0]} pl s' E)
    as (aa & Haa & Hkeep); [by vm_compute|].
  exists aa. split; [done|]. rewrite Hkeep; [done|].
  intros Hin. repeat (apply elem_of_cons in Hin as [Hin|Hin]; [done|]).
  by apply elem_of_nil in Hin.
Defined.

(** [dqn] on CartPole: the one-hot module is built for two actions. *)
Lemma one_hot_module_injection_witness :
  ∃ pl s',
    resolve_sym cartpole dqn = Ok (pl, s') ∧
    dqn !! "action_representation_module"
      = Some (VClass (OtherClass "OneHotActionTensorRepresentationModule")) ∧
    is_Some (dqn !! "action_representation_module_args") ∧
    policy_learner_args s' !! "action_representation_module"
      = Some (VInst (OtherClass "OneHotActionTensorRepresentationModule")
                {["max_number_actions" := VInt 2]}).
Proof.
  resolved E. split; [by vm_compute|]. split; [by vm_compute; eexists|].
  destruct (one_hot_module_injection construct_sym representation_dim_sym cartpole dqn
              pl s' (OtherClass "OneHotActionTensorRepresentationModule") E)
    as (n & a0 & inst & Hn & Ha0 & _ & Hinst & Hp);
    [by vm_compute | done | by vm_compute; eexists |].
  clear E. vm_compute in Hn, Ha0. injection Hn as <-. injection Ha0 as <-.
  unfold construct_sym in Hinst. injection Hinst as <-. exact Hp.
Defined.

(** [dqn_binary] on CartPole: the bundle is passed as configured. *)
Lemma other_representation_untouched_witness :
  ∃ pl s',
    resolve_sym cartpole dqn_binary = Ok (pl, s') ∧
    method s' !! "action_representation_module_args"
      = Some (VDict {["bits_num" := VInt 3]}) ∧
    policy_learner_args s' !! "action_representation_module"
      = Some (VInst (OtherClass "BinaryActionTensorRepresentationModule")
                {["bits_num" := VInt 3]}).
Proof.
  resolved E.
  destruct (other_representation_untouched construct_sym representation_dim_sym
              cartpole dqn_binary pl s'
              (OtherClass "BinaryActionTensorRepresentationModule") E)
    as (a0 & inst & Ha0 & Hm & Hinst & Hp);
    [by vm_compute | done | done | by vm_compute; eexists |].
  clear E. vm_compute in Ha0. injection Ha0 as <-.
  unfold construct_sym in Hinst. injection Hinst as <-. split; [exact Hm | exact Hp].
Defined.

(** [dqn_wrapped] on CartPole: the warm-up wrapper holds the e-greedy
    module. *)
Lemma exploration_module_wrapped_witness :
  ∃ pl s',
    resolve_sym cartpole dqn_wrapped = Ok (pl, s') ∧
    policy_learner_args s' !! "exploration_module"
      = Some (VInst (OtherClass "Warmup")
                (<["exploration_module" :=
                     VInst (OtherClass "EGreedyExploration") {["epsilon" := VInt 0]}]>
                   {["warmup_steps" := VInt 1000]})).
Proof.
  resolved E.
  destruct (exploration_module_wrapped construct_sym representation_dim_sym
              cartpole dqn_wrapped pl s' E)
    as (c & a & inner & Hc & Ha & Hinner & Hw);
    [by vm_compute; eexists | by vm_compute; eexists |].
  clear E. change (has_key "exploration_module_wrapper" dqn_wrapped) with true in Hw.
  destruct Hw as (w & wa & outer & Hw & Hwa & _ & Houter & Hp).
  vm_compute in Hc, Ha, Hw, Hwa.
  injection Hc as <-. injection Ha as <-. injection Hw as <-. injection Hwa as <-.
  unfold construct_sym in Hinner, Houter. injection Hinner as <-.
  injection Houter as <-. exact Hp.
Defined.

End ResolutionExamples.

Module NetworkExamples.
Import Py PyFacts Resolver ResolverSpec ResolverSteps Examples Samples ResolutionTheorems.

Ltac resolved E :=
  match goal with
  | |- context [resolve_sym ?e ?m] =>
      let pl := fresh "pl" in let s' := fresh "s'" in let Hok := fresh "Hok" in
      assert (Hok : is_ok (resolve_sym e m) = true) by (vm_compute; reflexivity);
      destruct (resolve_sym e m) as [[pl s']|?] eqn:E; [clear Hok | discriminate Hok];
      exists pl, s'; split; [reflexivity|]
  end.

Ltac image_dims H :=
  let Hexp := fresh "Hexp" in
  destruct H as (w & h & c & Hw & Hh & Hc & [Hexp _]%add_keywords_ok);
  vm_compute in Hw, Hh, Hc;
  injection Hw as <-; injection Hh as <-; injection Hc as <-;
  rename Hexp into H.

Ltac keyword H :=
  eapply H; simpl;
  repeat first [apply list_elem_of_here | apply list_elem_of_further].

(** [dqn_cnn] on Atari frames: 84 by 84 by 4, six one-hot actions, one
    output. *)
Lemma cnn_q_network_dims_witness :
  ∃ pl s',
    resolve_sym atari dqn_cnn = Ok (pl, s') ∧
    ∃ kw,
      policy_learner_args s' !! "network_instance" = Some (VInst CNNQValueNetwork kw) ∧
      kw !! "input_width" = Some (VInt 84) ∧
      kw !! "input_height" = Some (VInt 84) ∧
      kw !! "input_channels_count" = Some (VInt 4) ∧
      kw !! "action_dim" = Some (VInt 6) ∧
      kw !! "output_dim" = Some (VInt 1).
Proof.
  resolved E.
  destruct (cnn_q_network_dims construct_sym representation_dim_sym atari dqn_cnn
              pl s' CNNQValueNetwork (VStr "DQN") E)
    as (arm & ad & na & kw & inst & Harm & Had & Hna & Hkw & Hinst & Hp);
    [by vm_compute | by left | by vm_compute | done |].
  assert (Harm' : policy_learner_args s' !! "action_representation_module"
                  = Some (VInst (OtherClass "OneHotActionTensorRepresentationModule")
                            {["max_number_actions" := VInt 6]})).
  { rewrite (final_entry _ _ _ "action_representation_module" E). by vm_compute. }
  clear E. rewrite Harm' in Harm. injection Harm as <-.
  vm_compute in Had, Hna. injection Had as <-. injection Hna as <-.
  image_dims Hkw.
  unfold construct_sym in Hinst. injection Hinst as <-.
  exists kw. split; [exact Hp|]. split_and!; keyword Hkw.
Defined.

(** [sac_cnn] on Atari frames: a twin critic of two multi-head networks
    with six outputs. *)
Lemma cnn_critic_twin_witness :
  ∃ pl s',
    resolve_sym atari sac_cnn = Ok (pl, s') ∧
    ∃ n kw,
      policy_learner_args s' !! "critic_network_instance"
      = Some (VInst TwinCritic
                (<["network_instance_1" := n]> (<["network_instance_2" := n]> ∅))) ∧
      n = VInst CNNQValueMultiHeadNetwork kw ∧
      kw !! "action_dim" = Some (VInt 6) ∧
      kw !! "output_dim" = Some (VInt 6).
Proof.
  resolved E.
  destruct (cnn_critic_twin construct_sym representation_dim_sym atari sac_cnn
              pl s' CNNQValueMultiHeadNetwork E)
    as (arm & ad & ca & kw & n & critic & Harm & Had & Hca & Hkw & Hn & Htwin & Hp);
    [by vm_compute | by right |].
  assert (Harm' : policy_learner_args s' !! "action_representation_module"
                  = Some (VInst (OtherClass "OneHotActionTensorRepresentationModule")
                            {["max_number_actions" := VInt 6]})).
  { rewrite (final_entry _ _ _ "action_representation_module" E). by vm_compute. }
  clear E. rewrite Harm' in Harm. injection Harm as <-.
  vm_compute in Had, Hca. injection Had as <-. injection Hca as <-.
  image_dims Hkw.
  unfold construct_sym in Hn. injection Hn as <-.
  change (use_twin_critic sac_cnn) with true in Htwin. cbv iota in Htwin.
  unfold construct_sym in Htwin. injection Htwin as <-.
  eexists _, kw. split; [exact Hp|]. split; [reflexivity|]. split; keyword Hkw.
Defined.

(** [ppo_cnn] on Atari frames: a value network of one output. *)
Lemma cnn_value_critic_dims_witness :
  ∃ pl s',
    resolve_sym atari ppo_cnn = Ok (pl, s') ∧
    ∃ kw,
      policy_learner_args s' !! "critic_network_instance"
      = Some (VInst CNNValueNetwork kw) ∧
      kw !! "input_channels_count" = Some (VInt 4) ∧
      kw !! "output_dim" = Some (VInt 1).
Proof.
  resolved E.
  destruct (cnn_value_critic_dims construct_sym representation_dim_sym atari ppo_cnn
              pl s' E)
    as (ca & kw & inst & Hca & Hkw & Hinst & Hp); [by vm_compute|].
  clear E. vm_compute in Hca. injection Hca as <-.
  image_dims Hkw.
  unfold construct_sym in Hinst. injection Hinst as <-.
  exists kw. split; [exact Hp|]. split_and!; keyword Hkw.
Defined.

(** [sac_cnn] on Atari frames: an actor of six outputs. *)
Lemma cnn_actor_dims_witness :
  ∃ pl s',
    resolve_sym atari sac_cnn = Ok (pl, s') ∧
    ∃ kw,
      policy_learner_args s' !! "actor_network_instance"
      = Some (VInst CNNActorNetwork kw) ∧
      kw !! "input_width" = Some (VInt 84) ∧
      kw !! "output_dim" = Some (VInt 6).
Proof.
  resolved E.
  destruct (cnn_actor_dims construct_sym representation_dim_sym atari sac_cnn pl s' E)
    as (arm & od & aa & kw & inst & Harm & Had & Haa & Hkw & Hinst & Hp);
    [by vm_compute|].
  assert (Harm' : policy_learner_args s' !! "action_representation_module"
                  = Some (VInst (OtherClass "OneHotActionTensorRepresentationModule")
                            {["max_number_actions" := VInt 6]})).
  { rewrite (final_entry _ _ _ "action_representation_module" E). by vm_compute. }
  clear E. rewrite Harm' in Harm. injection Harm as <-.
  vm_compute in Had, Haa. injection Had as <-. injection Haa as <-.
  image_dims Hkw.
  unfold construct_sym in Hinst. injection Hinst as <-.
  exists kw. split; [exact Hp|]. split_and!; keyword Hkw.
Defined.

(** [sac_dynamic] on CartPole: the actor network type is copied. *)
Lemma dynamic_actor_network_type_witness :
  ∃ pl s',
    resolve_sym cartpole sac_dynamic = Ok (pl, s') ∧
    sac_dynamic !! "name" = Some (VStr "SAC_dynamic") ∧
    policy_learner_args s' !! "actor_network_type"
      = Some (VClass (OtherClass "DynamicActionActorNetwork")).
Proof.
  resolved E. split; [by vm_compute|].
  pose proof (dynamic_actor_network_type construct_sym representation_dim_sym
                cartpole sac_dynamic pl s' "SAC_dynamic" E) as H.
  clear E. change (substring_of "dynamic" "SAC_dynamic") with true in H.
  destruct H as (t & Ht & Hp); [by vm_compute|].
  vm_compute in Ht. injection Ht as <-. exact Hp.
Defined.

(** [dqn] on CartPole: the batch size passes through, the action space is
    attached. *)
Lemma hyperparameters_pass_through_witness :
  ∃ pl s',
    resolve_sym cartpole dqn = Ok (pl, s') ∧
    policy_learner_args s' !! "batch_size" = Some (VInt 32) ∧
    policy_learner_args s' !! "action_space"
      = Some (VSpace (ActionSpace (Some 2%Z) (Some 1%Z))).
Proof.
  resolved E.
  destruct (hyperparameters_pass_through construct_sym representation_dim_sym
              cartpole dqn pl s' E) as (p & Hp & Hspace & Hkeep).
  clear E. vm_compute in Hp. injection Hp as <-. split; [|exact Hspace].
  rewrite Hkeep; [by vm_compute|].
  intros Hin. repeat (apply elem_of_cons in Hin as [Hin|Hin]; [done|]).
  by apply elem_of_nil in Hin.
Defined.

(** [dqn] on CartPole has all it takes. *)
Lemma resolution_requirements_witness :
  ∃ pl s',
    resolve_sym cartpole dqn = Ok (pl, s') ∧
    dqn !! "policy_learner" = Some pl ∧
    is_Some (dqn !! "agent_args").
Proof.
  resolved E.
  destruct (resolution_requirements construct_sym representation_dim_sym
              cartpole dqn pl s' E) as (Hpl & _ & Haa & _).
  split; [exact Hpl | exact Haa].
Defined.

(** "DuelingDQN" without [network_args] is not resolved. *)
Lemma named_branch_preconditions_witness :
  dueling_no_args !! "name" = Some (VStr "DuelingDQN") ∧
  dueling_no_args !! "network_args" = None ∧
  is_ok (resolve_sym cartpole dueling_no_args) = false.
Proof.
  split; [by vm_compute|]. split; [by vm_compute|].
  apply (named_branch_preconditions construct_sym representation_dim_sym cartpole
           dueling_no_args (VStr "DuelingDQN")).
  - by vm_compute.
  - done.
  - right. left. by vm_compute.
Defined.

End NetworkExamples.

(** ** One run: [evaluate_single] to the end *)

Module ExecutorFacts.
Import Py PyFacts Resolver Launcher Aggregator Executor StringFacts EffFacts.

(** Unfold the next fallible step of an effectful computation. *)
Ltac step_lift :=
  match goal with
  | |- context [lift ?r ≫= _] =>
      let E := fresh "E" in
      destruct r eqn:E; [rewrite lift_ok_bind | rewrite lift_raise_bind]
  end.

Lemma files_after_app {F} (t1 t2 : list (run_event F)) fs :
  files_after (t1 ++ t2) fs = files_after t2 (files_after t1 fs).
Proof. apply foldl_app. Qed.

Section WithCollaborators.
Variable construct : cls → dict → result value.
Variable representation_dim : value → result value.
Variable get_env : value → result env.
Variable F : Type.
Variable online_learning : value → env → learning_options → result (list (string * list F)).
Variable repr_object : value → string.

Local Abbreviation evaluate_single_run :=
  (evaluate_single_run construct representation_dim get_env F online_learning repr_object).
Local Abbreviation run_dir := (run_dir repr_object).
Local Abbreviation completes :=
  (completes construct representation_dim get_env F online_learning repr_object).
Local Abbreviation completed_trace := (completed_trace F repr_object).

Lemma save_all_trace dir run_idx (info : list (string * list F)) :
  save_all dir run_idx info
  = ((λ kv, Saved (save_path dir run_idx kv.1) kv.2) <$> info, Ok ()).
Proof. apply for_each_tell. Qed.

(** Every outcome of a run: it raised before anything was saved, or it
    went through and saved every metric. *)
Lemma evaluate_single_run_cases (p : process) :
  (∃ err t, evaluate_single_run p = (t, Raise err) ∧
            Forall (λ ev, ∀ path d, ev ≠ Saved path d) t) ∨
  (∃ m e pl s agent name info,
     p_method p = VDict m ∧
     get_env (p_env_name p) = Ok e ∧
     resolve construct representation_dim e m = Ok (pl, s) ∧
     build_agent construct pl s = Ok agent ∧
     method s !! "name" = Some name ∧
     online_learning agent e (options_of p (method s)) = Ok info ∧
     completes p name info).
Proof.
  unfold completes, completed_trace, Executor.evaluate_single_run.
  rewrite eff_bind_tell.
  repeat (step_lift;
          [|left; eexists _, _; split; [reflexivity | repeat constructor; done]]).
  right. destruct (p_method p) as [| | | | | |?|m|]; simplify_eq.
  destruct a4 as [pl s]. apply getitem_ok in E6.
  eexists _, _, pl, s, _, _, _. split_and!; try done.
  rewrite !eff_bind_tell, save_all_trace. done.
Qed.

Lemma save_path_run_path env_name name run_idx key :
  save_path (run_dir env_name name) run_idx key
  = run_path repr_object env_name name run_idx key.
Proof.
  unfold save_path, Executor.run_dir, Aggregator.run_path.
  by rewrite !append_assoc.
Qed.

(** Within one directory a file name tells the run and the metric. *)
Lemma run_path_inj env_name name (r1 r2 : Z) (k1 k2 : string) :
  run_path repr_object env_name name r1 k1 = run_path repr_object env_name name r2 k2 →
  r1 = r2 ∧ k1 = k2.
Proof.
  unfold Aggregator.run_path. intros H.
  do 5 apply String.app_inj in H.
  apply split_at_underscore in H as [Hr Hk];
    [| apply pretty_Z_no_underscore | apply pretty_Z_no_underscore].
  split; [by apply (inj pretty) | by apply append_inj_r in Hk].
Qed.

(** A path holds what was saved to it when every save to it agrees. *)
Lemma files_after_lookup (t : list (run_event F)) fs path d :
  (∀ d', Saved path d' ∈ t → d' = d) →
  Saved path d ∈ t ∨ fs !! path = Some d →
  files_after t fs !! path = Some d.
Proof.
  revert fs. induction t as [|ev t IH]; intros fs Hagree Hin.
  - destruct Hin as [Hin|Hfs]; [by apply elem_of_nil in Hin | done].
  - change (files_after (ev :: t) fs) with (files_after t (write_event fs ev)).
    apply IH.
    + intros d' Hd'. apply Hagree. by apply list_elem_of_further.
    + destruct Hin as [Hin|Hfs].
      * apply elem_of_cons in Hin as [<-|Hin]; [|by left].
        right. simpl. apply lookup_insert_eq.
      * right. destruct ev as [| | |path' d']; simpl; try done.
        destruct (decide (path' = path)) as [->|Hne].
        -- rewrite lookup_insert_eq. f_equal. apply Hagree, list_elem_of_here.
        -- by rewrite lookup_insert_ne.
Qed.

End WithCollaborators.
End ExecutorFacts.

Module ExecutorTheorems.
Import Py PyFacts Resolver Launcher Aggregator Executor StringFacts ExecutorFacts.

Lemma nodup_fst_agree {A B} (l : list (A * B)) k v1 v2 :
  NoDup l.*1 → (k, v1) ∈ l → (k, v2) ∈ l → v1 = v2.
Proof.
  induction l as [|[k' v'] l IH]; intros Hnd H1 H2.
  - by apply elem_of_nil in H1.
  - apply NoDup_cons in Hnd as [Hk Hnd].
    apply elem_of_cons in H1 as [H1|H1]; apply elem_of_cons in H2 as [H2|H2];
      simplify_eq.
    + done.
    + exfalso. apply Hk. apply list_elem_of_fmap. by exists (k', v2).
    + exfalso. apply Hk. apply list_elem_of_fmap. by exists (k', v1).
    + by apply IH.
Qed.

Section WithCollaborators.
Variable construct : cls → dict → result value.
Variable representation_dim : value → result value.
Variable get_env : value → result env.
Variable F : Type.
Variable online_learning : value → env → learning_options → result (list (string * list F)).
Variable repr_object : value → string.

Local Abbreviation evaluate_single_run :=
  (evaluate_single_run construct representation_dim get_env F online_learning repr_object).
Local Abbreviation completes :=
  (completes construct representation_dim get_env F online_learning repr_object).
Local Abbreviation completed_trace := (completed_trace F repr_object).
Local Abbreviation run_path := (run_path repr_object).

Lemma saved_in_completed_trace p name (info : list (string * list F)) path d :
  Saved path d ∈ completed_trace p name info ↔
  ∃ key, (key, d) ∈ info ∧ path = run_path (p_env_name p) name (p_run_idx p) key.
Proof.
  unfold Executor.completed_trace. rewrite elem_of_app. split.
  - intros [Hin|Hin].
    + repeat (apply elem_of_cons in Hin as [Hin|Hin]; [done|]).
      by apply elem_of_nil in Hin.
    + apply list_elem_of_fmap in Hin as ([key d'] & Heq & Hin). simpl in Heq.
      injection Heq as -> ->. exists key. split; [done|].
      apply save_path_run_path.
  - intros (key & Hin & ->). right. apply list_elem_of_fmap.
    exists (key, d). split; [|done]. simpl. by rewrite save_path_run_path.
Qed.

(** X16.  A run that raises, whether in the resolution of its descriptor, in
    the making of the environment or of the agent, or in the training loop,
    has saved nothing: the metrics are written only after the training
    loop has returned. *)
Theorem failed_run_saves_nothing (p : process) t err (fs : gmap string (list F)) :
  evaluate_single_run p = (t, Raise err) →
  files_after t fs = fs ∧ ∀ path d, Saved path d ∉ t.
Proof.
  intros H.
  destruct (evaluate_single_run_cases construct representation_dim get_env F
              online_learning repr_object p)
    as [(err' & t' & H' & Hno)|(m & e & pl & s & agent & name & info & Hc)].
  2:{ destruct Hc as (_ & _ & _ & _ & _ & _ & Hc). unfold Executor.completes in Hc.
      rewrite Hc in H. done. }
  rewrite H' in H. simplify_eq. split.
  - clear H'. revert fs. induction Hno as [|ev t Hev _ IH]; intros fs; [done|].
    change (files_after (ev :: t) fs) with (files_after t (write_event fs ev)).
    rewrite IH. destruct ev; try done. by destruct (Hev path samples).
  - intros path d Hin. rewrite Forall_forall in Hno. by apply (Hno _ Hin path d).
Qed.

(** X17.  A run that goes through has trained the agent with the run index
    as seed and the descriptor's learning options, and leaves every metric
    the training loop returned in the file the aggregator reads for this
    environment, method name, run index and metric; no other file is
    touched. *)
Theorem saved_files_round_trip (p : process) t (fs : gmap string (list F)) :
  evaluate_single_run p = (t, Ok ()) →
  ∃ m e pl s agent name info,
    p_method p = VDict m ∧
    get_env (p_env_name p) = Ok e ∧
    resolve construct representation_dim e m = Ok (pl, s) ∧
    build_agent construct pl s = Ok agent ∧
    method s !! "name" = Some name ∧
    online_learning agent e (options_of p (method s)) = Ok info ∧
    (NoDup info.*1 → ∀ key samples, (key, samples) ∈ info →
       files_after t fs !! run_path (p_env_name p) name (p_run_idx p) key
       = Some samples) ∧
    (∀ path, (∀ key, key ∈ info.*1 →
                path ≠ run_path (p_env_name p) name (p_run_idx p) key) →
       files_after t fs !! path = fs !! path).
Proof.
  intros H.
  destruct (evaluate_single_run_cases construct representation_dim get_env F
              online_learning repr_object p)
    as [(err' & t' & H' & _)|(m & e & pl & s & agent & name & info & Hc)].
  { rewrite H' in H. done. }
  destruct Hc as (Hm & He & Hr & Hagent & Hname & Hinfo & Hc).
  unfold Executor.completes in Hc. rewrite Hc in H. simplify_eq.
  exists m, e, pl, s, agent, name, info. split_and!; try done.
  - intros Hnd key samples Hin. apply files_after_lookup.
    + intros d' (key' & Hin' & Heq)%saved_in_completed_trace.
      apply run_path_inj in Heq as [_ <-]. by eapply nodup_fst_agree.
    + left. apply saved_in_completed_trace. eauto.
  - intros path Hpath.
    assert (Hno : ∀ d, Saved path d ∉ completed_trace p name info).
    { intros d (key & Hin & ->)%saved_in_completed_trace.
      apply (Hpath key); [|done]. apply list_elem_of_fmap. by exists (key, d). }
    clear Hc. revert fs. induction (completed_trace p name info) as [|ev t IH];
      intros fs; [done|].
    change (files_after (ev :: t) fs) with (files_after t (write_event fs ev)).
    rewrite IH.
    + destruct ev as [| | |path' d']; try done. simpl.
      rewrite lookup_insert_ne; [done|]. intros ->.
      apply (Hno d'), list_elem_of_here.
    + intros d Hin. apply (Hno d). by apply list_elem_of_further.
Qed.

(** X18.  Within the directory of one environment and method name, two
    different pairs of run index and metric never name the same file: the
    decimal run index contains no underscore, so the file name splits in
    one way only. *)
Theorem run_files_distinct env_name name (r1 r2 : Z) (k1 k2 : string) :
  (r1, k1) ≠ (r2, k2) →
  run_path env_name name r1 k1 ≠ run_path env_name name r2 k2.
Proof. intros Hne Heq. apply run_path_inj in Heq as [-> ->]. done. Qed.

(** X19.  The runs 0 .. n-1 of one method, each gone through with the metric
    [attr] among its results: in whatever order their writes reach the
    disk, the aggregator reads the samples of every run back, in run
    order, and reports no file missing. *)
Theorem runs_round_trip (unit : Z → process) (info : Z → list (string * list F))
    (samples : Z → list F) env_name name attr (n : Z) t (fs : gmap string (list F)) :
  (∀ r, r ∈ range n →
     p_run_idx (unit r) = r ∧ p_env_name (unit r) = env_name ∧
     completes (unit r) name (info r) ∧
     NoDup (info r).*1 ∧ (attr, samples r) ∈ info r) →
  t ≡ₚ mjoin ((λ r, (evaluate_single_run (unit r)).1) <$> range n) →
  found_runs repr_object (files_after t fs) env_name name attr n = samples <$> range n ∧
  missing_notices repr_object (files_after t fs) env_name name attr n = [].
Proof.
  intros Hruns Ht.
  assert (Hin_t : ∀ path d, Saved path d ∈ t ↔
            ∃ r key, r ∈ range n ∧ (key, d) ∈ info r ∧
                     path = run_path env_name name r key).
  { intros path d. rewrite Ht, list_elem_of_join. split.
    - intros (l & Hin & (r & -> & Hr)%list_elem_of_fmap).
      destruct (Hruns r Hr) as (Hidx & Henv & Hc & _).
      unfold Executor.completes in Hc. rewrite Hc in Hin. simpl in Hin.
      apply saved_in_completed_trace in Hin as (key & Hk & ->).
      exists r, key. by rewrite Hidx, Henv.
    - intros (r & key & Hr & Hk & ->).
      destruct (Hruns r Hr) as (Hidx & Henv & Hc & _).
      exists (evaluate_single_run (unit r)).1. split.
      + unfold Executor.completes in Hc. rewrite Hc. simpl.
        apply saved_in_completed_trace. exists key. by rewrite Hidx, Henv.
      + apply list_elem_of_fmap. by exists r. }
  assert (Hlook : ∀ r, r ∈ range n →
            files_after t fs !! run_path env_name name r attr = Some (samples r)).
  { intros r Hr. destruct (Hruns r Hr) as (_ & _ & _ & Hnd & Hattr).
    apply files_after_lookup.
    - intros d' (r' & key & Hr' & Hk & Heq)%Hin_t.
      apply run_path_inj in Heq as [<- <-]. by eapply nodup_fst_agree.
    - left. apply Hin_t. eauto. }
  unfold Aggregator.found_runs, Aggregator.missing_notices.
  revert Hlook. generalize (range n). clear.
  intros l Hlook. induction l as [|r rs IH]; [done|].
  cbn [omap list_omap]. rewrite Hlook by apply list_elem_of_here.
  destruct IH as [IH1 IH2].
  { intros r' Hr'. apply Hlook. by apply list_elem_of_further. }
  split.
  - csimpl. f_equal. exact IH1.
  - exact IH2.
Qed.

End WithCollaborators.
End ExecutorTheorems.

Module ExecutorExamples.
Import Py PyFacts Resolver ResolverSteps Launcher Aggregator Executor Examples Samples
  ExecutorTheorems.

(** A run on an unknown environment stops before anything is written. *)
Lemma failed_run_saves_nothing_witness :
  evaluate_single_run_sym lost_run = ([SetSeed 0], Raise ValueError) ∧
  files_after [SetSeed (F:=Z) 0] ∅ = ∅.
Proof.
  assert (H : evaluate_single_run_sym lost_run = ([SetSeed 0], Raise ValueError))
    by (vm_compute; reflexivity).
  split; [exact H|].
  apply (failed_run_saves_nothing construct_sym representation_dim_sym get_env_sym Z
           online_learning_sym no_repr lost_run _ _ ∅ H).
Defined.

(** Run 1 of "DQN" on CartPole leaves its returns where the aggregator
    looks for them. *)
Lemma saved_files_round_trip_witness :
  ∃ t,
    evaluate_single_run_sym (dqn_run 1) = (t, Ok ()) ∧
    files_after t ∅ !! "outputs/CartPole-v1/DQN/1_return.npy" = Some [1; 11; 21]%Z.
Proof.
  assert (Hok : (evaluate_single_run_sym (dqn_run 1)).2 = Ok ())
    by (vm_compute; reflexivity).
  destruct (evaluate_single_run_sym (dqn_run 1)) as [t r] eqn:H.
  simpl in Hok. subst r. exists t. split; [reflexivity|].
  destruct (saved_files_round_trip construct_sym representation_dim_sym get_env_sym Z
              online_learning_sym no_repr (dqn_run 1) t ∅ H)
    as (m & e & pl & s & agent & name & info
        & Hm & He & Hr & _ & Hname & Hinfo & Hfound & _).
  clear H. injection Hm as <-. vm_compute in He. injection He as <-.
  rewrite (final_method_entry _ _ _ "name" Hr) in Hname. clear Hr.
  vm_compute in Hname. injection Hname as <-.
  unfold online_learning_sym in Hinfo. simpl in Hinfo. injection Hinfo as <-.
  apply (Hfound ltac:(by apply (bool_decide_unpack _)) "return" [1; 11; 21]%Z).
  apply list_elem_of_here.
Defined.

(** Runs 0 and 1 of one metric go to different files. *)
Lemma run_files_distinct_witness :
  run_path no_repr (VStr "CartPole-v1") (VStr "DQN") 0 "return"
  ≠ run_path no_repr (VStr "CartPole-v1") (VStr "DQN") 1 "return".
Proof.
  apply (run_files_distinct no_repr (VStr "CartPole-v1") (VStr "DQN") 0 1 "return" "return").
  intros [=].
Defined.

(** Three runs of "DQN" on CartPole, written in any order, are read back in
    run order. *)
Lemma runs_round_trip_witness :
  let t := mjoin ((λ r, (evaluate_single_run_sym (dqn_run r)).1) <$> range 3) in
  found_runs no_repr (files_after t ∅) (VStr "CartPole-v1") (VStr "DQN") "return" 3
  = [[0; 10; 20]; [1; 11; 21]; [2; 12; 22]]%Z ∧
  missing_notices no_repr (files_after t ∅) (VStr "CartPole-v1") (VStr "DQN") "return" 3
  = [].
Proof.
  intros t.
  apply (runs_round_trip construct_sym representation_dim_sym get_env_sym Z
           online_learning_sym no_repr dqn_run dqn_metrics
           (λ r, [r; r + 10; r + 20]%Z) (VStr "CartPole-v1") (VStr "DQN") "return" 3 t ∅);
    [|reflexivity].
  intros r Hr. change (range 3) with [0; 1; 2]%Z in Hr.
  assert (r = 0 ∨ r = 1 ∨ r = 2)%Z as [->|[->| ->]].
  { repeat (apply elem_of_cons in Hr as [->|Hr]; [tauto|]). by apply elem_of_nil in Hr. }
  all: split_and!;
    [ reflexivity | reflexivity | by vm_compute
    | by apply (bool_decide_unpack _) | apply list_elem_of_here ].
Defined.

End ExecutorExamples.

(** ** The charts *)

Module ChartFacts.
Import Py PyFacts Aggregator AggregatorFacts AggregatorSpec EffFacts.

Section WithNumpy.
Variable F : Type.
Variables mean0 std0 : list F → F.
Variables fadd fsub fdiv : F → F → F.
Variable sqrt_int : Z → F.
Variable repr_object : value → string.

Local Abbreviation load_runs := (load_runs repr_object).
Local Abbreviation method_curve := (method_curve mean0 std0 fdiv sqrt_int repr_object).
Local Abbreviation plot_method := (plot_method mean0 std0 fadd fsub fdiv sqrt_int repr_object).
Local Abbreviation plot_attribute :=
  (plot_attribute mean0 std0 fadd fsub fdiv sqrt_int repr_object).
Local Abbreviation generate_one_plot :=
  (generate_one_plot mean0 std0 fadd fsub fdiv sqrt_int repr_object).
Local Abbreviation chart_path := (chart_path repr_object).

Ltac events :=
  repeat first
    [ apply events_lift
    | apply events_ret
    | apply events_tell; exact I
    | apply events_bind; [|intros ? _] ].

Lemma load_runs_events (fs : gmap string (list F)) env_name method attr runs data :
  Forall not_savefig (load_runs fs env_name method attr runs data).1.
Proof.
  revert data. induction runs as [|run rest IH]; intros data; [constructor|].
  rewrite load_runs_cons. apply events_bind; [apply events_lift|]. intros name _.
  destruct (fs !! _); [apply IH|].
  apply events_bind; [by apply events_tell|]. intros _ _. apply IH.
Qed.

Lemma plot_method_events (fs : gmap string (list F)) env_name num_runs record_period
    attr method :
  Forall not_savefig (plot_method fs env_name num_runs record_period attr method).1.
Proof.
  unfold Aggregator.plot_method, Aggregator.method_curve.
  apply events_bind.
  - apply events_bind; [apply events_lift|]. intros n _.
    apply events_bind; [apply load_runs_events|]. intros data _. events.
  - intros c _. events.
Qed.

End WithNumpy.
End ChartFacts.

Module ChartTheorems.
Import Py PyFacts Aggregator AggregatorFacts AggregatorSpec EffFacts ChartFacts.

Section WithNumpy.
Variable F : Type.
Variables mean0 std0 : list F → F.
Variables fadd fsub fdiv : F → F → F.
Variable sqrt_int : Z → F.
Variable repr_object : value → string.

Local Abbreviation plot_method := (plot_method mean0 std0 fadd fsub fdiv sqrt_int repr_object).
Local Abbreviation plot_attribute :=
  (plot_attribute mean0 std0 fadd fsub fdiv sqrt_int repr_object).
Local Abbreviation generate_one_plot :=
  (generate_one_plot mean0 std0 fadd fsub fdiv sqrt_int repr_object).
Local Abbreviation chart_path := (chart_path repr_object).

(** The figures one attribute may save: its own chart, and only with a
    title for the attribute. *)
Lemma plot_attribute_events (fs : gmap string (list F)) experiment
    env_name exp_name num_runs record_period methods attr :
  Forall (λ ev, ∀ path, ev = SaveFig path →
            is_Some (attr_to_title !! attr) ∧ path = chart_path exp_name env_name attr)
    (plot_attribute fs experiment env_name exp_name num_runs record_period methods attr).1.
Proof.
  assert (Hquiet : ∀ ev : plot_event F, not_savefig ev →
            ∀ path, ev = SaveFig path →
              is_Some (attr_to_title !! attr) ∧ path = chart_path exp_name env_name attr).
  { intros ev Hev path ->. done. }
  unfold Aggregator.plot_attribute.
  apply events_bind; [apply events_lift|]. intros ms _.
  apply events_bind.
  { apply events_for_each. intros m _.
    eapply Forall_impl; [apply plot_method_events | exact Hquiet]. }
  intros _ _.
  apply events_bind; [apply events_lift|]. intros title _.
  do 4 (apply events_bind; [by apply events_tell|]; intros _ _).
  destruct (attr_to_title !! attr) as [ylabel|] eqn:Ey.
  2:{ apply events_bind; [apply events_lift|]. intros ? [=]. }
  apply events_bind; [apply events_lift|]. intros ? _.
  do 2 (apply events_bind; [by apply events_tell|]; intros _ _).
  apply events_bind.
  - apply events_tell. intros path [= <-]. split; [by eexists | done].
  - intros _ _. by apply events_tell.
Qed.

Lemma plot_attribute_unknown (fs : gmap string (list F)) experiment
    env_name exp_name num_runs record_period methods attr :
  attr_to_title !! attr = None →
  is_ok (plot_attribute fs experiment env_name exp_name num_runs record_period
           methods attr).2 = false.
Proof.
  intros Hnone.
  destruct (plot_attribute _ _ _ _ _ _ _ _) as [t [[]|e]] eqn:E; [|done].
  exfalso. unfold Aggregator.plot_attribute in E.
  apply eff_bind_inv_ok in E as (? & ms & ? & _ & E & _).
  apply eff_bind_inv_ok in E as (? & [] & ? & _ & E & _).
  apply eff_bind_inv_ok in E as (? & title & ? & _ & E & _).
  do 4 (apply eff_bind_inv_ok in E as (? & [] & ? & _ & E & _)).
  apply eff_bind_inv_ok in E as (? & ylabel & ? & E & _).
  apply lift_inv_ok in E as [E _]. by rewrite Hnone in E.
Qed.

Local Abbreviation generate_one_plot_body fs experiment attrs1 attr attrs2 :=
  (env_name ← lift (getitem experiment "env_name");
   exp_name ← lift (getitem experiment "exp_name");
   num_runs ← lift (getitem experiment "num_runs");
   record_period ← lift (getitem experiment "record_period");
   methods ← lift (getitem experiment "methods");
   for_each (plot_attribute fs experiment env_name exp_name num_runs record_period
               methods) (attrs1 ++ attr :: attrs2)) (only parsing).

(** X20.  An attribute without an entry in the table of axis titles: the
    charts of the attributes before it are drawn, then [generate_one_plot]
    raises; no figure is saved for that attribute nor for any attribute
    after it. *)
Theorem unknown_attribute_saves_no_chart (fs : gmap string (list F)) experiment
    (attrs1 attrs2 : list string) attr :
  attr_to_title !! attr = None →
  is_ok (generate_one_plot fs experiment (attrs1 ++ attr :: attrs2)).2 = false ∧
  ∀ path, SaveFig path ∈ (generate_one_plot fs experiment (attrs1 ++ attr :: attrs2)).1 →
    ∃ a, a ∈ attrs1 ∧ is_Some (attr_to_title !! a) ∧
         path = chart_path (dict_get experiment "exp_name")
                  (dict_get experiment "env_name") a.
Proof.
  intros Hnone.
  set (P := λ ev : plot_event F, ∀ path, ev = SaveFig path →
          ∃ a, a ∈ attrs1 ∧ is_Some (attr_to_title !! a) ∧
               path = chart_path (dict_get experiment "exp_name")
                        (dict_get experiment "env_name") a).
  enough (is_ok (generate_one_plot fs experiment (attrs1 ++ attr :: attrs2)).2 = false ∧
          Forall P (generate_one_plot fs experiment (attrs1 ++ attr :: attrs2)).1)
    as [H1 H2].
  { split; [done|]. intros path Hin. rewrite Forall_forall in H2.
    by apply (H2 _ Hin). }
  unfold Aggregator.generate_one_plot.
  assert (HP : P (RcFontSize 15)) by (intros path [=]).
  rewrite eff_bind_tell. cbn [fst snd].
  enough (is_ok (generate_one_plot_body fs experiment attrs1 attr attrs2).2 = false ∧
          Forall P (generate_one_plot_body fs experiment attrs1 attr attrs2).1)
    as [H1 H2] by (split; [done | by constructor]).
  destruct (getitem experiment "env_name") as [env_name|] eqn:E1;
    [rewrite lift_ok_bind | by split; [|constructor]].
  destruct (getitem experiment "exp_name") as [exp_name|] eqn:E2;
    [rewrite lift_ok_bind | by split; [|constructor]].
  destruct (getitem experiment "num_runs") as [num_runs|] eqn:E3;
    [rewrite lift_ok_bind | by split; [|constructor]].
  destruct (getitem experiment "record_period") as [record_period|] eqn:E4;
    [rewrite lift_ok_bind | by split; [|constructor]].
  destruct (getitem experiment "methods") as [methods|] eqn:E5;
    [rewrite lift_ok_bind | by split; [|constructor]].
  apply getitem_ok in E1, E2.
  subst P. rewrite (dict_get_lookup _ _ _ E1), (dict_get_lookup _ _ _ E2).
  destruct (for_each_stops
              (λ ev : plot_event F, ∀ path, ev = SaveFig path →
                 ∃ a, a ∈ attrs1 ∧ is_Some (attr_to_title !! a) ∧
                      path = chart_path exp_name env_name a)
              (plot_attribute fs experiment env_name exp_name num_runs record_period
                 methods) attrs1 attrs2 attr) as [Hall Hfail].
  - intros a Ha. eapply Forall_impl; [apply plot_attribute_events|].
    intros ev Hev path ->. destruct (Hev path eq_refl) as [Ht ->]. by exists a.
  - eapply Forall_impl; [apply plot_attribute_events|].
    intros ev Hev path ->. destruct (Hev path eq_refl) as [[? Ht] _]. congruence.
  - by apply plot_attribute_unknown.
  - done.
Qed.

(** X21.  A chart that is completed: the curves of the methods in the order
    of the descriptor, then the title (the environment name with dashes for
    underscores), scientific tick labels on both axes, the x label "Steps"
    when the experiment has [num_steps] and "Episodes" otherwise, the y
    label of the attribute, the legend, one figure saved under the name of
    experiment, environment and attribute, and the figure closed. *)
Theorem completed_chart (fs : gmap string (list F)) experiment
    env_name exp_name num_runs record_period methods attr t :
  plot_attribute fs experiment env_name exp_name num_runs record_period methods attr
  = (t, Ok ()) →
  ∃ ms s ylabel,
    py_iter methods = Ok ms ∧
    env_name = VStr s ∧
    attr_to_title !! attr = Some ylabel ∧
    Forall (λ m, (plot_method fs env_name num_runs record_period attr m).2 = Ok ()) ms ∧
    t = mjoin ((λ m, (plot_method fs env_name num_runs record_period attr m).1) <$> ms)
        ++ decorations experiment (dashes s) ylabel (chart_path exp_name env_name attr).
Proof.
  unfold Aggregator.plot_attribute. intros E.
  apply eff_bind_inv_ok in E as (? & ms & ? & [Hms ->]%lift_inv_ok & E & ->).
  apply eff_bind_inv_ok in E as (t1 & [] & ? & [-> Hall]%for_each_inv_ok & E & ->).
  apply eff_bind_inv_ok in E as (? & title & ? & [Htitle ->]%lift_inv_ok & E & ->).
  do 4 (apply eff_bind_inv_ok in E as (? & [] & ? & ->%tell_inv & E & ->)).
  apply eff_bind_inv_ok in E as (? & ylabel & ? & [Hy ->]%lift_inv_ok & E & ->).
  do 3 (apply eff_bind_inv_ok in E as (? & [] & ? & ->%tell_inv & E & ->)).
  apply tell_inv in E as ->.
  destruct env_name; try done. injection Htitle as <-.
  destruct (attr_to_title !! attr) as [y|]; [|done]. injection Hy as <-.
  eexists ms, _, y. split_and!; try done.
Qed.

End WithNumpy.
End ChartTheorems.

Module ChartExamples.
Import Py PyFacts Aggregator AggregatorSpec Examples Samples ChartTheorems.

(** "loss" has no axis title: the chart of "return" is saved, then the
    generation stops. *)
Lemma unknown_attribute_saves_no_chart_witness :
  attr_to_title !! "loss" = None ∧
  is_ok (generate_one_plot_z two_of_three dqn_experiment ["return"; "loss"]).2 = false ∧
  ∀ path,
    SaveFig path ∈ (generate_one_plot_z two_of_three dqn_experiment ["return"; "loss"]).1 →
    path = "outputs/benchmark_cartpole_v1_part_1_CartPole-v1_return.png".
Proof.
  assert (Hnone : attr_to_title !! "loss" = None) by (vm_compute; reflexivity).
  split; [exact Hnone|].
  destruct (unknown_attribute_saves_no_chart Z z_mean z_spread Z.add Z.sub Z.div z_sqrt
              no_repr two_of_three dqn_experiment ["return"] [] "loss" Hnone)
    as [Hfail Hsaved].
  split; [exact Hfail|].
  intros path Hin. destruct (Hsaved path Hin) as (a & Ha & _ & ->).
  apply list_elem_of_singleton in Ha as ->. by vm_compute.
Defined.

(** The chart of "return" for the one-method experiment. *)
Lemma completed_chart_witness :
  ∃ t curves,
    plot_attribute_z two_of_three dqn_experiment (VStr "CartPole-v1")
      (VStr "benchmark_cartpole_v1_part_1") (VInt 3) (VInt 1) (VList [VDict dqn]) "return"
    = (t, Ok ()) ∧
    t = curves ++ decorations dqn_experiment "CartPole-v1" "return"
                    "outputs/benchmark_cartpole_v1_part_1_CartPole-v1_return.png".
Proof.
  assert (Hok : (plot_attribute_z two_of_three dqn_experiment (VStr "CartPole-v1")
                   (VStr "benchmark_cartpole_v1_part_1") (VInt 3) (VInt 1)
                   (VList [VDict dqn]) "return").2 = Ok ())
    by (vm_compute; reflexivity).
  destruct (plot_attribute_z _ _ _ _ _ _ _ _) as [t r] eqn:H.
  simpl in Hok. subst r.
  destruct (completed_chart Z z_mean z_spread Z.add Z.sub Z.div z_sqrt no_repr
              two_of_three dqn_experiment (VStr "CartPole-v1")
              (VStr "benchmark_cartpole_v1_part_1") (VInt 3) (VInt 1)
              (VList [VDict dqn]) "return" t H)
    as (ms & s & ylabel & _ & Hs & Hy & _ & ->).
  clear H. injection Hs as <-. vm_compute in Hy. injection Hy as <-.
  eexists _, _. split; [reflexivity|]. f_equal.
Defined.

End ChartExamples.

(** ** The launcher: failures and shared descriptors *)

Module LaunchTheorems.
Import Py PyFacts Launcher LauncherFacts EffFacts.

Lemma evaluate_missing_key (experiment : dict) (all_processes : list process) k :
  k ∈ ["env_name"; "num_runs"; "record_period"; "methods"] →
  experiment !! k = None →
  is_ok (evaluate experiment all_processes) = false.
Proof.
  intros Hk Hnone. unfold evaluate, getitem.
  repeat (apply elem_of_cons in Hk as [->|Hk];
          [rewrite Hnone; simpl; try done;
           repeat (match goal with |- context [match ?d !! ?k with _ => _ end] =>
                     destruct (d !! k); simpl; try done end)|]).
  by apply elem_of_nil in Hk.
Qed.

Lemma evaluate_all_fails (experiments : list dict) x (all_processes : list process) :
  x ∈ experiments →
  (∀ acc, is_ok (evaluate x acc) = false) →
  is_ok (evaluate_all experiments all_processes) = false.
Proof.
  intros Hx Hfail. revert all_processes.
  induction experiments as [|y ys IH]; intros acc; [by apply elem_of_nil in Hx|].
  simpl. destruct (evaluate y acc) as [acc'|err] eqn:Ey; [|done]. simpl.
  apply elem_of_cons in Hx as [->|Hx].
  - specialize (Hfail acc). by rewrite Ey in Hfail.
  - by apply IH.
Qed.

(** X22.  Every experiment is expanded into its processes before the first
    process is started: when any experiment of the list, even the last,
    lacks one of the keys [env_name], [num_runs], [record_period] and
    [methods], the launcher raises without having started a single run. *)
Theorem nothing_started_on_bad_experiment (experiments : list dict) x k :
  x ∈ experiments →
  k ∈ ["env_name"; "num_runs"; "record_period"; "methods"] →
  x !! k = None →
  (run experiments).1 = [] ∧ is_ok (run experiments).2 = false.
Proof.
  intros Hx Hk Hnone. unfold run.
  destruct experiments as [|y ys]; [by apply elem_of_nil in Hx|].
  change (0 <? length (y :: ys))%nat with true. cbv iota.
  pose proof (evaluate_all_fails (y :: ys) x [] Hx
                (λ acc, evaluate_missing_key x acc k Hk Hnone)) as Hfail.
  destruct (evaluate_all (y :: ys) []) as [ps|err]; [done|].
  by rewrite lift_raise_bind.
Qed.

End LaunchTheorems.

Module LaunchExamples.
Import Py PyFacts Launcher Examples Samples LaunchTheorems.

(** The second experiment has lost its methods: nothing is started, not
    even the six runs of the first. *)
Lemma nothing_started_on_bad_experiment_witness :
  (run [cartpole_experiment; delete "methods" cartpole_experiment]).1 = [] ∧
  is_ok (run [cartpole_experiment; delete "methods" cartpole_experiment]).2 = false.
Proof.
  apply (nothing_started_on_bad_experiment
           [cartpole_experiment; delete "methods" cartpole_experiment]
           (delete "methods" cartpole_experiment) "methods").
  - apply list_elem_of_further, list_elem_of_here.
  - do 3 apply list_elem_of_further. apply list_elem_of_here.
  - apply lookup_delete_eq.
Defined.

End LaunchExamples.

Module SharingFacts.
Import Py PyFacts Launcher Sharing EffFacts.

(** The [agent_args] entry of the object [r] refers to. *)
Local Abbreviation agent_args_at σ r := (σ !! r ≫= λ m : dict, m !! "agent_args").

Lemma set_agent_args_ok σ method dev σ' :
  set_agent_args σ method dev = Ok σ' →
  (∀ r, r ≠ method → σ' !! r = σ !! r) ∧
  agent_args_at σ' method = Some (VDict {["device_id" := dev]}).
Proof.
  unfold set_agent_args. destruct (σ !! method) as [m|]; [|done].
  intros [= <-]. split.
  - intros r Hr. by rewrite lookup_insert_ne.
  - rewrite lookup_insert_eq. simpl. apply lookup_insert_eq.
Qed.

Section Spawn.
Variable settings : dict.
Variables env_name num_runs num_episodes num_steps record_period
          print_every_x_episodes print_every_x_steps : value.

Local Abbreviation spawn :=
  (spawn_methods settings env_name num_runs num_episodes num_steps record_period
     print_every_x_episodes print_every_x_steps).

Lemma spawn_methods_store methods σ ps σ' ps' :
  spawn methods σ ps = Ok (σ', ps') →
  (∀ r, r ∉ methods → σ' !! r = σ !! r) ∧
  (∀ r, r ∈ methods →
     ∃ dev, settings !! "device_id" = Some dev ∧
            agent_args_at σ' r = Some (VDict {["device_id" := dev]})) ∧
  (∀ p, p ∈ ps' → p ∈ ps ∨ pd_method p ∈ methods).
Proof.
  revert σ ps. induction methods as [|method rest IH]; intros σ ps H; simpl in H.
  - injection H as <- <-. split_and!; [done| |by left].
    intros r Hr. by apply elem_of_nil in Hr.
  - inv_ok. apply getitem_ok in Ha.
    apply set_agent_args_ok in Ha0 as [Hframe Hset].
    apply IH in H as (IH1 & IH2 & IH3). split_and!.
    + intros r Hr. apply not_elem_of_cons in Hr as [Hne Hr].
      rewrite IH1 by done. by apply Hframe.
    + intros r Hr. destruct (decide (r ∈ rest)) as [Hin|Hout]; [by apply IH2|].
      apply elem_of_cons in Hr as [->|Hr]; [|done].
      exists a. split; [done|]. by rewrite IH1.
    + intros p Hp. apply IH3 in Hp as [Hp|Hp].
      * apply elem_of_app in Hp as [Hp|Hp]; [by left|]. right.
        apply list_elem_of_fmap in Hp as (run & -> & _). apply list_elem_of_here.
      * right. by apply list_elem_of_further.
Qed.

End Spawn.

Lemma evaluate_store x σ acc σ' ps' :
  evaluate x σ acc = Ok (σ', ps') →
  (∀ r, r ∉ x_methods x → σ' !! r = σ !! r) ∧
  (∀ r, r ∈ x_methods x →
     ∃ dev, x_settings x !! "device_id" = Some dev ∧
            agent_args_at σ' r = Some (VDict {["device_id" := dev]})) ∧
  (∀ p, p ∈ ps' → p ∈ acc ∨ pd_method p ∈ x_methods x).
Proof.
  unfold evaluate. intros H.
  destruct (getitem (x_settings x) "env_name") as [env_name|]; [|done]. csimpl in H.
  destruct (getitem (x_settings x) "num_runs") as [num_runs|]; [|done]. csimpl in H.
  destruct (getitem (x_settings x) "record_period") as [record_period|]; [|done].
  csimpl in H.
  destruct (spawn_methods _ _ _ _ _ _ _ _ _ _ _) as [[σ1 ps1]|] eqn:Hs; [|done].
  csimpl in H. injection H as <- <-.
  apply spawn_methods_store in Hs as (H1 & H2 & H3).
  split_and!; [done|done|].
  intros p Hp. apply elem_of_app in Hp as [Hp|Hp]; [by left|].
  apply H3 in Hp as [Hp|Hp]; [by apply elem_of_nil in Hp | by right].
Qed.

Lemma evaluate_all_store xs σ acc σ' ps' :
  evaluate_all xs σ acc = Ok (σ', ps') →
  (∀ r, agent_args_at σ' r
        = match last_device xs r with
          | Some dev => Some (VDict {["device_id" := dev]})
          | None => agent_args_at σ r
          end) ∧
  (∀ r, last_device xs r = None → σ' !! r = σ !! r) ∧
  (∀ p, p ∈ ps' → p ∈ acc ∨ is_Some (last_device xs (pd_method p))).
Proof.
  revert σ acc. induction xs as [|x rest IH]; intros σ acc H; simpl in H.
  - injection H as <- <-. split_and!; [done|done|by left].
  - destruct (evaluate x σ acc) as [[σ1 ps1]|err] eqn:Hx; [|done]. simpl in H.
    apply evaluate_store in Hx as (X1 & X2 & X3).
    apply IH in H as (IH1 & IH2 & IH3). split_and!.
    + intros r. rewrite IH1. simpl. destruct (last_device rest r); [done|].
      case_bool_decide as Hr.
      * destruct (X2 r Hr) as (dev & -> & ->). done.
      * by rewrite X1.
    + intros r. simpl. destruct (last_device rest r) eqn:El; [done|].
      case_bool_decide as Hr.
      * intros Hnone. destruct (X2 r Hr) as (dev & Hdev & _). congruence.
      * intros _. rewrite IH2 by done. by apply X1.
    + intros p Hp. apply IH3 in Hp as [Hp|Hp].
      * apply X3 in Hp as [Hp|Hp]; [by left|]. right. simpl.
        destruct (last_device rest (pd_method p)); [by eexists|].
        rewrite bool_decide_eq_true_2 by done.
        destruct (X2 _ Hp) as (dev & -> & _). by eexists.
      * right. simpl. destruct Hp as [dev ->]. by eexists.
Qed.

End SharingFacts.

Module SharingTheorems.
Import Py PyFacts Launcher Sharing EffFacts SharingFacts.

(** X23.  Descriptors are shared objects and the processes are started only
    after every experiment has been expanded: each run reads, as
    [agent_args], the device identifier of the last experiment of the list
    that lists its descriptor, which need not be the experiment the run
    belongs to. *)
Theorem shared_descriptor_reads_last_device (σ σ' : store) (xs : list experiment)
    (t : list launch_event) (p : pending) (descriptor : dict) :
  run σ xs = (t, Ok σ') →
  Launched p descriptor ∈ t →
  ∃ dev,
    last_device xs (pd_method p) = Some dev ∧
    descriptor !! "agent_args" = Some (VDict {["device_id" := dev]}).
Proof.
  unfold run. destruct (0 <? length xs)%nat; [|done]. intros H Hin.
  apply eff_bind_inv_ok in H as (? & [σ1 ps] & ? & [Hall ->]%lift_inv_ok & H & ->).
  apply eff_bind_inv_ok in H as (t1 & [] & ? & [-> _]%for_each_inv_ok & H & ->).
  apply eff_bind_inv_ok in H as (t2 & [] & ? & Hjoin & [= <- <-] & ->).
  rewrite for_each_tell in Hjoin. injection Hjoin as <-.
  simpl in Hin. rewrite app_nil_r in Hin.
  apply elem_of_app in Hin as [Hin|Hin].
  2:{ apply list_elem_of_fmap in Hin as (? & [=] & _). }
  apply list_elem_of_join in Hin as (l & Hin & (q & -> & Hq)%list_elem_of_fmap).
  apply list_elem_of_singleton in Hin. injection Hin as -> ->.
  apply evaluate_all_store in Hall as (H1 & _ & H3).
  destruct (H3 q Hq) as [Hq'|[dev Hdev]]; [by apply elem_of_nil in Hq'|].
  exists dev. split; [done|].
  specialize (H1 (pd_method q)). rewrite Hdev in H1.
  destruct (σ1 !! pd_method q) as [m|]; simpl in *; done.
Qed.

End SharingTheorems.

Module SharingExamples.
Import Py PyFacts Launcher Sharing Examples SharingSamples SharingTheorems.

(** All six runs, those of the first experiment included, read device 1. *)
Lemma shared_descriptor_reads_last_device_witness :
  length (run shared_store shared_experiments).1 = 12%nat ∧
  ∀ p descriptor,
    Launched p descriptor ∈ (run shared_store shared_experiments).1 →
    descriptor !! "agent_args" = Some (VDict {["device_id" := VInt 1]}).
Proof.
  split; [by vm_compute|].
  assert (Hok : is_ok (run shared_store shared_experiments).2 = true)
    by (vm_compute; reflexivity).
  destruct (run shared_store shared_experiments) as [t [σ'|err]] eqn:H; [|done].
  clear Hok. intros p descriptor Hin.
  destruct (shared_descriptor_reads_last_device shared_store σ' shared_experiments t
              p descriptor H Hin) as (dev & Hdev & Hargs).
  clear H Hin. rewrite Hargs. simpl in Hdev.
  destruct (bool_decide (pd_method p ∈ [0%nat])); [|done].
  vm_compute in Hdev. by injection Hdev as <-.
Defined.

End SharingExamples.
